(** * gin-crud-starter: the request-handling and error-mapping pipeline

    A shallow embedding of the user stack (controller, service, repository),
    of the error taxonomy of [pkg/errors] and of the flat item handler,
    together with the properties of the specification that concern them.

    The Go code runs against three collaborators that are not part of the
    repository: the relational store reached through GORM, the bcrypt
    implementation and gin's JSON binding.  The store is modelled by the
    tables it holds and by the statements GORM sends for each call the code
    makes; bcrypt and the e-mail syntax check stay abstract (section
    variables); the validation rules are read off the [binding] tags of the
    input structs. *)

From Stdlib Require Import String Ascii List ZArith NArith Bool Lia.
Import ListNotations.
Local Open Scope string_scope.
Local Open Scope list_scope.
Set Warnings "-register-all".

(** ** Go values shared by all layers *)

Module Go.

(** A slice is either the nil slice or a backing array with elements:
    [var s []T] declares the former, [append] always yields the latter. *)
Inductive slice (A : Type) : Type :=
| nil_slice
| Slice (elems : list A).
Arguments nil_slice {A}.
Arguments Slice {A} elems.

Definition elements {A} (s : slice A) : list A :=
  match s with
  | nil_slice => []
  | Slice l => l
  end.

Definition append {A} (s : slice A) (x : A) : slice A :=
  Slice (elements s ++ [x]).

(** [for _, x := range xs { acc = f acc x }] *)
Definition range {A B} (f : B -> A -> B) (xs : slice A) (acc : B) : B :=
  fold_left f (elements xs) acc.

(** [utf8.RuneCountInString] on well-formed UTF-8, which is what JSON
    decoding delivers: the bytes that are not continuation bytes. *)
Fixpoint RuneCountInString (s : string) : nat :=
  match s with
  | EmptyString => 0
  | String c rest =>
      let n := N_of_ascii c in
      if ((128 <=? n) && (n <? 192))%N
      then RuneCountInString rest
      else S (RuneCountInString rest)
  end.

End Go.

(** ** JSON documents written to the response *)

Inductive json : Type :=
| JNull
| JBool (b : bool)
| JNum (n : Z)
| JStr (s : string)
| JTime (t : N)                          (* a string holding the RFC 3339 form of instant [t] *)
| JArr (elems : list json)
| JObj (fields : list (string * json)).

Definition json_field (k : string) (j : json) : option json :=
  match j with
  | JObj fields =>
      match find (fun kv => String.eqb (fst kv) k) fields with
      | Some kv => Some (snd kv)
      | None => None
      end
  | _ => None
  end.

Definition json_keys (j : json) : list string :=
  match j with
  | JObj fields => map fst fields
  | _ => []
  end.

(** ** pkg/errors *)

(** Go error values.  [ErrRecordNotFound] is GORM's sentinel (compared by
    identity in the repository), [ErrNew] any other opaque error
    ([errors.New], a driver or context error, a bcrypt error), [ErrWrap] an
    error wrapping another ([fmt.Errorf] with [%w]) and [ErrApp] a
    [*AppError]. *)
Inductive error : Type :=
| ErrRecordNotFound
| ErrNew (msg : string)
| ErrWrap (msg : string) (inner : error)
| ErrApp (a : AppError)
with AppError : Type :=
| mkAppError (StatusCode : Z) (Code Message : string)
             (Details : option json) (Err : option error).

Module apperrors.

Definition StatusCode (e : AppError) : Z :=
  let '(mkAppError s _ _ _ _) := e in s.
Definition Code (e : AppError) : string :=
  let '(mkAppError _ c _ _ _) := e in c.
Definition Message (e : AppError) : string :=
  let '(mkAppError _ _ m _ _) := e in m.
Definition Details (e : AppError) : option json :=
  let '(mkAppError _ _ _ d _) := e in d.
Definition Err (e : AppError) : option error :=
  let '(mkAppError _ _ _ _ c) := e in c.

(** [net/http] status constants used by the package. *)
Definition StatusOK : Z := 200.
Definition StatusCreated : Z := 201.
Definition StatusNoContent : Z := 204.
Definition StatusBadRequest : Z := 400.
Definition StatusUnauthorized : Z := 401.
Definition StatusForbidden : Z := 403.
Definition StatusNotFound : Z := 404.
Definition StatusConflict : Z := 409.
Definition StatusInternalServerError : Z := 500.

Definition ErrCodeInvalidInput := "INVALID_INPUT".
Definition ErrCodeResourceNotFound := "RESOURCE_NOT_FOUND".
Definition ErrCodeDuplicateResource := "DUPLICATE_RESOURCE".
Definition ErrCodeDatabase := "DATABASE_ERROR".
Definition ErrCodeInternal := "INTERNAL_ERROR".
Definition ErrCodeUnauthorized := "UNAUTHORIZED".
Definition ErrCodeForbidden := "FORBIDDEN".

Definition New (statusCode : Z) (code message : string)
           (details : option json) (err : option error) : AppError :=
  mkAppError statusCode code message details err.

Definition NewInvalidInputError message details err :=
  New StatusBadRequest ErrCodeInvalidInput message details err.
Definition NewResourceNotFoundError message details err :=
  New StatusNotFound ErrCodeResourceNotFound message details err.
Definition NewDuplicateResourceError message details err :=
  New StatusConflict ErrCodeDuplicateResource message details err.
Definition NewDatabaseError message err :=
  New StatusInternalServerError ErrCodeDatabase message None err.
Definition NewInternalError message err :=
  New StatusInternalServerError ErrCodeInternal message None err.
Definition NewUnauthorizedError message err :=
  New StatusUnauthorized ErrCodeUnauthorized message None err.
Definition NewForbiddenError message err :=
  New StatusForbidden ErrCodeForbidden message None err.

(** [Unwrap]: the next error of the chain, for every kind of error value. *)
Definition Unwrap (e : error) : option error :=
  match e with
  | ErrRecordNotFound | ErrNew _ => None
  | ErrWrap _ inner => Some inner
  | ErrApp a => Err a
  end.

(** [errors.As(err, &appErr)] with [appErr] of type [*AppError]: the first
    error of the chain that is an [*AppError]. *)
Fixpoint errors_As (e : error) : option AppError :=
  match e with
  | ErrRecordNotFound | ErrNew _ => None
  | ErrWrap _ inner => errors_As inner
  | ErrApp a => Some a
  end.

Definition IsNotFound (e : error) : bool :=
  match errors_As e with
  | Some appErr => (StatusCode appErr =? StatusNotFound)%Z
  | None => false
  end.

Definition GetStatusCode (e : error) : Z :=
  match errors_As e with
  | Some appErr => StatusCode appErr
  | None => StatusInternalServerError
  end.

(** [json.Marshal] of an [*AppError]: [StatusCode] and [Err] carry the tag
    [json:"-"], [Details] carries [omitempty]. *)
Definition marshal (e : AppError) : json :=
  JObj ([("code", JStr (Code e)); ("message", JStr (Message e))]
        ++ match Details e with
           | Some d => [("details", d)]
           | None => []
           end).

End apperrors.

(** The closed set of kinds of section 4.4 of the specification, with the
    status and the machine code the table gives to each. *)
Inductive Kind : Type :=
| InvalidInput | ResourceNotFound | DuplicateResource | Database
| Internal | Unauthorized | Forbidden.

Definition kind_status (k : Kind) : Z :=
  match k with
  | InvalidInput => 400
  | ResourceNotFound => 404
  | DuplicateResource => 409
  | Database => 500
  | Internal => 500
  | Unauthorized => 401
  | Forbidden => 403
  end.

Definition kind_code (k : Kind) : string :=
  match k with
  | InvalidInput => "INVALID_INPUT"
  | ResourceNotFound => "RESOURCE_NOT_FOUND"
  | DuplicateResource => "DUPLICATE_RESOURCE"
  | Database => "DATABASE_ERROR"
  | Internal => "INTERNAL_ERROR"
  | Unauthorized => "UNAUTHORIZED"
  | Forbidden => "FORBIDDEN"
  end.

(** The constructor the package offers for each kind.  Four of them take no
    details and store none. *)
Definition construct (k : Kind) (message : string) (details : option json)
           (err : option error) : AppError :=
  match k with
  | InvalidInput => apperrors.NewInvalidInputError message details err
  | ResourceNotFound => apperrors.NewResourceNotFoundError message details err
  | DuplicateResource => apperrors.NewDuplicateResourceError message details err
  | Database => apperrors.NewDatabaseError message err
  | Internal => apperrors.NewInternalError message err
  | Unauthorized => apperrors.NewUnauthorizedError message err
  | Forbidden => apperrors.NewForbiddenError message err
  end.

(** An [*AppError] is of kind [k] when the constructor of [k] built it. *)
Definition of_kind (k : Kind) (e : AppError) : Prop :=
  exists message details err, e = construct k message details err.

(** An error is typed when its chain reaches an [*AppError]. *)
Fixpoint wraps_AppError (e : error) : bool :=
  match e with
  | ErrRecordNotFound | ErrNew _ => false
  | ErrWrap _ inner => wraps_AppError inner
  | ErrApp _ => true
  end.

(** ** strconv *)

Module strconv.

Definition digit (c : ascii) : option N :=
  let n := N_of_ascii c in
  if ((48 <=? n) && (n <=? 57))%N then Some (n - 48)%N else None.

(** The value of a run of decimal digits, [None] on any other byte. *)
Fixpoint digits (s : string) (acc : N) : option N :=
  match s with
  | EmptyString => Some acc
  | String c rest =>
      match digit c with
      | Some d => digits rest (acc * 10 + d)%N
      | None => None
      end
  end.

(** [strconv.ParseUint(s, 10, bitSize)]: digits only, no sign, no
    underscore, at least one digit, and a value below [2^bitSize];
    [None] stands for the returned [*NumError]. *)
Definition ParseUint (s : string) (bitSize : N) : option N :=
  match s with
  | EmptyString => None
  | _ =>
      match digits s 0 with
      | Some n => if (n <? 2 ^ bitSize)%N then Some n else None
      | None => None
      end
  end.

(** [strconv.Atoi(s)] on a 64-bit platform: an optional sign, then at
    least one digit, and a value that fits an [int]. *)
Definition Atoi (s : string) : option Z :=
  let '(neg, body) :=
    match s with
    | String "-"%char rest => (true, rest)
    | String "+"%char rest => (false, rest)
    | _ => (false, s)
    end in
  match body with
  | EmptyString => None
  | _ =>
      match digits body 0 with
      | Some n =>
          let z := if neg : bool then (- Z.of_N n)%Z else Z.of_N n in
          if ((- 2 ^ 63 <=? z) && (z <? 2 ^ 63))%Z then Some z else None
      | None => None
      end
  end.

End strconv.

(** ** The entities (package [entities], imported as [model]) *)

Module model.

Record User : Type := mkUser {
  ID : N;
  Name : string;
  Email : string;
  Password : string;
  Role : string;
  Active : bool;
  CreatedAt : N;
  UpdatedAt : N;
  DeletedAt : option N                  (* gorm.DeletedAt: NULL or an instant *)
}.

Record UserCreate : Type := mkUserCreate {
  cName : string;
  cEmail : string;
  cPassword : string;
  cRole : string
}.

(** Every field is a pointer: [None] is the nil pointer. *)
Record UserUpdate : Type := mkUserUpdate {
  uName : option string;
  uEmail : option string;
  uPassword : option string;
  uRole : option string;
  uActive : option bool
}.

Record UserResponse : Type := mkUserResponse {
  rID : N;
  rName : string;
  rEmail : string;
  rRole : string;
  rActive : bool;
  rCreatedAt : N;
  rUpdatedAt : N
}.

Definition ToResponse (u : User) : UserResponse :=
  {| rID := ID u;
     rName := Name u;
     rEmail := Email u;
     rRole := Role u;
     rActive := Active u;
     rCreatedAt := CreatedAt u;
     rUpdatedAt := UpdatedAt u |}.

(** [json.Marshal] of a [UserResponse], field by field as tagged. *)
Definition marshal_UserResponse (r : UserResponse) : json :=
  JObj [("id", JNum (Z.of_N (rID r)));
        ("name", JStr (rName r));
        ("email", JStr (rEmail r));
        ("role", JStr (rRole r));
        ("active", JBool (rActive r));
        ("created_at", JTime (rCreatedAt r));
        ("updated_at", JTime (rUpdatedAt r))].

(** [json.Marshal] of a [[]UserResponse]: the nil slice encodes as
    [null], any other slice as an array. *)
Definition marshal_UserResponses (rs : Go.slice UserResponse) : json :=
  match rs with
  | Go.nil_slice => JNull
  | Go.Slice l => JArr (map marshal_UserResponse l)
  end.

(** Field setters, for the assignments [user.F = v]. *)
Definition with_ID (v : N) (u : User) : User :=
  mkUser v (Name u) (Email u) (Password u) (Role u) (Active u)
         (CreatedAt u) (UpdatedAt u) (DeletedAt u).
Definition with_Name (v : string) (u : User) : User :=
  mkUser (ID u) v (Email u) (Password u) (Role u) (Active u)
         (CreatedAt u) (UpdatedAt u) (DeletedAt u).
Definition with_Email (v : string) (u : User) : User :=
  mkUser (ID u) (Name u) v (Password u) (Role u) (Active u)
         (CreatedAt u) (UpdatedAt u) (DeletedAt u).
Definition with_Password (v : string) (u : User) : User :=
  mkUser (ID u) (Name u) (Email u) v (Role u) (Active u)
         (CreatedAt u) (UpdatedAt u) (DeletedAt u).
Definition with_Role (v : string) (u : User) : User :=
  mkUser (ID u) (Name u) (Email u) (Password u) v (Active u)
         (CreatedAt u) (UpdatedAt u) (DeletedAt u).
Definition with_Active (v : bool) (u : User) : User :=
  mkUser (ID u) (Name u) (Email u) (Password u) (Role u) v
         (CreatedAt u) (UpdatedAt u) (DeletedAt u).
Definition with_CreatedAt (v : N) (u : User) : User :=
  mkUser (ID u) (Name u) (Email u) (Password u) (Role u) (Active u)
         v (UpdatedAt u) (DeletedAt u).
Definition with_UpdatedAt (v : N) (u : User) : User :=
  mkUser (ID u) (Name u) (Email u) (Password u) (Role u) (Active u)
         (CreatedAt u) v (DeletedAt u).
Definition with_DeletedAt (v : option N) (u : User) : User :=
  mkUser (ID u) (Name u) (Email u) (Password u) (Role u) (Active u)
         (CreatedAt u) (UpdatedAt u) v.

(** package [models]: the item of the flat handler.  [Price] is a
    [float64], kept as its 64-bit pattern. *)
Record Item : Type := mkItem {
  iID : N;
  iName : string;
  iPrice : N;
  iDescription : string;
  iCreatedAt : N;
  iUpdatedAt : N
}.

End model.
Import model.

(** ** The world a request runs in *)

(** Statements sent to the database. *)
Inductive Stmt : Type :=
| SelectUsers
| SelectUserByID (id : N)
| SelectUserByEmail (email : string)
| InsertUser (email : string)
| UpdateUser (id : N)
| UpsertUser (id : N)
| SoftDeleteUser (id : N)
| DeleteItem (id : Z).

(** What an observer of the process sees: a service method entered, a
    statement sent to the database. *)
Inductive Event : Type :=
| EvService (method : string)
| EvSQL (s : Stmt).

(** - [users], [items]: the two tables; [users_seq] the last value drawn
      from the sequence behind [users.id];
    - [clock]: the instant [time.Now] returns;
    - [faults]: what the driver does to the statements to come, in order:
      [Some msg] fails the statement with that message (lost connection,
      expired context), [None] or no entry lets it run;
    - [hashed]: how many bcrypt hashes the process has produced;
    - [trace]: the events so far, oldest first;
    - [logs]: the messages written through the logger. *)
Record World : Type := mkWorld {
  users : list User;
  users_seq : N;
  items : list Item;
  clock : N;
  faults : list (option string);
  hashed : nat;
  trace : list Event;
  logs : list string
}.

Definition set_users (v : list User) (w : World) : World :=
  mkWorld v (users_seq w) (items w) (clock w) (faults w) (hashed w) (trace w) (logs w).
Definition set_users_seq (v : N) (w : World) : World :=
  mkWorld (users w) v (items w) (clock w) (faults w) (hashed w) (trace w) (logs w).
Definition set_items (v : list Item) (w : World) : World :=
  mkWorld (users w) (users_seq w) v (clock w) (faults w) (hashed w) (trace w) (logs w).
Definition set_faults (v : list (option string)) (w : World) : World :=
  mkWorld (users w) (users_seq w) (items w) (clock w) v (hashed w) (trace w) (logs w).
Definition set_hashed (v : nat) (w : World) : World :=
  mkWorld (users w) (users_seq w) (items w) (clock w) (faults w) v (trace w) (logs w).
Definition set_trace (v : list Event) (w : World) : World :=
  mkWorld (users w) (users_seq w) (items w) (clock w) (faults w) (hashed w) v (logs w).
Definition set_logs (v : list string) (w : World) : World :=
  mkWorld (users w) (users_seq w) (items w) (clock w) (faults w) (hashed w) (trace w) v.

(** Code that reads and changes the world. *)
Definition M (A : Type) : Type := World -> A * World.

Definition ret {A} (a : A) : M A := fun w => (a, w).

Definition bind {A B} (m : M A) (k : A -> M B) : M B :=
  fun w => let (a, w') := m w in k a w'.

Notation "x <- m ;; k" := (bind m (fun x => k))
  (at level 61, m at next level, right associativity).
Notation "m ;;; k" := (bind m (fun _ => k))
  (at level 61, right associativity).

Definition gets {A} (f : World -> A) : M A := fun w => (f w, w).
Definition modify (f : World -> World) : M unit := fun w => (tt, f w).

Definition emit (e : Event) : M unit :=
  modify (fun w => set_trace (trace w ++ [e]) w).

(** A Go result [(T, error)]. *)
Inductive result (A : Type) : Type :=
| Ok (a : A)
| Err (e : error).
Arguments Ok {A} a.
Arguments Err {A} e.

(** [logger.Error(msg, fields...)]: the message is kept, the fields are not. *)
Module logger.
Definition Error (msg : string) : M unit :=
  modify (fun w => set_logs (logs w ++ [msg]) w).
End logger.

(** ** GORM over PostgreSQL, as far as the repository uses it *)

Module gorm.

(** Rows a query sees: [User] has a [gorm.DeletedAt] column, so every
    read and every update carries [deleted_at IS NULL]. *)
Definition live (u : User) : bool :=
  match DeletedAt u with
  | None => true
  | Some _ => false
  end.

(** The statement goes to the driver, which either runs it or fails it. *)
Definition exec (s : Stmt) : M (option string) :=
  emit (EvSQL s) ;;;
  fun w =>
    match faults w with
    | [] => (None, w)
    | f :: rest => (f, set_faults rest w)
    end.

(** [ORDER BY users.id LIMIT 1] *)
Fixpoint lowest (rows : list User) : option User :=
  match rows with
  | [] => None
  | u :: rest =>
      match lowest rest with
      | Some b => if (ID b <? ID u)%N then Some b else Some u
      | None => Some u
      end
  end.

(** Length of a column value in characters. *)
Definition chars (s : string) : nat := Go.RuneCountInString s.

(** The column sizes of the [gorm] tags: [size:100] for name, email and
    password, [size:20] for role. *)
Definition fits (u : User) : bool :=
  (chars (Name u) <=? 100)%nat && (chars (Email u) <=? 100)%nat
  && (chars (Password u) <=? 100)%nat && (chars (Role u) <=? 20)%nat.

Definition too_long := "value too long for type character varying".
Definition pkey_violation := "duplicate key value violates unique constraint users_pkey".
Definition email_violation := "duplicate key value violates unique constraint idx_users_email".

(** [db.First(&user, id)] *)
Definition First_by_id (id : N) : M (result User) :=
  f <- exec (SelectUserByID id) ;;
  match f with
  | Some msg => ret (Err (ErrNew msg))
  | None =>
      rows <- gets users ;;
      match lowest (filter (fun u => (ID u =? id)%N && live u) rows) with
      | Some u => ret (Ok u)
      | None => ret (Err ErrRecordNotFound)
      end
  end.

(** [db.Where("email = ?", email).First(&user)] *)
Definition First_by_email (email : string) : M (result User) :=
  f <- exec (SelectUserByEmail email) ;;
  match f with
  | Some msg => ret (Err (ErrNew msg))
  | None =>
      rows <- gets users ;;
      match lowest (filter (fun u => String.eqb (Email u) email && live u) rows) with
      | Some u => ret (Ok u)
      | None => ret (Err ErrRecordNotFound)
      end
  end.

(** [db.Find(&users)]: the destination is set to a slice of the rows
    found, an empty one when there is none. *)
Definition Find : M (result (Go.slice User)) :=
  f <- exec SelectUsers ;;
  match f with
  | Some msg => ret (Err (ErrNew msg))
  | None =>
      rows <- gets users ;;
      ret (Ok (Go.Slice (filter live rows)))
  end.

(** The row an INSERT of [u] writes: a zero [ID] draws the next value of
    the sequence, zero timestamps take the current instant
    ([autoCreateTime], [autoUpdateTime]), and the zero values of the
    columns tagged with a default take it ([role], [active]). *)
Definition inserted (u : User) (w : World) : User :=
  mkUser (if (ID u =? 0)%N then users_seq w + 1 else ID u)%N
         (Name u) (Email u) (Password u)
         (if String.eqb (Role u) "" then "user" else Role u)
         (if Active u then Active u else true)
         (if (CreatedAt u =? 0)%N then clock w else CreatedAt u)
         (if (UpdatedAt u =? 0)%N then clock w else UpdatedAt u)
         (DeletedAt u).

(** [db.Create(&user)]: on success the struct behind the pointer holds
    the row as written. *)
Definition Create (u : User) : M (result User) :=
  f <- exec (InsertUser (Email u)) ;;
  match f with
  | Some msg => ret (Err (ErrNew msg))
  | None =>
      fun w =>
        let row := inserted u w in
        let w1 := if (ID u =? 0)%N then set_users_seq (users_seq w + 1)%N w else w in
        if negb (fits row) then (Err (ErrNew too_long), w1)
        else if existsb (fun r => (ID r =? ID row)%N) (users w)
        then (Err (ErrNew pkey_violation), w1)
        else if existsb (fun r => String.eqb (Email r) (Email row)) (users w)
        then (Err (ErrNew email_violation), w1)
        else (Ok row, set_users (users w ++ [row]) w1)
  end.

(** The second statement of [Save] when its UPDATE matched no row:
    INSERT ... ON CONFLICT (id) DO UPDATE SET every column. *)
Definition upsert (u : User) : M (result (User * N)) :=
  f <- exec (UpsertUser (ID u)) ;;
  match f with
  | Some msg => ret (Err (ErrNew msg))
  | None =>
      fun w =>
        let same r := (ID r =? ID u)%N in
        if negb (fits u) then (Err (ErrNew too_long), w)
        else if existsb (fun r => negb (same r) && String.eqb (Email r) (Email u)) (users w)
        then (Err (ErrNew email_violation), w)
        else if existsb same (users w)
        then (Ok (u, 1%N), set_users (map (fun r => if same r then u else r) (users w)) w)
        else (Ok (u, 1%N), set_users (users w ++ [u]) w)
  end.

(** [db.Save(&user)]: with a zero primary key an INSERT; otherwise an
    UPDATE of every column of the live row with that key, followed by
    [upsert] when no row was affected.  Returns the struct as left behind
    the pointer and [RowsAffected]. *)
Definition Save (u : User) : M (result (User * N)) :=
  if (ID u =? 0)%N then
    r <- Create u ;;
    ret (match r with
         | Ok row => Ok (row, 1%N)
         | Err e => Err e
         end)
  else
    f <- exec (UpdateUser (ID u)) ;;
    match f with
    | Some msg => ret (Err (ErrNew msg))
    | None =>
        w <- gets (fun w => w) ;;
        let row := with_UpdatedAt (clock w) u in
        let hit r := (ID r =? ID u)%N && live r in
        let n := length (filter hit (users w)) in
        if (n =? 0)%nat then upsert row
        else if negb (fits row) then ret (Err (ErrNew too_long))
        else if existsb (fun r => negb (hit r) && String.eqb (Email r) (Email row)) (users w)
        then ret (Err (ErrNew email_violation))
        else
          modify (set_users (map (fun r => if hit r then row else r) (users w))) ;;;
          ret (Ok (row, N.of_nat n))
    end.

(** [db.Delete(&model.User{}, id)]: a soft delete, UPDATE users SET
    deleted_at = now WHERE id = ? AND deleted_at IS NULL.  Returns
    [RowsAffected]. *)
Definition Delete_User (id : N) : M (result N) :=
  f <- exec (SoftDeleteUser id) ;;
  match f with
  | Some msg => ret (Err (ErrNew msg))
  | None =>
      w <- gets (fun w => w) ;;
      let hit r := (ID r =? id)%N && live r in
      modify (set_users
                (map (fun r => if hit r then with_DeletedAt (Some (clock w)) r else r)
                     (users w))) ;;;
      ret (Ok (N.of_nat (length (filter hit (users w)))))
  end.

(** [db.Delete(&models.Item{}, id)]: [Item] has no deletion column, the
    rows are removed.  Returns [RowsAffected]. *)
Definition Delete_Item (id : Z) : M (result N) :=
  f <- exec (DeleteItem id) ;;
  match f with
  | Some msg => ret (Err (ErrNew msg))
  | None =>
      w <- gets (fun w => w) ;;
      let hit (r : Item) := (Z.of_N (iID r) =? id)%Z in
      modify (set_items (filter (fun r => negb (hit r)) (items w))) ;;;
      ret (Ok (N.of_nat (length (filter hit (items w)))))
  end.

End gorm.

(** ** internal/repository *)

Module repository.

Definition FindAll : M (result (Go.slice User)) :=
  r <- gorm.Find ;;
  match r with
  | Err e => ret (Err (ErrApp (apperrors.NewDatabaseError "Failed to retrieve users" (Some e))))
  | Ok users => ret (Ok users)
  end.

Definition FindByID (id : N) : M (result User) :=
  r <- gorm.First_by_id id ;;
  match r with
  | Err ErrRecordNotFound =>
      ret (Err (ErrApp (apperrors.NewResourceNotFoundError "User not found"
                          (Some (JObj [("id", JNum (Z.of_N id))]))
                          (Some ErrRecordNotFound))))
  | Err e => ret (Err (ErrApp (apperrors.NewDatabaseError "Failed to retrieve user" (Some e))))
  | Ok user => ret (Ok user)
  end.

Definition FindByEmail (email : string) : M (result User) :=
  r <- gorm.First_by_email email ;;
  match r with
  | Err ErrRecordNotFound =>
      ret (Err (ErrApp (apperrors.NewResourceNotFoundError "User not found"
                          (Some (JObj [("email", JStr email)]))
                          (Some ErrRecordNotFound))))
  | Err e => ret (Err (ErrApp (apperrors.NewDatabaseError "Failed to retrieve user by email" (Some e))))
  | Ok user => ret (Ok user)
  end.

(** [Create], [Update]: the struct behind the pointer after the call, and
    the error returned ([None] is nil). *)
Definition Create (user : User) : M (User * option error) :=
  existing <- FindByEmail (Email user) ;;
  match existing with
  | Ok _ =>
      ret (user, Some (ErrApp (apperrors.NewDuplicateResourceError
                                 "User with this email already exists"
                                 (Some (JObj [("email", JStr (Email user))]))
                                 None)))
  | Err _ =>
      r <- gorm.Create user ;;
      match r with
      | Err e => ret (user, Some (ErrApp (apperrors.NewDatabaseError "Failed to create user" (Some e))))
      | Ok row => ret (row, None)
      end
  end.

Definition Update (user : User) : M (User * option error) :=
  r <- gorm.Save user ;;
  match r with
  | Err e => ret (user, Some (ErrApp (apperrors.NewDatabaseError "Failed to update user" (Some e))))
  | Ok (row, RowsAffected) =>
      if (RowsAffected =? 0)%N
      then ret (row, Some (ErrApp (apperrors.NewResourceNotFoundError "User not found"
                                     (Some (JObj [("id", JNum (Z.of_N (ID user)))]))
                                     None)))
      else ret (row, None)
  end.

Definition Delete (id : N) : M (option error) :=
  r <- gorm.Delete_User id ;;
  match r with
  | Err e => ret (Some (ErrApp (apperrors.NewDatabaseError "Failed to delete user" (Some e))))
  | Ok RowsAffected =>
      if (RowsAffected =? 0)%N
      then ret (Some (ErrApp (apperrors.NewResourceNotFoundError "User not found"
                                (Some (JObj [("id", JNum (Z.of_N id))]))
                                None)))
      else ret None
  end.

End repository.

(** ** internal/service *)

Module service.

Section WithBcrypt.

(** [bcrypt.GenerateFromPassword(password, cost)].  Every call draws a
    fresh salt, so the result depends on which call of the process it
    is; the first argument is that index. *)
Variable GenerateFromPassword : nat -> string -> Z -> result string.

Definition DefaultCost : Z := 10.

Definition hash (password : string) : M (result string) :=
  fun w => (GenerateFromPassword (hashed w) password DefaultCost,
            set_hashed (S (hashed w)) w).

(** Each method first derives a context that expires after five
    seconds; an expired context fails the statement in flight, which
    the driver reports like any other fault. *)

Definition GetAllUsers : M (result (Go.slice UserResponse)) :=
  emit (EvService "GetAllUsers") ;;;
  r <- repository.FindAll ;;
  match r with
  | Err err =>
      logger.Error "Failed to get all users" ;;;
      ret (Err err)
  | Ok users =>
      ret (Ok (Go.range (fun response user => Go.append response (ToResponse user))
                        users Go.nil_slice))
  end.

Definition GetUserByID (id : N) : M (result UserResponse) :=
  emit (EvService "GetUserByID") ;;;
  r <- repository.FindByID id ;;
  match r with
  | Err err =>
      logger.Error "Failed to get user by ID" ;;;
      ret (Err err)
  | Ok user => ret (Ok (ToResponse user))
  end.

Definition CreateUser (input : UserCreate) : M (result UserResponse) :=
  emit (EvService "CreateUser") ;;;
  h <- hash (cPassword input) ;;
  match h with
  | Err err =>
      logger.Error "Failed to hash password" ;;;
      ret (Err (ErrApp (apperrors.NewInternalError "Failed to process password" (Some err))))
  | Ok hashedPassword =>
      let user := mkUser 0 (cName input) (cEmail input) hashedPassword
                         (cRole input) true 0 0 None in
      let user := if String.eqb (Role user) "" then with_Role "user" user else user in
      created <- repository.Create user ;;
      match created with
      | (_, Some err) =>
          logger.Error "Failed to create user" ;;;
          ret (Err err)
      | (user, None) => ret (Ok (ToResponse user))
      end
  end.

Definition UpdateUser (id : N) (input : UserUpdate) : M (result UserResponse) :=
  emit (EvService "UpdateUser") ;;;
  r <- repository.FindByID id ;;
  match r with
  | Err err =>
      logger.Error "Failed to retrieve user for update" ;;;
      ret (Err err)
  | Ok user =>
      let user := match uName input with Some v => with_Name v user | None => user end in
      let user := match uEmail input with Some v => with_Email v user | None => user end in
      rehashed <- match uPassword input with
                | Some v =>
                    h <- hash v ;;
                    match h with
                    | Err err => ret (Err err)
                    | Ok hashedPassword => ret (Ok (with_Password hashedPassword user))
                    end
                | None => ret (Ok user)
                end ;;
      match rehashed with
      | Err err =>
          logger.Error "Failed to hash password during update" ;;;
          ret (Err (ErrApp (apperrors.NewInternalError "Failed to process password" (Some err))))
      | Ok user =>
          let user := match uRole input with Some v => with_Role v user | None => user end in
          let user := match uActive input with Some v => with_Active v user | None => user end in
          updated <- repository.Update user ;;
          match updated with
          | (_, Some err) =>
              logger.Error "Failed to update user" ;;;
              ret (Err err)
          | (user, None) => ret (Ok (ToResponse user))
          end
      end
  end.

Definition DeleteUser (id : N) : M (option error) :=
  emit (EvService "DeleteUser") ;;;
  r <- repository.Delete id ;;
  match r with
  | Some err =>
      logger.Error "Failed to delete user" ;;;
      ret (Some err)
  | None => ret None
  end.

End WithBcrypt.

End service.

(** ** gin: the request context and JSON binding *)

(** What a handler reads from its [*gin.Context]: the [id] path parameter
    and the outcome of decoding the body with [encoding/json] into the
    struct the handler binds ([Err] for a body that is not JSON or does not
    fit the struct). *)
Record Context : Type := mkContext {
  Param_id : string;
  decoded_UserCreate : result UserCreate;
  decoded_UserUpdate : result UserUpdate
}.

(** What a handler writes: [ctx.JSON(code, obj)] or [ctx.Status(code)]. *)
Record Response : Type := mkResponse {
  status : Z;
  body : option json
}.

Module binding.

Section WithEmail.

(** The [email] rule of the validator (a regular expression). *)
Variable isEmail : string -> bool.

Definition oneof (allowed : list string) (v : string) : bool :=
  existsb (String.eqb v) allowed.

(** Failed rules, as (field, tag) pairs.  The rules of a field run in
    the order of its [binding] tag and stop at the first that fails;
    [omitempty] ends the field on a zero value, which for a pointer
    field means the nil pointer only. *)
Definition validate_UserCreate (input : UserCreate) : list (string * string) :=
  (if String.eqb (cName input) "" then [("Name", "required")] else [])
  ++ (if String.eqb (cEmail input) "" then [("Email", "required")]
      else if isEmail (cEmail input) then [] else [("Email", "email")])
  ++ (if String.eqb (cPassword input) "" then [("Password", "required")]
      else if (6 <=? Go.RuneCountInString (cPassword input))%nat then []
           else [("Password", "min")])
  ++ (if String.eqb (cRole input) "" then []
      else if oneof ["admin"; "user"] (cRole input) then [] else [("Role", "oneof")]).

Definition validate_UserUpdate (input : UserUpdate) : list (string * string) :=
  match uEmail input with
  | Some v => if isEmail v then [] else [("Email", "email")]
  | None => []
  end
  ++ match uPassword input with
     | Some v => if (6 <=? Go.RuneCountInString v)%nat then [] else [("Password", "min")]
     | None => []
     end
  ++ match uRole input with
     | Some v => if oneof ["admin"; "user"] v then [] else [("Role", "oneof")]
     | None => []
     end.

(** [validator.ValidationErrors] as an error value: one line per failed
    rule of struct [typ]. *)
Definition ValidationErrors (typ : string) (failed : list (string * string)) : error :=
  ErrNew (String.concat (String "010"%char "")
            (map (fun ft => ("Key: '" ++ typ ++ "." ++ fst ft
                             ++ "' Error:Field validation for '" ++ fst ft
                             ++ "' failed on the '" ++ snd ft ++ "' tag")%string)
                 failed)).

(** [ctx.ShouldBindJSON(&input)]: decode, then validate. *)
Definition ShouldBindJSON_UserCreate (ctx : Context) : result UserCreate :=
  match decoded_UserCreate ctx with
  | Err e => Err e
  | Ok input =>
      match validate_UserCreate input with
      | [] => Ok input
      | failed => Err (ValidationErrors "UserCreate" failed)
      end
  end.

Definition ShouldBindJSON_UserUpdate (ctx : Context) : result UserUpdate :=
  match decoded_UserUpdate ctx with
  | Err e => Err e
  | Ok input =>
      match validate_UserUpdate input with
      | [] => Ok input
      | failed => Err (ValidationErrors "UserUpdate" failed)
      end
  end.

End WithEmail.

End binding.

(** ** internal/controller/v1 *)

Module controller.

Definition JSON (code : Z) (obj : json) : Response := mkResponse code (Some obj).
Definition Status (code : Z) : Response := mkResponse code None.

Definition parseIDParam (ctx : Context) : result N :=
  match strconv.ParseUint (Param_id ctx) 32 with
  | None => Err (ErrNew "strconv.ParseUint: parsing id")
  | Some id => Ok id
  end.

Definition handleError (err : error) : Response :=
  match apperrors.errors_As err with
  | Some appErr => JSON (apperrors.StatusCode appErr) (apperrors.marshal appErr)
  | None =>
      JSON apperrors.StatusInternalServerError
           (apperrors.marshal
              (apperrors.NewInternalError "An unexpected error occurred" (Some err)))
  end.

Section WithCollaborators.

Variable GenerateFromPassword : nat -> string -> Z -> result string.
Variable isEmail : string -> bool.

Definition GetAllUsers (ctx : Context) : M Response :=
  r <- service.GetAllUsers ;;
  match r with
  | Err err => ret (handleError err)
  | Ok users => ret (JSON apperrors.StatusOK (marshal_UserResponses users))
  end.

Definition GetUserByID (ctx : Context) : M Response :=
  match parseIDParam ctx with
  | Err err =>
      ret (JSON apperrors.StatusBadRequest
             (apperrors.marshal
                (apperrors.NewInvalidInputError "Invalid ID format" None (Some err))))
  | Ok id =>
      r <- service.GetUserByID id ;;
      match r with
      | Err err => ret (handleError err)
      | Ok user => ret (JSON apperrors.StatusOK (marshal_UserResponse user))
      end
  end.

Definition CreateUser (ctx : Context) : M Response :=
  match binding.ShouldBindJSON_UserCreate isEmail ctx with
  | Err err =>
      logger.Error "Invalid input for creating user" ;;;
      ret (JSON apperrors.StatusBadRequest
             (apperrors.marshal
                (apperrors.NewInvalidInputError "Invalid input" None (Some err))))
  | Ok input =>
      r <- service.CreateUser GenerateFromPassword input ;;
      match r with
      | Err err => ret (handleError err)
      | Ok user => ret (JSON apperrors.StatusCreated (marshal_UserResponse user))
      end
  end.

Definition UpdateUser (ctx : Context) : M Response :=
  match parseIDParam ctx with
  | Err err =>
      ret (JSON apperrors.StatusBadRequest
             (apperrors.marshal
                (apperrors.NewInvalidInputError "Invalid ID format" None (Some err))))
  | Ok id =>
      match binding.ShouldBindJSON_UserUpdate isEmail ctx with
      | Err err =>
          logger.Error "Invalid input for updating user" ;;;
          ret (JSON apperrors.StatusBadRequest
                 (apperrors.marshal
                    (apperrors.NewInvalidInputError "Invalid input" None (Some err))))
      | Ok input =>
          r <- service.UpdateUser GenerateFromPassword id input ;;
          match r with
          | Err err => ret (handleError err)
          | Ok user => ret (JSON apperrors.StatusOK (marshal_UserResponse user))
          end
      end
  end.

Definition DeleteUser (ctx : Context) : M Response :=
  match parseIDParam ctx with
  | Err err =>
      ret (JSON apperrors.StatusBadRequest
             (apperrors.marshal
                (apperrors.NewInvalidInputError "Invalid ID format" None (Some err))))
  | Ok id =>
      r <- service.DeleteUser id ;;
      match r with
      | Some err => ret (handleError err)
      | None => ret (Status apperrors.StatusNoContent)
      end
  end.

End WithCollaborators.

End controller.

(** ** handlers: the flat item handler *)

Module handlers.

(** [gin.H{k: v}] *)
Definition H (k : string) (v : json) : json := JObj [(k, v)].

Definition DeleteItem (ctx : Context) : M Response :=
  match strconv.Atoi (Param_id ctx) with
  | None =>
      logger.Error "Invalid ID" ;;;
      ret (controller.JSON apperrors.StatusBadRequest (H "error" (JStr "Invalid ID")))
  | Some id =>
      r <- gorm.Delete_Item id ;;
      match r with
      | Err err =>
          logger.Error "Failed to delete item" ;;;
          ret (controller.JSON apperrors.StatusInternalServerError
                 (H "error" (JStr "Database error")))
      | Ok _ =>
          ret (controller.JSON apperrors.StatusOK (H "deleted" (JNum id)))
      end
  end.

End handlers.

(** ** The routes of [UserController.Register] and runs of the server *)

Inductive Route : Type :=
| GET_users | GET_users_id | POST_users | PUT_users_id | DELETE_users_id.

Definition set_clock (v : N) (w : World) : World :=
  mkWorld (users w) (users_seq w) (items w) v (faults w) (hashed w) (trace w) (logs w).

Section Server.

Variable GenerateFromPassword : nat -> string -> Z -> result string.
Variable isEmail : string -> bool.

Definition Register (route : Route) : Context -> M Response :=
  match route with
  | GET_users => controller.GetAllUsers
  | GET_users_id => controller.GetUserByID
  | POST_users => controller.CreateUser GenerateFromPassword isEmail
  | PUT_users_id => controller.UpdateUser GenerateFromPassword isEmail
  | DELETE_users_id => controller.DeleteUser
  end.

(** The worlds the server can be in: it starts on an empty [users] table,
    serves requests one after the other, and between two of them time
    passes and the driver's fortunes change. *)
Inductive reachable : World -> Prop :=
| reach_start w : users w = [] -> reachable w
| reach_serve w route ctx :
    reachable w -> reachable (snd (Register route ctx w))
| reach_env w now script :
    reachable w -> reachable (set_clock now (set_faults script w)).

End Server.

(** ** Properties of tables and responses used in the statements *)

(** The values of the closed enumeration of roles. *)
Definition role_ok (u : User) : bool :=
  binding.oneof ["admin"; "user"] (Role u).

Definition roles_ok (rows : list User) : Prop :=
  Forall (fun u => role_ok u = true) rows.

(** The primary key of [users]: no key twice, and no zero key (the
    sequence behind it starts at 1). *)
Definition pkey_ok (rows : list User) : Prop :=
  NoDup (map ID rows) /\ ~ In 0%N (map ID rows).

(** The columns an update of the name must leave alone. *)
Definition kept (u : User) : N * string * string * string * bool * N * option N :=
  (ID u, Email u, Password u, Role u, Active u, CreatedAt u, DeletedAt u).

(** The [details] a constructor of kind [k] stores. *)
Definition kind_details (k : Kind) (details : option json) : option json :=
  match k with
  | InvalidInput | ResourceNotFound | DuplicateResource => details
  | _ => None
  end.

(** The body of an error response. *)
Definition error_body (code message : string) (details : option json) : json :=
  JObj ([("code", JStr code); ("message", JStr message)]
        ++ match details with
           | Some d => [("details", d)]
           | None => []
           end).

Definition bad_request (message : string) : Response :=
  mkResponse 400 (Some (error_body "INVALID_INPUT" message None)).

(** The reading of the item gateway contract of section 4.1 that the item
    handler does not meet: a delete whose id matches no stored item is
    answered with NotFound. *)
Definition item_delete_reports_missing_row : Prop :=
  forall ctx w id,
    strconv.Atoi (Param_id ctx) = Some id ->
    (forall r, In r (items w) -> Z.of_N (iID r) <> id) ->
    status (fst (handlers.DeleteItem ctx w)) = 404%Z.

(** The world once statement [s] went to the driver, and what the driver
    does to the next statement. *)
Definition sent (s : Stmt) (w : World) : World := snd (gorm.exec s w).
Definition fault (w : World) : option string := hd None (faults w).

(** The rows a statement with [WHERE id = ? AND deleted_at IS NULL] hits. *)
Definition hit (id : N) (r : User) : bool := (ID r =? id)%N && gorm.live r.

(** What the world keeps across a statement that the driver fails or that
    does not write. *)
Record same_tables (w w' : World) : Prop := {
  st_users : users w' = users w;
  st_seq : users_seq w' = users_seq w;
  st_items : items w' = items w;
  st_clock : clock w' = clock w;
  st_hashed : hashed w' = hashed w
}.

(** What a statement on [users] leaves alone. *)
Record users_only (s : list Stmt) (w w' : World) : Prop := {
  uo_items : items w' = items w;
  uo_clock : clock w' = clock w;
  uo_hashed : hashed w' = hashed w;
  uo_logs : logs w' = logs w;
  uo_trace : trace w' = trace w ++ map EvSQL s
}.

(** A request the handler of the route must turn down: an [id] parameter
    that does not parse, a body that does not bind. *)
Definition invalid_for (isEmail : string -> bool) (route : Route) (ctx : Context) : Prop :=
  match route with
  | GET_users => False
  | GET_users_id | DELETE_users_id => strconv.ParseUint (Param_id ctx) 32 = None
  | POST_users => exists e, binding.ShouldBindJSON_UserCreate isEmail ctx = Err e
  | PUT_users_id =>
      strconv.ParseUint (Param_id ctx) 32 = None
      \/ exists e, binding.ShouldBindJSON_UserUpdate isEmail ctx = Err e
  end.

(** Nothing happened but, possibly, a line in the log: no service method
    was entered, no statement sent, no hash computed, no table changed. *)
Record untouched (w w' : World) : Prop := {
  un_users : users w' = users w;
  un_seq : users_seq w' = users_seq w;
  un_items : items w' = items w;
  un_hashed : hashed w' = hashed w;
  un_faults : faults w' = faults w;
  un_trace : trace w' = trace w
}.

(** The driver runs the next [n] statements. *)
Definition healthy (n : nat) (w : World) : Prop :=
  forall k, (k < n)%nat -> nth k (faults w) None = None.

(** How a request can change the table: not at all, by the soft delete
    of a key, by the INSERT of a struct whose role passed the creation
    rule, or by the [Save] of a struct read from the table whose role is
    the one read or one that passed the update rule. *)
Inductive table_step (w w' : World) : Prop :=
| step_none : users w' = users w -> table_step w w'
| step_delete id t :
    users w' = map (fun r => if hit id r then with_DeletedAt (Some t) r else r) (users w) ->
    table_step w w'
| step_create u w0 :
    users w0 = users w -> role_ok u = true ->
    users w' = users (snd (gorm.Create u w0)) ->
    table_step w w'
| step_save old u w0 :
    users w0 = users w -> In old (users w) ->
    (role_ok old = true -> role_ok u = true) ->
    users w' = users (snd (gorm.Save u w0)) ->
    table_step w w'.

(** An error built by the constructor of one of the kinds the user stack
    raises. *)
Definition typed (e : error) : Prop :=
  exists k message details cause,
    e = ErrApp (construct k message details cause)
    /\ In k [ResourceNotFound; DuplicateResource; Database; Internal].

(** The errors the repository builds. *)
Definition not_found_by_email (email : string) : error :=
  ErrApp (apperrors.NewResourceNotFoundError "User not found"
            (Some (JObj [("email", JStr email)])) (Some ErrRecordNotFound)).

Definition not_found_by_id (id : N) (cause : option error) : error :=
  ErrApp (apperrors.NewResourceNotFoundError "User not found"
            (Some (JObj [("id", JNum (Z.of_N id))])) cause).

Definition duplicate_email (email : string) : error :=
  ErrApp (apperrors.NewDuplicateResourceError "User with this email already exists"
            (Some (JObj [("email", JStr email)])) None).

Definition database_error (message : string) (cause : error) : error :=
  ErrApp (apperrors.NewDatabaseError message (Some cause)).

(** ** Sample collaborators, worlds and requests *)

Module sample.

(** A stand-in for bcrypt with its length limit; the salt is the index
    of the call. *)
Definition hash (n : nat) (password : string) (cost : Z) : result string :=
  if (72 <? String.length password)%nat
  then Err (ErrNew "bcrypt: password length exceeds 72 bytes")
  else Ok ("$2a$10$" ++ password)%string.

Definition isEmail (s : string) : bool :=
  existsb (Ascii.eqb "@"%char) (list_ascii_of_string s).

Definition no_body {A} : result A := Err (ErrNew "EOF").

Definition empty : World := mkWorld [] 0 [] 1000 [] 0 [] [].

Definition ann : UserCreate := mkUserCreate "Ann" "ann@x.com" "secret1" "".

Definition ann_row : User :=
  mkUser 1 "Ann" "ann@x.com" "$2a$10$secret1" "user" true 1000 1000 None.

(** The world after Ann was created on [empty]. *)
Definition with_ann : World :=
  mkWorld [ann_row] 1 [] 1000 [] 1
          [EvService "CreateUser"; EvSQL (SelectUserByEmail "ann@x.com");
           EvSQL (InsertUser "ann@x.com")] [].

Definition post_ann : Context := mkContext "" (Ok ann) no_body.
Definition put_name : Context :=
  mkContext "1" no_body (Ok (mkUserUpdate (Some "Bob") None None None None)).
Definition put_inactive : Context :=
  mkContext "1" no_body (Ok (mkUserUpdate None None None None (Some false))).
Definition get_1 : Context := mkContext "1" no_body no_body.
Definition get_999 : Context := mkContext "999" no_body no_body.
Definition get_abc : Context := mkContext "abc" no_body no_body.
Definition post_root : Context :=
  mkContext "" (Ok (mkUserCreate "Eve" "eve@x.com" "secret1" "root")) no_body.

End sample.

(** ** internal/middleware: the request logger *)

Module middleware.

(** [bytes.Contains(s, sub)] *)
Fixpoint Contains (s sub : string) : bool :=
  if String.prefix sub s then true
  else match s with
       | EmptyString => false
       | String _ rest => Contains rest sub
       end.

Definition isRequestSensitive (path : string) : bool :=
  existsb (Contains path) ["/login"; "/register"; "/users"; "/auth"; "/password"].

Definition isResponseSensitive (path : string) : bool :=
  existsb (Contains path) ["/users"; "/profile"; "/auth"].

Definition isMediaContentType (contentType : string) : bool :=
  existsb (Contains contentType)
          ["image/"; "video/"; "audio/"; "application/pdf"; "application/zip";
           "application/octet-stream"].

Definition maxBodySize : nat := 1024 * 10.

(** [body[:n]] *)
Fixpoint take (n : nat) (body : string) : string :=
  match n, body with
  | S m, String c rest => String c (take m rest)
  | _, _ => EmptyString
  end.

Definition truncateBody (body : string) : string :=
  if (maxBodySize <? String.length body)%nat
  then (take maxBodySize body ++ "...(truncated)")%string
  else body.

Inductive Level : Type := InfoLevel | WarnLevel | ErrorLevel.

(** [zap.String], [zap.Int], [zap.Duration] *)
Inductive Field : Type :=
| String_ (key value : string)
| Int_ (key : string) (value : Z)
| Duration_ (key : string) (value : Z).

Definition key_of (f : Field) : string :=
  match f with
  | String_ k _ | Int_ k _ | Duration_ k _ => k
  end.

(** What the logger reads from the request. *)
Record Request : Type := mkRequest {
  ClientIP : string;
  Method : string;
  Path : string;
  RawQuery : string;
  UserAgent : string;
  ContentType : string;
  RequestBody : string
}.

(** [RequestLogger] once [c.Next()] has returned: the level and the fields
    of the "HTTP Request" entry, from the request, the status written, the
    time the handlers took and the bytes they wrote. *)
Definition RequestLogger (req : Request) (status duration : Z) (responseBody : string)
  : Level * list Field :=
  let logLevel :=
    if ((400 <=? status) && (status <? 500))%Z then WarnLevel
    else if (500 <=? status)%Z then ErrorLevel
    else InfoLevel in
  let shouldLogBody := negb (isMediaContentType (ContentType req)) in
  let fields :=
    [String_ "client_ip" (ClientIP req);
     String_ "method" (Method req);
     String_ "path" (Path req);
     String_ "query" (RawQuery req);
     Int_ "status" status;
     Duration_ "duration" duration;
     String_ "user_agent" (UserAgent req)] in
  let fields :=
    if shouldLogBody then
      let fields :=
        if (0 <? String.length (RequestBody req))%nat
           && negb (isRequestSensitive (Path req))
        then fields ++ [String_ "request_body" (truncateBody (RequestBody req))]
        else fields in
      if (0 <? String.length responseBody)%nat
         && negb (isResponseSensitive (Path req))
      then fields ++ [String_ "response_body" (truncateBody responseBody)]
      else fields
    else fields in
  (logLevel, fields).

End middleware.

(** ** config *)

Module config.

(** [os.LookupEnv], once [godotenv.Load] has added the variables of the
    [.env] file that were not set. *)
Definition Env : Type := string -> option string.

(** A [time.Duration] is a 64-bit count of nanoseconds. *)
Definition Second : Z := 1000000000.

Definition wrap64 (z : Z) : Z := ((z + 2 ^ 63) mod 2 ^ 64 - 2 ^ 63)%Z.

Record ServerConfig : Type := mkServerConfig {
  Port : string;
  ReadTimeout : Z;
  WriteTimeout : Z;
  Mode : string
}.

Record DatabaseConfig : Type := mkDatabaseConfig {
  Host : string;
  DBPort : string;
  DBUser : string;
  DBPassword : string;
  DBName : string;
  SSLMode : string
}.

Record LoggingConfig : Type := mkLoggingConfig {
  LogLevel : string
}.

Record Config : Type := mkConfig {
  Server : ServerConfig;
  Database : DatabaseConfig;
  Logging : LoggingConfig
}.

Definition GetDSN (c : DatabaseConfig) : string :=
  ("host=" ++ Host c ++ " port=" ++ DBPort c ++ " user=" ++ DBUser c
   ++ " password=" ++ DBPassword c ++ " dbname=" ++ DBName c
   ++ " sslmode=" ++ SSLMode c)%string.

Definition getEnv (env : Env) (key defaultValue : string) : string :=
  match env key with
  | Some value => value
  | None => defaultValue
  end.

Definition getEnvDuration (env : Env) (key : string) (defaultValue : Z) : Z :=
  match env key with
  | Some value =>
      match strconv.Atoi value with
      | Some intVal => wrap64 (intVal * Second)
      | None => defaultValue
      end
  | None => defaultValue
  end.

(** [LoadConfig] returns a nil error on every path. *)
Definition LoadConfig (env : Env) : result Config :=
  Ok (mkConfig
        (mkServerConfig
           (getEnv env "SERVER_PORT" "8080")
           (getEnvDuration env "SERVER_READ_TIMEOUT" (10 * Second))
           (getEnvDuration env "SERVER_WRITE_TIMEOUT" (10 * Second))
           (getEnv env "GIN_MODE" "debug"))
        (mkDatabaseConfig
           (getEnv env "DB_HOST" "localhost")
           (getEnv env "DB_PORT" "5432")
           (getEnv env "DB_USER" "postgres")
           (getEnv env "DB_PASSWORD" "postgres")
           (getEnv env "DB_NAME" "gin_crud")
           (getEnv env "DB_SSLMODE" "disable"))
        (mkLoggingConfig (getEnv env "LOG_LEVEL" "info"))).

(** The variables [LoadConfig] reads. *)
Definition keys : list string :=
  ["SERVER_PORT"; "SERVER_READ_TIMEOUT"; "SERVER_WRITE_TIMEOUT"; "GIN_MODE";
   "DB_HOST"; "DB_PORT"; "DB_USER"; "DB_PASSWORD"; "DB_NAME"; "DB_SSLMODE";
   "LOG_LEVEL"].

End config.

(** ** Further notions used in the statements *)

(** The struct [UpdateUser] saves for the row [old]: every field the input
    sets, [password] standing for the hash of a password it sets. *)
Definition merged (input : UserUpdate) (password : string) (old : User) : User :=
  mkUser (ID old)
         (match uName input with Some v => v | None => Name old end)
         (match uEmail input with Some v => v | None => Email old end)
         (match uPassword input with Some _ => password | None => Password old end)
         (match uRole input with Some v => v | None => Role old end)
         (match uActive input with Some v => v | None => Active old end)
         (CreatedAt old) (UpdatedAt old) (DeletedAt old).

(** The end of [UpdateUser]: the struct goes to the gateway [Update], whose
    outcome is logged and returned. *)
Definition save_and_answer (u : User) (w : World) : result UserResponse * World :=
  match fst (gorm.Save u w) with
  | Err e =>
      (Err (database_error "Failed to update user" e),
       snd (logger.Error "Failed to update user" (snd (gorm.Save u w))))
  | Ok (row, n) =>
      if (n =? 0)%N
      then (Err (not_found_by_id (ID u) None),
            snd (logger.Error "Failed to update user" (snd (gorm.Save u w))))
      else (Ok (ToResponse row), snd (gorm.Save u w))
  end.

(** A row with its password column blanked. *)
Definition redact (u : User) : User := with_Password "" u.

(** Every column of a row but the deletion mark. *)
Definition undeleted (u : User) : User := with_DeletedAt None u.

(** The unique index on [users.email]. *)
Definition emails_ok (rows : list User) : Prop := NoDup (map Email rows).

(** The writes the store lets through: none, the replacement of the rows
    of one key by a row of that key whose e-mail no other row holds, or a
    new row whose key and e-mail no row holds. *)
Inductive checked_write (rows rows' : list User) : Prop :=
| write_none : rows' = rows -> checked_write rows rows'
| write_replace (c : User -> bool) (row : User) :
    (forall x, c x = true -> ID x = ID row) ->
    (forall x, In x rows -> c x = false -> Email x <> Email row) ->
    rows' = map (fun x => if c x then row else x) rows ->
    checked_write rows rows'
| write_append (row : User) :
    (forall x, In x rows -> ID x <> ID row /\ Email x <> Email row) ->
    ID row <> 0%N ->
    rows' = rows ++ [row] ->
    checked_write rows rows'.

(** The statuses the annotations of a handler announce ([@Success],
    [@Failure]). *)
Definition announced (route : Route) : list Z :=
  match route with
  | GET_users => [200; 500]
  | GET_users_id => [200; 400; 404; 500]
  | POST_users => [201; 400; 409; 500]
  | PUT_users_id => [200; 400; 404; 500]
  | DELETE_users_id => [204; 400; 404; 500]
  end%Z.

(** The messages the service method behind a route hands to
    [logger.Error]. *)
Definition failure_lines (route : Route) : list string :=
  match route with
  | GET_users => ["Failed to get all users"]
  | GET_users_id => ["Failed to get user by ID"]
  | POST_users => ["Failed to hash password"; "Failed to create user"]
  | PUT_users_id =>
      ["Failed to retrieve user for update"; "Failed to hash password during update";
       "Failed to update user"]
  | DELETE_users_id => ["Failed to delete user"]
  end.

(** The messages the handler of a route hands to [logger.Error] itself,
    when the body does not bind. *)
Definition refusal_lines (route : Route) : list string :=
  match route with
  | POST_users => ["Invalid input for creating user"]
  | PUT_users_id => ["Invalid input for updating user"]
  | _ => []
  end.

Module fixtures.

Definition bob : UserCreate := mkUserCreate "Bob" "bob@x.com" "hunter22" "admin".

Definition bob_row : User :=
  mkUser 2 "Bob" "bob@x.com" "$2a$10$hunter22" "admin" true 1000 1000 None.

(** Ann and Bob. *)
Definition two_users : World :=
  mkWorld [sample.ann_row; bob_row] 2 [] 1000 [] 2 [] [].

(** Ann soft-deleted. *)
Definition ann_deleted : World :=
  mkWorld [with_DeletedAt (Some 1000%N) sample.ann_row] 1 [] 1000 [] 1 [] [].

Definition quote : string := String "034"%char "".

Definition signup : middleware.Request :=
  middleware.mkRequest "10.0.0.1" "POST" "/api/v1/users" "" "curl/8"
                       "application/json"
                       ("{" ++ quote ++ "password" ++ quote ++ ":"
                        ++ quote ++ "secret1" ++ quote ++ "}")%string.

Definition env_of (vars : list (string * string)) : config.Env :=
  fun key =>
    match find (fun kv => String.eqb (fst kv) key) vars with
    | Some kv => Some (snd kv)
    | None => None
    end.

End fixtures.

(** * Proofs *)

(** ** The scenario of section 8, on the sample collaborators *)

Example scenario_create :
  fst (controller.CreateUser sample.hash sample.isEmail sample.post_ann sample.empty)
  = mkResponse 201
      (Some (JObj [("id", JNum 1); ("name", JStr "Ann"); ("email", JStr "ann@x.com");
                   ("role", JStr "user"); ("active", JBool true);
                   ("created_at", JTime 1000); ("updated_at", JTime 1000)]))
  /\ snd (controller.CreateUser sample.hash sample.isEmail sample.post_ann sample.empty)
     = sample.with_ann.
Proof. split; reflexivity. Qed.

Example scenario_get :
  status (fst (controller.GetUserByID sample.get_1 sample.with_ann)) = 200%Z
  /\ body (fst (controller.GetUserByID sample.get_1 sample.with_ann))
     = body (fst (controller.CreateUser sample.hash sample.isEmail
                    sample.post_ann sample.empty)).
Proof. split; reflexivity. Qed.

Example scenario_deactivate :
  fst (controller.UpdateUser sample.hash sample.isEmail sample.put_inactive sample.with_ann)
  = mkResponse 200
      (Some (JObj [("id", JNum 1); ("name", JStr "Ann"); ("email", JStr "ann@x.com");
                   ("role", JStr "user"); ("active", JBool false);
                   ("created_at", JTime 1000); ("updated_at", JTime 1000)])).
Proof. reflexivity. Qed.

Example scenario_delete_then_get :
  fst (controller.DeleteUser sample.get_1 sample.with_ann) = mkResponse 204 None
  /\ fst (controller.GetUserByID sample.get_1
            (snd (controller.DeleteUser sample.get_1 sample.with_ann)))
     = mkResponse 404
         (Some (JObj [("code", JStr "RESOURCE_NOT_FOUND");
                      ("message", JStr "User not found");
                      ("details", JObj [("id", JNum 1)])])).
Proof. split; reflexivity. Qed.

Example scenario_duplicate :
  fst (controller.CreateUser sample.hash sample.isEmail sample.post_ann sample.with_ann)
  = mkResponse 409
      (Some (JObj [("code", JStr "DUPLICATE_RESOURCE");
                   ("message", JStr "User with this email already exists");
                   ("details", JObj [("email", JStr "ann@x.com")])]))
  /\ fst (controller.CreateUser sample.hash sample.isEmail sample.post_ann
            (set_faults [Some "driver: bad connection"] sample.with_ann))
     = mkResponse 500
         (Some (JObj [("code", JStr "DATABASE_ERROR");
                      ("message", JStr "Failed to create user")])).
Proof. split; reflexivity. Qed.

Example parse_ids :
  strconv.ParseUint "4294967295" 32 = Some 4294967295%N
  /\ strconv.ParseUint "4294967296" 32 = None
  /\ strconv.ParseUint "-1" 32 = None
  /\ strconv.ParseUint "" 32 = None
  /\ strconv.Atoi "-12" = Some (-12)%Z
  /\ strconv.Atoi "+" = None
  /\ strconv.Atoi "9223372036854775808" = None.
Proof. repeat split; reflexivity. Qed.

(** ** The monad and the driver *)

Lemma bind_run {A B} (m : M A) (k : A -> M B) (w : World) :
  bind m k w = k (fst (m w)) (snd (m w)).
Proof. unfold bind. destruct (m w); reflexivity. Qed.

Lemma same_tables_refl w : same_tables w w.
Proof. constructor; reflexivity. Qed.

Lemma same_tables_trans w1 w2 w3 :
  same_tables w1 w2 -> same_tables w2 w3 -> same_tables w1 w3.
Proof. intros [] []; constructor; congruence. Qed.

Lemma exec_spec (s : Stmt) (w : World) :
  fst (gorm.exec s w) = hd None (faults w)
  /\ same_tables w (snd (gorm.exec s w))
  /\ trace (snd (gorm.exec s w)) = trace w ++ [EvSQL s]
  /\ faults (snd (gorm.exec s w)) = tl (faults w)
  /\ logs (snd (gorm.exec s w)) = logs w.
Proof.
  unfold gorm.exec, emit, modify, bind; simpl.
  destruct (faults w) as [|f rest] eqn:E; simpl; rewrite ?E;
    repeat split; reflexivity.
Qed.

Ltac exec_facts s w :=
  let Hf := fresh "Hfault" in
  let Ht := fresh "Htables" in
  let Hr := fresh "Htrace" in
  let Hs := fresh "Hscript" in
  let Hl := fresh "Hlogs" in
  destruct (exec_spec s w) as (Hf & Ht & Hr & Hs & Hl).

(** ** C1: the error mapper *)

Lemma errors_As_unwrap (e : error) :
  apperrors.errors_As e =
  match e with
  | ErrApp a => Some a
  | _ => match apperrors.Unwrap e with
         | Some inner => apperrors.errors_As inner
         | None => None
         end
  end.
Proof. destruct e; reflexivity. Qed.

Lemma errors_As_None_iff (e : error) :
  apperrors.errors_As e = None <-> wraps_AppError e = false.
Proof.
  induction e using error_ind; simpl; try tauto.
  split; discriminate.
Qed.

Lemma marshal_construct k message details cause :
  apperrors.marshal (construct k message details cause)
  = error_body (kind_code k) message (kind_details k details).
Proof. destruct k; reflexivity. Qed.

Lemma status_construct k message details cause :
  apperrors.StatusCode (construct k message details cause) = kind_status k.
Proof. destruct k; reflexivity. Qed.

(** C1.  For every error handed to [handleError]: when its chain reaches
    an [*AppError] built by the constructor of a kind, the response
    carries the status of that kind and the body [{code, message,
    details}] (details left out when absent), whatever the wrapped cause;
    when the chain reaches none, the response is the fixed 500
    INTERNAL_ERROR document, which does not depend on the error. *)
Theorem handleError_maps_errors (err : error) :
  (forall k message details cause,
      apperrors.errors_As err = Some (construct k message details cause) ->
      controller.handleError err
      = mkResponse (kind_status k)
          (Some (error_body (kind_code k) message (kind_details k details))))
  /\ (wraps_AppError err = false ->
      controller.handleError err
      = mkResponse 500
          (Some (JObj [("code", JStr "INTERNAL_ERROR");
                       ("message", JStr "An unexpected error occurred")]))).
Proof.
  split.
  - intros k message details cause H.
    unfold controller.handleError; rewrite H.
    unfold controller.JSON.
    now rewrite status_construct, marshal_construct.
  - intros H. apply errors_As_None_iff in H.
    unfold controller.handleError; rewrite H. reflexivity.
Qed.

Lemma handleError_maps_errors_witness :
  controller.handleError
    (ErrWrap "create user"
       (ErrApp (apperrors.NewDuplicateResourceError "User with this email already exists"
                  (Some (JObj [("email", JStr "ann@x.com")])) (Some (ErrNew "pq: 23505")))))
  = mkResponse 409
      (Some (JObj [("code", JStr "DUPLICATE_RESOURCE");
                   ("message", JStr "User with this email already exists");
                   ("details", JObj [("email", JStr "ann@x.com")])]))
  /\ controller.handleError (ErrWrap "tx" (ErrNew "pq: connection reset"))
     = mkResponse 500
         (Some (JObj [("code", JStr "INTERNAL_ERROR");
                      ("message", JStr "An unexpected error occurred")])).
Proof.
  split.
  - apply (proj1 (handleError_maps_errors _) DuplicateResource
             "User with this email already exists"
             (Some (JObj [("email", JStr "ann@x.com")]))
             (Some (ErrNew "pq: 23505"))).
    reflexivity.
  - exact (proj2 (handleError_maps_errors (ErrWrap "tx" (ErrNew "pq: connection reset")))
             eq_refl).
Defined.

(** ** GORM calls as equations *)

Lemma sent_spec (s : Stmt) (w : World) :
  same_tables w (sent s w)
  /\ trace (sent s w) = trace w ++ [EvSQL s]
  /\ faults (sent s w) = tl (faults w)
  /\ logs (sent s w) = logs w.
Proof. unfold sent. exec_facts s w. auto. Qed.

Lemma exec_eq (s : Stmt) (w : World) : gorm.exec s w = (fault w, sent s w).
Proof.
  unfold sent, fault. exec_facts s w.
  rewrite <- Hfault. destruct (gorm.exec s w); reflexivity.
Qed.

Lemma users_sent s w : users (sent s w) = users w.
Proof. apply (proj1 (sent_spec s w)). Qed.
Lemma users_seq_sent s w : users_seq (sent s w) = users_seq w.
Proof. apply (proj1 (sent_spec s w)). Qed.
Lemma items_sent s w : items (sent s w) = items w.
Proof. apply (proj1 (sent_spec s w)). Qed.
Lemma clock_sent s w : clock (sent s w) = clock w.
Proof. apply (proj1 (sent_spec s w)). Qed.
Lemma hashed_sent s w : hashed (sent s w) = hashed w.
Proof. apply (proj1 (sent_spec s w)). Qed.
Lemma trace_sent s w : trace (sent s w) = trace w ++ [EvSQL s].
Proof. apply (sent_spec s w). Qed.
Lemma faults_sent s w : faults (sent s w) = tl (faults w).
Proof. apply (sent_spec s w). Qed.
Lemma logs_sent s w : logs (sent s w) = logs w.
Proof. apply (sent_spec s w). Qed.

Create Rewrite HintDb world.
#[local] Hint Rewrite users_sent users_seq_sent items_sent clock_sent hashed_sent
  trace_sent faults_sent logs_sent : world.

Ltac run := unfold bind, ret, gets, modify; simpl.

(** Splits conjunctions only, leaving records whole. *)
Ltac conj := repeat match goal with |- _ /\ _ => split end.

Lemma First_by_id_eq (id : N) (w : World) :
  gorm.First_by_id id w =
  (match fault w with
   | Some msg => Err (ErrNew msg)
   | None =>
       match gorm.lowest (filter (hit id) (users w)) with
       | Some u => Ok u
       | None => Err ErrRecordNotFound
       end
   end, sent (SelectUserByID id) w).
Proof.
  unfold gorm.First_by_id. rewrite bind_run, exec_eq; simpl.
  destruct (fault w); [reflexivity|]. run.
  rewrite users_sent. fold (hit id).
  destruct (gorm.lowest _); reflexivity.
Qed.

Lemma First_by_email_eq (email : string) (w : World) :
  gorm.First_by_email email w =
  (match fault w with
   | Some msg => Err (ErrNew msg)
   | None =>
       match gorm.lowest
               (filter (fun u => String.eqb (Email u) email && gorm.live u) (users w)) with
       | Some u => Ok u
       | None => Err ErrRecordNotFound
       end
   end, sent (SelectUserByEmail email) w).
Proof.
  unfold gorm.First_by_email. rewrite bind_run, exec_eq; simpl.
  destruct (fault w); [reflexivity|]. run.
  rewrite users_sent.
  destruct (gorm.lowest _); reflexivity.
Qed.

Lemma Find_eq (w : World) :
  gorm.Find w =
  (match fault w with
   | Some msg => Err (ErrNew msg)
   | None => Ok (Go.Slice (filter gorm.live (users w)))
   end, sent SelectUsers w).
Proof.
  unfold gorm.Find. rewrite bind_run, exec_eq; simpl.
  destruct (fault w); [reflexivity|]. run.
  now rewrite users_sent.
Qed.

Lemma Delete_User_eq (id : N) (w : World) :
  gorm.Delete_User id w =
  match fault w with
  | Some msg => (Err (ErrNew msg), sent (SoftDeleteUser id) w)
  | None =>
      (Ok (N.of_nat (length (filter (hit id) (users w)))),
       set_users (map (fun r => if hit id r then with_DeletedAt (Some (clock w)) r else r)
                      (users w))
                 (sent (SoftDeleteUser id) w))
  end.
Proof.
  unfold gorm.Delete_User. rewrite bind_run, exec_eq; simpl.
  destruct (fault w); [reflexivity|]. run.
  now rewrite users_sent, clock_sent.
Qed.

Lemma Delete_Item_eq (id : Z) (w : World) :
  gorm.Delete_Item id w =
  match fault w with
  | Some msg => (Err (ErrNew msg), sent (DeleteItem id) w)
  | None =>
      (Ok (N.of_nat (length (filter (fun r => (Z.of_N (iID r) =? id)%Z) (items w)))),
       set_items (filter (fun r => negb (Z.of_N (iID r) =? id)%Z) (items w))
                 (sent (DeleteItem id) w))
  end.
Proof.
  unfold gorm.Delete_Item. rewrite bind_run, exec_eq; simpl.
  destruct (fault w); [reflexivity|]. run.
  now rewrite items_sent.
Qed.

(** ** [ORDER BY id LIMIT 1] *)

Lemma lowest_In rows u : gorm.lowest rows = Some u -> In u rows.
Proof.
  revert u; induction rows as [|r rest IH]; simpl; intros u H; [discriminate|].
  destruct (gorm.lowest rest) as [b|].
  - destruct (ID b <? ID r)%N; inversion H; subst; auto.
  - inversion H; auto.
Qed.

Lemma lowest_None rows : gorm.lowest rows = None -> rows = [].
Proof.
  destruct rows as [|r rest]; simpl; [reflexivity|].
  destruct (gorm.lowest rest) as [b|]; [destruct (ID b <? ID r)%N|]; discriminate.
Qed.

Lemma lowest_filter (p : User -> bool) rows u :
  gorm.lowest (filter p rows) = Some u -> In u rows /\ p u = true.
Proof. intros H. apply lowest_In, filter_In in H. exact H. Qed.

Lemma lowest_filter_some (p : User -> bool) rows r :
  In r rows -> p r = true -> exists u, gorm.lowest (filter p rows) = Some u.
Proof.
  intros Hin Hp.
  destruct (gorm.lowest (filter p rows)) as [u|] eqn:E; [eauto|].
  apply lowest_None in E.
  assert (In r (filter p rows)) by (apply filter_In; auto).
  rewrite E in H. contradiction.
Qed.

(** ** Writes *)

Lemma users_only_sent s w : users_only [s] w (sent s w).
Proof. constructor; autorewrite with world; reflexivity. Qed.

Lemma users_only_set_users s w w' rows :
  users_only s w w' -> users_only s w (set_users rows w').
Proof. intros []; constructor; assumption. Qed.

Lemma users_only_set_seq s w w' n :
  users_only s w w' -> users_only s w (set_users_seq n w').
Proof. intros []; constructor; assumption. Qed.

Lemma users_only_app s1 s2 w1 w2 w3 :
  users_only s1 w1 w2 -> users_only s2 w2 w3 -> users_only (s1 ++ s2) w1 w3.
Proof.
  intros [] []; constructor; try congruence.
  rewrite map_app, app_assoc. congruence.
Qed.

Lemma inserted_sent u s w : gorm.inserted u (sent s w) = gorm.inserted u w.
Proof. unfold gorm.inserted. now autorewrite with world. Qed.

Lemma Create_spec (u : User) (w : World) :
  let r := gorm.Create u w in
  let row := gorm.inserted u w in
  users_only [InsertUser (Email u)] w (snd r)
  /\ ((fst r = Ok row
       /\ users (snd r) = users w ++ [row]
       /\ fault w = None
       /\ gorm.fits row = true
       /\ existsb (fun x => (ID x =? ID row)%N) (users w) = false
       /\ existsb (fun x => String.eqb (Email x) (Email row)) (users w) = false)
      \/ (exists msg, fst r = Err (ErrNew msg) /\ users (snd r) = users w)).
Proof.
  cbv zeta. unfold gorm.Create. rewrite bind_run, exec_eq; simpl.
  destruct (fault w) as [msg|] eqn:Ef.
  { split; [apply users_only_sent|]. right. exists msg.
    run. now autorewrite with world. }
  rewrite inserted_sent. autorewrite with world.
  set (w0 := sent (InsertUser (Email u)) w).
  set (w1 := if (ID u =? 0)%N then set_users_seq (users_seq w + 1)%N w0 else w0).
  assert (Hw1 : users_only [InsertUser (Email u)] w w1).
  { unfold w1. destruct (ID u =? 0)%N;
      [apply users_only_set_seq|]; apply users_only_sent. }
  assert (Hu1 : users w1 = users w).
  { unfold w1. destruct (ID u =? 0)%N; simpl; unfold w0; now autorewrite with world. }
  destruct (gorm.fits (gorm.inserted u w)) eqn:Efit; simpl.
  2:{ split; [exact Hw1|]. right. eexists; split; [reflexivity|exact Hu1]. }
  destruct (existsb _ (users w)) eqn:Epk; simpl.
  { split; [exact Hw1|]. right. eexists; split; [reflexivity|exact Hu1]. }
  destruct (existsb (fun r => String.eqb (Email r) _) (users w)) eqn:Eem; simpl.
  { split; [exact Hw1|]. right. eexists; split; [reflexivity|exact Hu1]. }
  split; [now apply users_only_set_users|].
  left. conj; auto.
Qed.

Lemma Create_ok (u : User) (w : World) :
  fault w = None ->
  gorm.fits (gorm.inserted u w) = true ->
  existsb (fun x => (ID x =? ID (gorm.inserted u w))%N) (users w) = false ->
  existsb (fun x => String.eqb (Email x) (Email (gorm.inserted u w))) (users w) = false ->
  fst (gorm.Create u w) = Ok (gorm.inserted u w).
Proof.
  intros Hf Hfit Hpk Hem.
  unfold gorm.Create. rewrite bind_run, exec_eq, Hf; simpl.
  rewrite inserted_sent. autorewrite with world.
  simpl in Hpk, Hem.
  rewrite Hfit; simpl. rewrite Hpk; simpl. rewrite Hem; simpl.
  reflexivity.
Qed.

Lemma upsert_spec (u : User) (w : World) :
  let r := gorm.upsert u w in
  users_only [UpsertUser (ID u)] w (snd r)
  /\ ((fst r = Ok (u, 1%N)
       /\ (users (snd r) = map (fun x => if (ID x =? ID u)%N then u else x) (users w)
           \/ (users (snd r) = users w ++ [u]
               /\ existsb (fun x => (ID x =? ID u)%N) (users w) = false)))
      \/ (exists msg, fst r = Err (ErrNew msg) /\ users (snd r) = users w)).
Proof.
  cbv zeta. unfold gorm.upsert. rewrite bind_run, exec_eq; simpl.
  destruct (fault w) as [msg|] eqn:Ef.
  { split; [apply users_only_sent|]. right. exists msg.
    run. now autorewrite with world. }
  autorewrite with world.
  destruct (gorm.fits u); simpl.
  2:{ split; [apply users_only_sent|]. right. eexists; split; [reflexivity|].
      now autorewrite with world. }
  destruct (existsb (fun r => negb _ && _) (users w)); simpl.
  { split; [apply users_only_sent|]. right. eexists; split; [reflexivity|].
    now autorewrite with world. }
  destruct (existsb _ (users w)) eqn:Epk; simpl;
    (split; [apply users_only_set_users, users_only_sent|]); left; auto.
Qed.

(** The outcomes of [Save] on a struct with a non-zero key. *)
Lemma Save_spec (u : User) (w : World) :
  ID u <> 0%N ->
  let r := gorm.Save u w in
  let row := with_UpdatedAt (clock w) u in
  (exists n, n <> 0%N /\ fst r = Ok (row, n)
     /\ users (snd r) = map (fun x => if hit (ID u) x then row else x) (users w)
     /\ filter (hit (ID u)) (users w) <> []
     /\ users_only [UpdateUser (ID u)] w (snd r))
  \/ (filter (hit (ID u)) (users w) = []
      /\ fst r = Ok (row, 1%N)
      /\ (users (snd r) = map (fun x => if (ID x =? ID u)%N then row else x) (users w)
          \/ (users (snd r) = users w ++ [row]
              /\ existsb (fun x => (ID x =? ID u)%N) (users w) = false))
      /\ users_only [UpdateUser (ID u); UpsertUser (ID u)] w (snd r))
  \/ (exists msg st, fst r = Err (ErrNew msg) /\ users (snd r) = users w
                     /\ users_only st w (snd r)).
Proof.
  intros Hid. cbv zeta. unfold gorm.Save.
  apply N.eqb_neq in Hid. rewrite Hid.
  rewrite bind_run, exec_eq; simpl.
  destruct (fault w) as [msg|] eqn:Ef.
  { right; right. exists msg, [UpdateUser (ID u)]. run.
    autorewrite with world. conj; auto. apply users_only_sent. }
  rewrite bind_run. unfold gets at 1; simpl.
  autorewrite with world. fold (hit (ID u)).
  set (w0 := sent (UpdateUser (ID u)) w).
  set (row := with_UpdatedAt (clock w) u).
  destruct (filter (hit (ID u)) (users w)) as [|x xs] eqn:Ehit; simpl.
  - (* no row matched: the second statement *)
    destruct (upsert_spec row w0) as [Huo [(Hr & Hu)|(msg & Hr & Hu)]].
    + right; left. split; [reflexivity|]. split; [exact Hr|].
      unfold w0 in Hu; autorewrite with world in Hu.
      split; [exact Hu|].
      exact (users_only_app _ _ _ _ _ (users_only_sent _ _) Huo).
    + right; right. exists msg. eexists. split; [exact Hr|].
      unfold w0 in Hu; autorewrite with world in Hu. split; [exact Hu|].
      exact (users_only_app _ _ _ _ _ (users_only_sent _ _) Huo).
  - destruct (gorm.fits row); simpl.
    2:{ right; right. eexists; exists [UpdateUser (ID u)].
        run. split; [reflexivity|]. unfold w0. autorewrite with world.
        split; [reflexivity|apply users_only_sent]. }
    destruct (existsb _ (users w)); simpl.
    { right; right. eexists; exists [UpdateUser (ID u)].
      run. split; [reflexivity|]. unfold w0. autorewrite with world.
      split; [reflexivity|apply users_only_sent]. }
    left. exists (N.of_nat (S (length xs))). run.
    conj; try discriminate; try lia; try reflexivity.
    unfold w0. apply users_only_set_users, users_only_sent.
Qed.

Lemma Save_ok (u : User) (w : World) :
  ID u <> 0%N ->
  fault w = None ->
  filter (hit (ID u)) (users w) <> [] ->
  gorm.fits (with_UpdatedAt (clock w) u) = true ->
  existsb (fun r => negb (hit (ID u) r) && String.eqb (Email r) (Email u)) (users w) = false ->
  exists n, n <> 0%N /\ fst (gorm.Save u w) = Ok (with_UpdatedAt (clock w) u, n).
Proof.
  intros Hid Hf Hhit Hfit Hem. unfold gorm.Save.
  apply N.eqb_neq in Hid. rewrite Hid.
  rewrite bind_run, exec_eq, Hf; simpl.
  rewrite bind_run. unfold gets at 1; simpl.
  autorewrite with world. fold (hit (ID u)).
  destruct (filter (hit (ID u)) (users w)) as [|x xs]; [contradiction|]. simpl.
  unfold hit in Hem. rewrite Hfit. simpl. rewrite Hem.
  exists (N.of_nat (S (length xs))). split; [lia|reflexivity].
Qed.

(** ** The repository *)

Lemma FindByEmail_eq (email : string) (w : World) :
  repository.FindByEmail email w =
  (match fault w with
   | Some msg => Err (database_error "Failed to retrieve user by email" (ErrNew msg))
   | None =>
       match gorm.lowest
               (filter (fun u => String.eqb (Email u) email && gorm.live u) (users w)) with
       | Some u => Ok u
       | None => Err (not_found_by_email email)
       end
   end, sent (SelectUserByEmail email) w).
Proof.
  unfold repository.FindByEmail. rewrite bind_run, First_by_email_eq; simpl.
  destruct (fault w); [reflexivity|].
  destruct (gorm.lowest _); reflexivity.
Qed.

Lemma FindByID_eq (id : N) (w : World) :
  repository.FindByID id w =
  (match fault w with
   | Some msg => Err (database_error "Failed to retrieve user" (ErrNew msg))
   | None =>
       match gorm.lowest (filter (hit id) (users w)) with
       | Some u => Ok u
       | None => Err (not_found_by_id id (Some ErrRecordNotFound))
       end
   end, sent (SelectUserByID id) w).
Proof.
  unfold repository.FindByID. rewrite bind_run, First_by_id_eq; simpl.
  destruct (fault w); [reflexivity|].
  destruct (gorm.lowest _); reflexivity.
Qed.

Lemma FindAll_eq (w : World) :
  repository.FindAll w =
  (match fault w with
   | Some msg => Err (database_error "Failed to retrieve users" (ErrNew msg))
   | None => Ok (Go.Slice (filter gorm.live (users w)))
   end, sent SelectUsers w).
Proof.
  unfold repository.FindAll. rewrite bind_run, Find_eq; simpl.
  destruct (fault w); reflexivity.
Qed.

Lemma Delete_eq (id : N) (w : World) :
  repository.Delete id w =
  match fault w with
  | Some msg =>
      (Some (database_error "Failed to delete user" (ErrNew msg)),
       sent (SoftDeleteUser id) w)
  | None =>
      (if (N.of_nat (length (filter (hit id) (users w))) =? 0)%N
       then Some (not_found_by_id id None)
       else None,
       set_users (map (fun r => if hit id r then with_DeletedAt (Some (clock w)) r else r)
                      (users w))
                 (sent (SoftDeleteUser id) w))
  end.
Proof.
  unfold repository.Delete. rewrite bind_run, Delete_User_eq.
  destruct (fault w); [reflexivity|]. simpl.
  destruct (N.of_nat _ =? 0)%N; reflexivity.
Qed.

(** The lookup of [Create], then its insert when the lookup found nothing
    or failed. *)
Lemma Create_eq (user : User) (w : World) :
  repository.Create user w =
  let w1 := sent (SelectUserByEmail (Email user)) w in
  match fst (repository.FindByEmail (Email user) w) with
  | Ok _ => ((user, Some (duplicate_email (Email user))), w1)
  | Err _ =>
      match fst (gorm.Create user w1) with
      | Err e => ((user, Some (database_error "Failed to create user" e)),
                  snd (gorm.Create user w1))
      | Ok row => ((row, None), snd (gorm.Create user w1))
      end
  end.
Proof.
  unfold repository.Create. rewrite bind_run. rewrite FindByEmail_eq at 2. simpl.
  destruct (fst (repository.FindByEmail (Email user) w)); [reflexivity|].
  rewrite bind_run. destruct (fst (gorm.Create user _)); reflexivity.
Qed.

Lemma soft_deleted_not_hit (id t : N) (rows : list User) :
  filter (hit id)
         (map (fun r => if hit id r then with_DeletedAt (Some t) r else r) rows) = [].
Proof.
  induction rows as [|r rest IH]; simpl; [reflexivity|].
  destruct (hit id r) eqn:E.
  - unfold hit at 1; simpl. rewrite andb_false_r. exact IH.
  - rewrite E. exact IH.
Qed.

(** ** C3: the duplicate pre-check *)

(** C3.  When a live row holds the e-mail of the user to create and the
    driver runs the lookup, the gateway [Create] sends the lookup and
    nothing else, leaves the table and its sequence as they were, and
    returns the DuplicateResource error, which the handler answers with
    409. *)
Theorem Create_rejects_taken_email (w : World) (user existing : User) :
  In existing (users w) ->
  gorm.live existing = true ->
  Email existing = Email user ->
  fault w = None ->
  let r := repository.Create user w in
  snd (fst r) = Some (duplicate_email (Email user))
  /\ trace (snd r) = trace w ++ [EvSQL (SelectUserByEmail (Email user))]
  /\ users (snd r) = users w
  /\ users_seq (snd r) = users_seq w
  /\ controller.handleError (duplicate_email (Email user))
     = mkResponse 409
         (Some (error_body "DUPLICATE_RESOURCE" "User with this email already exists"
                  (Some (JObj [("email", JStr (Email user))])))).
Proof.
  intros Hin Hlive Hemail Hfault. cbv zeta.
  rewrite Create_eq, FindByEmail_eq, Hfault. cbv zeta. simpl.
  destruct (lowest_filter_some
              (fun u => String.eqb (Email u) (Email user) && gorm.live u)
              (users w) existing Hin) as [u Hu].
  { rewrite Hemail, String.eqb_refl, Hlive. reflexivity. }
  rewrite Hu. simpl. autorewrite with world. conj; reflexivity.
Qed.

Lemma Create_rejects_taken_email_witness :
  snd (fst (repository.Create
              (mkUser 0 "Ann B" "ann@x.com" "$2a$10$hunter22" "user" true 0 0 None)
              sample.with_ann))
  = Some (duplicate_email "ann@x.com")
  /\ users (snd (repository.Create
                   (mkUser 0 "Ann B" "ann@x.com" "$2a$10$hunter22" "user" true 0 0 None)
                   sample.with_ann))
     = [sample.ann_row].
Proof.
  pose proof (Create_rejects_taken_email sample.with_ann
                (mkUser 0 "Ann B" "ann@x.com" "$2a$10$hunter22" "user" true 0 0 None)
                sample.ann_row (or_introl eq_refl) eq_refl eq_refl eq_refl) as H.
  cbv zeta in H. destruct H as (H1 & _ & H3 & _).
  split; [exact H1|exact H3].
Defined.

(** ** C9: a failed lookup lets the insert through *)

(** C9.  The gateway [Create] returns DuplicateResource only when the
    driver ran the lookup and a live row holds the e-mail.  When the
    driver fails the lookup, [Create] neither reports nor logs that
    failure: it sends the insert next, and returns what the insert
    returns, success or a Database error. *)
Theorem Create_bypasses_check_on_failed_lookup (w : World) (user : User) :
  let r := repository.Create user w in
  (forall a, snd (fst r) = Some (ErrApp a) ->
             apperrors.Code a = "DUPLICATE_RESOURCE" ->
             fault w = None
             /\ exists existing, In existing (users w) /\ gorm.live existing = true
                                 /\ Email existing = Email user)
  /\ (forall msg, fault w = Some msg ->
        trace (snd r) = trace w ++ [EvSQL (SelectUserByEmail (Email user));
                                    EvSQL (InsertUser (Email user))]
        /\ logs (snd r) = logs w
        /\ (snd (fst r) = None
            \/ exists cause,
                snd (fst r) = Some (database_error "Failed to create user" cause))).
Proof.
  cbv zeta. rewrite Create_eq, FindByEmail_eq. cbv zeta. simpl.
  set (w1 := sent (SelectUserByEmail (Email user)) w).
  destruct (Create_spec user w1) as [Huo Hcases]. cbv zeta in Hcases.
  assert (Htr : trace (snd (gorm.Create user w1))
                = trace w ++ [EvSQL (SelectUserByEmail (Email user));
                              EvSQL (InsertUser (Email user))]).
  { rewrite (uo_trace _ _ _ Huo). unfold w1. autorewrite with world.
    rewrite <- app_assoc. reflexivity. }
  assert (Hlg : logs (snd (gorm.Create user w1)) = logs w).
  { rewrite (uo_logs _ _ _ Huo). unfold w1. now autorewrite with world. }
  split.
  - intros a Ha Hcode. destruct (fault w) as [msg|] eqn:Ef.
    + exfalso. destruct Hcases as [(Hr & _)|(m & Hr & _)]; rewrite Hr in Ha;
        simpl in Ha; [discriminate|].
      inversion Ha; subst. discriminate.
    + split; [reflexivity|].
      destruct (gorm.lowest _) as [u|] eqn:El.
      * apply lowest_filter in El. destruct El as [Hin Hp].
        apply andb_prop in Hp. destruct Hp as [He Hl].
        apply String.eqb_eq in He. eauto.
      * exfalso. destruct Hcases as [(Hr & _)|(m & Hr & _)]; rewrite Hr in Ha;
          simpl in Ha; [discriminate|].
        inversion Ha; subst. discriminate.
  - intros msg Hf. rewrite Hf.
    destruct Hcases as [(Hr & _)|(m & Hr & _)]; rewrite Hr; simpl; conj; eauto.
Qed.

Lemma Create_bypasses_check_on_failed_lookup_witness :
  repository.Create
    (mkUser 0 "Ann B" "ann@x.com" "$2a$10$hunter22" "user" true 0 0 None)
    (set_faults [Some "driver: bad connection"] sample.with_ann)
  = ((mkUser 0 "Ann B" "ann@x.com" "$2a$10$hunter22" "user" true 0 0 None,
      Some (database_error "Failed to create user" (ErrNew gorm.email_violation))),
     mkWorld [sample.ann_row] 2 [] 1000 [] 1
       (trace sample.with_ann ++ [EvSQL (SelectUserByEmail "ann@x.com");
                                  EvSQL (InsertUser "ann@x.com")]) [])
  /\ trace (snd (repository.Create
                   (mkUser 0 "Ann B" "ann@x.com" "$2a$10$hunter22" "user" true 0 0 None)
                   (set_faults [Some "driver: bad connection"] sample.with_ann)))
     = trace sample.with_ann ++ [EvSQL (SelectUserByEmail "ann@x.com");
                                 EvSQL (InsertUser "ann@x.com")].
Proof.
  split; [reflexivity|].
  exact (proj1 (proj2 (Create_bypasses_check_on_failed_lookup
                         (set_faults [Some "driver: bad connection"] sample.with_ann)
                         (mkUser 0 "Ann B" "ann@x.com" "$2a$10$hunter22" "user" true 0 0 None))
                  "driver: bad connection" eq_refl)).
Defined.

(** ** C5: a deleted user is not found *)

(** C5.  After a [Delete] of [id] that succeeded, in any later world that
    holds the table as the delete left it, [FindByID] of [id] never
    returns a user; when the driver runs its query it returns the
    ResourceNotFound error, which the handler answers with 404. *)
Theorem Delete_then_FindByID_not_found (w w2 : World) (id : N) :
  fst (repository.Delete id w) = None ->
  users w2 = users (snd (repository.Delete id w)) ->
  (forall u, fst (repository.FindByID id w2) <> Ok u)
  /\ (fault w2 = None ->
      fst (repository.FindByID id w2) = Err (not_found_by_id id (Some ErrRecordNotFound))
      /\ apperrors.IsNotFound (not_found_by_id id (Some ErrRecordNotFound)) = true
      /\ controller.handleError (not_found_by_id id (Some ErrRecordNotFound))
         = mkResponse 404
             (Some (error_body "RESOURCE_NOT_FOUND" "User not found"
                      (Some (JObj [("id", JNum (Z.of_N id))]))))).
Proof.
  intros Hdel Hrows.
  rewrite Delete_eq in Hdel, Hrows.
  destruct (fault w) as [msg|]; [discriminate|]. simpl in Hrows.
  assert (Hnone : filter (hit id) (users w2) = []).
  { rewrite Hrows. apply soft_deleted_not_hit. }
  rewrite FindByID_eq, Hnone. simpl. split.
  - intros u. destruct (fault w2); discriminate.
  - intros Hf. rewrite Hf. conj; reflexivity.
Qed.

Lemma Delete_then_FindByID_not_found_witness :
  fst (repository.FindByID 1 (snd (repository.Delete 1 sample.with_ann)))
  = Err (not_found_by_id 1 (Some ErrRecordNotFound)).
Proof.
  exact (proj1 (proj2 (Delete_then_FindByID_not_found sample.with_ann
                         (snd (repository.Delete 1 sample.with_ann)) 1
                         eq_refl eq_refl) eq_refl)).
Defined.

(** ** C6: invalid requests stop at the handler *)

Lemma untouched_refl w : untouched w w.
Proof. constructor; reflexivity. Qed.

Lemma untouched_log w line : untouched w (snd (logger.Error line w)).
Proof. constructor; reflexivity. Qed.

Lemma parseIDParam_Err ctx :
  strconv.ParseUint (Param_id ctx) 32 = None ->
  exists e, controller.parseIDParam ctx = Err e.
Proof. unfold controller.parseIDParam. intros ->. eauto. Qed.

Lemma parseIDParam_cases ctx :
  (exists id, controller.parseIDParam ctx = Ok id
              /\ strconv.ParseUint (Param_id ctx) 32 = Some id)
  \/ (exists e, controller.parseIDParam ctx = Err e
                /\ strconv.ParseUint (Param_id ctx) 32 = None).
Proof.
  unfold controller.parseIDParam.
  destruct (strconv.ParseUint (Param_id ctx) 32); eauto.
Qed.

(** C6.  On every route, a request whose [id] parameter does not parse or
    whose body does not bind is answered 400 with the INVALID_INPUT
    document, and the handler returns with no service method entered, no
    statement sent and no table changed. *)
Theorem invalid_request_stops_at_handler
  (bcrypt : nat -> string -> Z -> result string) (isEmail : string -> bool)
  (route : Route) (ctx : Context) (w : World) :
  invalid_for isEmail route ctx ->
  (fst (Register bcrypt isEmail route ctx w) = bad_request "Invalid input"
   \/ fst (Register bcrypt isEmail route ctx w) = bad_request "Invalid ID format")
  /\ untouched w (snd (Register bcrypt isEmail route ctx w)).
Proof.
  destruct route; simpl; intros H.
  - contradiction.
  - apply parseIDParam_Err in H. destruct H as [e He].
    unfold controller.GetUserByID. rewrite He.
    split; [right; reflexivity|apply untouched_refl].
  - destruct H as [e He]. unfold controller.CreateUser. rewrite He.
    split; [left; reflexivity|apply untouched_log].
  - unfold controller.UpdateUser.
    destruct (parseIDParam_cases ctx) as [(id & Hid & _)|(e & He & Hp)]; cycle 1.
    { rewrite He. split; [right; reflexivity|apply untouched_refl]. }
    rewrite Hid. destruct H as [H|[e He]]; [|rewrite He].
    + apply parseIDParam_Err in H. destruct H as [e He]. congruence.
    + split; [left; reflexivity|apply untouched_log].
  - apply parseIDParam_Err in H. destruct H as [e He].
    unfold controller.DeleteUser. rewrite He.
    split; [right; reflexivity|apply untouched_refl].
Qed.

Lemma invalid_request_stops_at_handler_witness :
  untouched sample.with_ann
    (snd (Register sample.hash sample.isEmail POST_users sample.post_root sample.with_ann))
  /\ untouched sample.with_ann
       (snd (Register sample.hash sample.isEmail GET_users_id sample.get_abc sample.with_ann)).
Proof.
  split.
  - refine (proj2 (invalid_request_stops_at_handler sample.hash sample.isEmail
                     POST_users sample.post_root sample.with_ann _)).
    simpl. eexists. reflexivity.
  - refine (proj2 (invalid_request_stops_at_handler sample.hash sample.isEmail
                     GET_users_id sample.get_abc sample.with_ann _)).
    reflexivity.
Defined.

(** ** C7: deleting an item *)

(** C7, at the failing input.  On an empty [items] table, DELETE
    /items/999 is answered 200 with [{"deleted": 999}] after one DELETE
    statement that affected no row: an id matching no stored item does
    yield a success response, so the handler does not answer NotFound
    whenever no row matches. *)
Theorem DeleteItem_missing_row_is_success :
  handlers.DeleteItem sample.get_999 sample.empty
  = (mkResponse 200 (Some (JObj [("deleted", JNum 999)])),
     mkWorld [] 0 [] 1000 [] 0 [EvSQL (DeleteItem 999)] [])
  /\ ~ item_delete_reports_missing_row.
Proof.
  split; [reflexivity|].
  intros H. specialize (H sample.get_999 sample.empty 999%Z eq_refl).
  simpl in H. discriminate H. intros r [].
Qed.

(** X23.  All the outcomes of the item handler.  An [id] that is not an integer
    is answered 400 and no statement is sent.  Otherwise the DELETE is sent: when the
    driver fails it the answer is 500 and the table is as before; when it
    runs, the rows with that id are gone, all others stay, and the answer
    is 200 with [{"deleted": id}], whether a row matched or not.  No
    request is answered 404. *)
Theorem DeleteItem_outcomes (ctx : Context) (w : World) :
  let r := handlers.DeleteItem ctx w in
  status (fst r) <> 404%Z
  /\ (strconv.Atoi (Param_id ctx) = None ->
      fst r = mkResponse 400 (Some (JObj [("error", JStr "Invalid ID")]))
      /\ untouched w (snd r))
  /\ (forall id, strconv.Atoi (Param_id ctx) = Some id ->
        trace (snd r) = trace w ++ [EvSQL (DeleteItem id)]
        /\ (forall msg, fault w = Some msg ->
              fst r = mkResponse 500 (Some (JObj [("error", JStr "Database error")]))
              /\ items (snd r) = items w)
        /\ (fault w = None ->
              fst r = mkResponse 200 (Some (JObj [("deleted", JNum id)]))
              /\ items (snd r)
                 = filter (fun it => negb (Z.of_N (iID it) =? id)%Z) (items w))).
Proof.
  cbv zeta. unfold handlers.DeleteItem.
  destruct (strconv.Atoi (Param_id ctx)) as [id|].
  - rewrite bind_run, Delete_Item_eq.
    destruct (fault w) as [msg|]; simpl.
    + conj; try discriminate. intros id' E; inversion E; subst.
      autorewrite with world. conj; try discriminate; auto.
    + conj; try discriminate. intros id' E; inversion E; subst.
      autorewrite with world. conj; try discriminate; auto.
  - simpl. conj; try discriminate.
    intros _. split; [reflexivity|apply untouched_log].
Qed.

Lemma DeleteItem_outcomes_witness :
  fst (handlers.DeleteItem sample.get_999 sample.empty)
  = mkResponse 200 (Some (JObj [("deleted", JNum 999)]))
  /\ untouched sample.empty (snd (handlers.DeleteItem sample.get_abc sample.empty)).
Proof.
  split.
  - exact (proj1 (proj2 (proj2 (proj2 (proj2 (DeleteItem_outcomes sample.get_999 sample.empty))
                                  999%Z eq_refl)) eq_refl)).
  - exact (proj2 (proj1 (proj2 (DeleteItem_outcomes sample.get_abc sample.empty)) eq_refl)).
Defined.

(** ** C8: listing users *)

(** The response slice of [GetAllUsers] after the loop: nil when the
    repository returned no user. *)
Lemma collect_responses (rows : list User) :
  Go.range (fun response user => Go.append response (ToResponse user))
           (Go.Slice rows) Go.nil_slice
  = match rows with
    | [] => Go.nil_slice
    | _ => Go.Slice (map ToResponse rows)
    end.
Proof.
  unfold Go.range; simpl.
  assert (H : forall l acc,
             fold_left (fun response user => Go.append response (ToResponse user)) l
                       (Go.Slice acc)
             = Go.Slice (acc ++ map ToResponse l)).
  { induction l as [|x l IH]; intros acc; simpl.
    - now rewrite app_nil_r.
    - unfold Go.append at 2; simpl. rewrite IH, <- app_assoc. reflexivity. }
  destruct rows as [|x rest]; [reflexivity|].
  simpl. unfold Go.append at 2; simpl. apply H.
Qed.

Lemma GetAllUsers_eq (ctx : Context) (w : World) :
  fault w = None ->
  fst (controller.GetAllUsers ctx w)
  = mkResponse 200
      (Some (match filter gorm.live (users w) with
             | [] => JNull
             | rows => JArr (map marshal_UserResponse (map ToResponse rows))
             end)).
Proof.
  intros Hf. unfold controller.GetAllUsers, service.GetAllUsers.
  rewrite !bind_run. simpl. rewrite FindAll_eq. simpl.
  unfold fault in *. simpl. rewrite Hf. simpl.
  rewrite collect_responses.
  destruct (filter gorm.live (users w)); reflexivity.
Qed.

(** C8, at the failing input.  On a [users] table without rows, whatever
    the rest of the world, GET /api/v1/users answers 200 with the body
    [null], not with an empty array. *)
Theorem GetAllUsers_no_rows_body_is_null
  (ctx : Context) (seq : N) (its : list Item) (now : N) (n : nat)
  (events : list Event) (lines : list string) :
  fst (controller.GetAllUsers ctx (mkWorld [] seq its now [] n events lines))
  = mkResponse 200 (Some JNull)
  /\ Some JNull <> Some (JArr []).
Proof. split; [reflexivity|discriminate]. Qed.

(** ** C2: creating a user *)

Lemma nth_fault_0 w : healthy 1 w -> fault w = None.
Proof.
  intros H. specialize (H 0%nat (Nat.lt_0_succ _)).
  unfold fault. destruct (faults w); auto.
Qed.

Lemma healthy_sent n s w : healthy (S n) w -> healthy n (sent s w).
Proof.
  intros H k Hk. rewrite faults_sent.
  specialize (H (S k) (proj1 (Nat.succ_lt_mono _ _) Hk)).
  destruct (faults w) as [|f rest]; simpl in *; [destruct k|]; auto.
Qed.

Lemma healthy_weaken n m w : (m <= n)%nat -> healthy n w -> healthy m w.
Proof. intros Hle H k Hk. apply H. lia. Qed.

Lemma existsb_false_iff {A} (p : A -> bool) (l : list A) :
  existsb p l = false <-> forall x, In x l -> p x = false.
Proof.
  split.
  - intros H x Hin. destruct (p x) eqn:E; [|reflexivity].
    rewrite <- H. symmetry. apply existsb_exists. eauto.
  - intros H. destruct (existsb p l) eqn:E; [|reflexivity].
    apply existsb_exists in E. destruct E as (x & Hin & Hp).
    rewrite (H x Hin) in Hp. discriminate.
Qed.

(** The struct [CreateUser] hands to the repository. *)
Lemma CreateUser_eq (bcrypt : nat -> string -> Z -> result string)
      (input : UserCreate) (w : World) :
  service.CreateUser bcrypt input w =
  let w1 := set_hashed (S (hashed w)) (set_trace (trace w ++ [EvService "CreateUser"]) w) in
  match bcrypt (hashed w) (cPassword input) 10%Z with
  | Err err =>
      (Err (ErrApp (apperrors.NewInternalError "Failed to process password" (Some err))),
       snd (logger.Error "Failed to hash password" w1))
  | Ok h =>
      let user := mkUser 0 (cName input) (cEmail input) h
                         (if String.eqb (cRole input) "" then "user" else cRole input)
                         true 0 0 None in
      match fst (repository.Create user w1) with
      | (_, Some err) =>
          (Err err, snd (logger.Error "Failed to create user"
                           (snd (repository.Create user w1))))
      | (row, None) => (Ok (ToResponse row), snd (repository.Create user w1))
      end
  end.
Proof.
  unfold service.CreateUser. cbv zeta.
  rewrite bind_run. simpl. rewrite bind_run. unfold service.hash at 1 2. simpl.
  unfold service.DefaultCost.
  destruct (bcrypt (hashed w) (cPassword input) 10%Z) as [h|err]; [|reflexivity].
  rewrite bind_run.
  match goal with
  | |- context [repository.Create ?u ?w1] =>
      replace u with (mkUser 0 (cName input) (cEmail input) h
                             (if String.eqb (cRole input) "" then "user" else cRole input)
                             true 0 0 None)
        by (simpl; destruct (String.eqb (cRole input) ""); reflexivity)
  end.
  destruct (fst (repository.Create _ _)) as [row [err|]]; reflexivity.
Qed.

(** C2.  Given a bcrypt that never returns its input: whenever
    [CreateUser] returns a response, one row was added to the table; it
    holds the bcrypt hash of the input password, salted by the index of
    the call, and not the password; its role is the input role, or "user"
    for an empty one; it is active; the response is the shape of that
    row, its identifier is not zero and it has no password field.  And
    [CreateUser] does return a response when bcrypt yields a hash, the
    driver runs the two statements, the values fit their columns and
    neither the e-mail nor the next key is taken. *)
Theorem CreateUser_stores_hash_and_defaults
  (bcrypt : nat -> string -> Z -> result string) (input : UserCreate) (w : World) :
  (forall n password cost h, bcrypt n password cost = Ok h -> h <> password) ->
  let r := service.CreateUser bcrypt input w in
  let role := if String.eqb (cRole input) "" then "user" else cRole input in
  (forall resp, fst r = Ok resp ->
     exists row,
       users (snd r) = users w ++ [row]
       /\ bcrypt (hashed w) (cPassword input) 10%Z = Ok (Password row)
       /\ Password row <> cPassword input
       /\ Name row = cName input
       /\ Email row = cEmail input
       /\ Role row = role
       /\ Active row = true
       /\ resp = ToResponse row
       /\ rID resp <> 0%N
       /\ json_field "password" (marshal_UserResponse resp) = None
       /\ json_keys (marshal_UserResponse resp)
          = ["id"; "name"; "email"; "role"; "active"; "created_at"; "updated_at"])
  /\ (forall h,
        bcrypt (hashed w) (cPassword input) 10%Z = Ok h ->
        healthy 2 w ->
        gorm.fits (mkUser 0 (cName input) (cEmail input) h role true 0 0 None) = true ->
        (forall x, In x (users w) ->
                   Email x <> cEmail input /\ ID x <> (users_seq w + 1)%N) ->
        exists resp, fst r = Ok resp).
Proof.
  intros Hone. cbv zeta. rewrite CreateUser_eq. cbv zeta.
  set (w1 := set_hashed _ _).
  set (role := if String.eqb (cRole input) "" then "user" else cRole input).
  assert (Hrole : role <> "").
  { unfold role. destruct (String.eqb (cRole input) "") eqn:E; [discriminate|].
    now apply String.eqb_neq. }
  split.
  - intros resp. destruct (bcrypt (hashed w) (cPassword input) 10%Z) as [h|err] eqn:Eh;
      simpl; [|discriminate].
    set (user := mkUser 0 _ _ h role true 0 0 None).
    rewrite Create_eq. cbv zeta.
    destruct (fst (repository.FindByEmail (Email user) w1)); [discriminate|].
    destruct (Create_spec user (sent (SelectUserByEmail (Email user)) w1))
      as [_ [(Hr & Hu & _)|(msg & Hr & _)]]; rewrite Hr; simpl; [|discriminate].
    intros E; inversion E; subst resp; clear E.
    exists (gorm.inserted user (sent (SelectUserByEmail (Email user)) w1)).
    autorewrite with world in Hu. conj; try reflexivity.
    + exact Hu.
    + exact (Hone _ _ _ _ Eh).
    + simpl. apply String.eqb_neq in Hrole. now rewrite Hrole.
    + simpl. lia.
  - intros h Eh Hok Hfit Hfree. rewrite Eh. simpl.
    set (user := mkUser 0 _ _ h role true 0 0 None).
    assert (Hf1 : fault w1 = None) by (apply nth_fault_0, (healthy_weaken 2); auto).
    assert (Hok1 : healthy 2 w1) by exact Hok.
    rewrite Create_eq, FindByEmail_eq, Hf1. cbv zeta. simpl.
    destruct (gorm.lowest _) as [u|] eqn:El.
    { exfalso. apply lowest_filter in El. destruct El as [Hin Hp].
      apply andb_prop in Hp. destruct Hp as [He _]. apply String.eqb_eq in He.
      destruct (Hfree u Hin) as [Hne _]. contradiction. }
    set (w2 := sent (SelectUserByEmail (cEmail input)) w1).
    assert (Hf2 : fault w2 = None) by (apply nth_fault_0, healthy_sent; exact Hok1).
    assert (Hins : gorm.inserted user w2
                   = mkUser (users_seq w + 1) (cName input) (cEmail input) h role true
                            (clock w) (clock w) None).
    { unfold gorm.inserted, w2; simpl. autorewrite with world. simpl.
      apply String.eqb_neq in Hrole. now rewrite Hrole. }
    assert (Hfit2 : gorm.fits (gorm.inserted user w2) = true).
    { rewrite Hins. unfold gorm.fits in *; simpl in *; exact Hfit. }
    assert (Hpk : existsb (fun x => (ID x =? ID (gorm.inserted user w2))%N) (users w2)
                  = false).
    { rewrite Hins. apply existsb_false_iff. intros x Hx. unfold w2 in Hx.
      autorewrite with world in Hx. apply N.eqb_neq. now apply Hfree. }
    assert (Hem : existsb (fun x => String.eqb (Email x) (Email (gorm.inserted user w2)))
                          (users w2) = false).
    { rewrite Hins. apply existsb_false_iff. intros x Hx. unfold w2 in Hx.
      autorewrite with world in Hx. apply String.eqb_neq. now apply Hfree. }
    rewrite (Create_ok user w2 Hf2 Hfit2 Hpk Hem). simpl. eauto.
Qed.

Lemma sample_hash_not_identity n password cost h :
  sample.hash n password cost = Ok h -> h <> password.
Proof.
  unfold sample.hash. destruct (72 <? String.length password)%nat; [discriminate|].
  intros E; inversion E; subst; clear E. intros E.
  apply (f_equal String.length) in E. simpl in E. lia.
Qed.

Lemma CreateUser_stores_hash_and_defaults_witness :
  exists row,
    users (snd (service.CreateUser sample.hash sample.ann sample.empty)) = [row]
    /\ Password row <> "secret1"
    /\ Role row = "user"
    /\ Active row = true.
Proof.
  destruct (proj1 (CreateUser_stores_hash_and_defaults sample.hash sample.ann sample.empty
                     sample_hash_not_identity)
              (ToResponse sample.ann_row) eq_refl)
    as (row & Hu & _ & Hp & _ & _ & Hr & Ha & _).
  exists row. conj; assumption.
Defined.

(** ** C4: an update of the name alone *)

Lemma pkey_unique rows x y :
  NoDup (map ID rows) -> In x rows -> In y rows -> ID x = ID y -> x = y.
Proof.
  induction rows as [|r rest IH]; simpl; intros Hnd Hx Hy E; [contradiction|].
  inversion Hnd as [|? ? Hnotin Hnd']; subst.
  destruct Hx as [->|Hx], Hy as [->|Hy]; auto.
  - exfalso. apply Hnotin. rewrite E. now apply in_map.
  - exfalso. apply Hnotin. rewrite <- E. now apply in_map.
Qed.

Lemma hit_inv id x : hit id x = true -> ID x = id /\ gorm.live x = true.
Proof.
  unfold hit. intros H. apply andb_prop in H. destruct H as [H1 H2].
  apply N.eqb_eq in H1. auto.
Qed.

(** Replacing the hit rows by a row that keeps the columns of one of them
    changes those columns nowhere, under the primary key. *)
Lemma replace_hit_kept rows id old row :
  NoDup (map ID rows) -> In old rows -> hit id old = true -> kept row = kept old ->
  map kept (map (fun x => if hit id x then row else x) rows) = map kept rows.
Proof.
  intros Hnd Hin Hhit Hk. rewrite map_map. apply map_ext_in.
  intros x Hx. destruct (hit id x) eqn:E; [|reflexivity].
  apply hit_inv in E. apply hit_inv in Hhit.
  rewrite (pkey_unique rows x old Hnd Hx Hin) by (destruct E, Hhit; congruence).
  exact Hk.
Qed.

Lemma UpdateUser_name_eq (bcrypt : nat -> string -> Z -> result string)
      (id : N) (name : string) (w : World) :
  service.UpdateUser bcrypt id (mkUserUpdate (Some name) None None None None) w =
  let w1 := set_trace (trace w ++ [EvService "UpdateUser"]) w in
  let w2 := sent (SelectUserByID id) w1 in
  match fst (repository.FindByID id w1) with
  | Err err => (Err err, snd (logger.Error "Failed to retrieve user for update" w2))
  | Ok user =>
      match fst (gorm.Save (with_Name name user) w2) with
      | Err e =>
          (Err (database_error "Failed to update user" e),
           snd (logger.Error "Failed to update user" (snd (gorm.Save (with_Name name user) w2))))
      | Ok (row, n) =>
          if (n =? 0)%N
          then (Err (not_found_by_id (ID user) None),
                snd (logger.Error "Failed to update user"
                       (snd (gorm.Save (with_Name name user) w2))))
          else (Ok (ToResponse row), snd (gorm.Save (with_Name name user) w2))
      end
  end.
Proof.
  unfold service.UpdateUser. cbv zeta.
  rewrite bind_run. simpl. rewrite bind_run. rewrite FindByID_eq at 2. simpl.
  destruct (fst (repository.FindByID id _)) as [user|err]; [|reflexivity].
  rewrite bind_run. unfold ret at 1 2. simpl.
  rewrite bind_run. unfold repository.Update. rewrite bind_run.
  destruct (fst (gorm.Save _ _)) as [[row n]|e]; [|reflexivity].
  destruct (n =? 0)%N; reflexivity.
Qed.

Lemma UpdateUser_name_succeeds
      (bcrypt : nat -> string -> Z -> result string) (w : World) (id : N) (name : string)
      (old : User) :
  pkey_ok (users w) ->
  In old (users w) -> hit id old = true ->
  healthy 2 w ->
  gorm.fits (with_Name name old) = true ->
  (forall x, In x (users w) -> hit id x = false -> Email x <> Email old) ->
  fst (service.UpdateUser bcrypt id (mkUserUpdate (Some name) None None None None) w)
  = Ok (ToResponse (with_UpdatedAt (clock w) (with_Name name old))).
Proof.
  intros [Hnd Hnz] Hin Hhit Hok Hfit Hem. rewrite UpdateUser_name_eq. cbv zeta.
  set (w1 := set_trace _ w).
  set (w2 := sent (SelectUserByID id) w1).
  assert (Hf1 : fault w1 = None) by (apply nth_fault_0, (healthy_weaken 2); auto).
  assert (Hf2 : fault w2 = None)
    by (apply nth_fault_0, healthy_sent; exact Hok).
  assert (Hu2 : users w2 = users w) by (unfold w2; now autorewrite with world).
  assert (Hc2 : clock w2 = clock w) by (unfold w2; now autorewrite with world).
  rewrite FindByID_eq, Hf1. simpl. change (users w1) with (users w).
  destruct (lowest_filter_some (hit id) (users w) old Hin Hhit) as [found Hfound].
  rewrite Hfound. simpl.
  apply lowest_filter in Hfound. destruct Hfound as [Hin' Hhit'].
  assert (E : found = old).
  { apply (pkey_unique (users w)); auto.
    apply hit_inv in Hhit, Hhit'. destruct Hhit, Hhit'. congruence. }
  subst found.
  assert (Hid : ID (with_Name name old) = id) by (simpl; apply (hit_inv _ _ Hhit)).
  destruct (Save_ok (with_Name name old) w2) as (n & Hn & Hr).
  - rewrite Hid. intros ->. apply Hnz. apply hit_inv in Hhit.
    destruct Hhit as [E _]. rewrite <- E. now apply in_map.
  - exact Hf2.
  - rewrite Hid, Hu2. intros Hnone.
    assert (H : In old (filter (hit id) (users w))) by (apply filter_In; auto).
    rewrite Hnone in H. contradiction.
  - exact Hfit.
  - rewrite Hid, Hu2. apply existsb_false_iff. intros x Hx. simpl.
    destruct (hit id x) eqn:Ex; [reflexivity|]. simpl.
    apply String.eqb_neq. now apply Hem.
  - rewrite Hr. apply N.eqb_neq in Hn. rewrite Hn, Hc2. reflexivity.
Qed.

(** C4.  On a table that satisfies its primary key, [UpdateUser] with only
    the name set leaves the e-mail, password hash, role, active flag (and
    key and deletion mark) of every row as they were, whatever the
    outcome, and computes no hash; when it returns a response, the row of
    [id] has the new name and the response shows it; and it does return
    that response for an existing user when the driver runs the two
    statements, the name fits its column and no other row holds the
    user's e-mail. *)
Theorem UpdateUser_name_only_keeps_other_fields
  (bcrypt : nat -> string -> Z -> result string) (w : World) (id : N) (name : string) :
  pkey_ok (users w) ->
  let r := service.UpdateUser bcrypt id (mkUserUpdate (Some name) None None None None) w in
  map kept (users (snd r)) = map kept (users w)
  /\ hashed (snd r) = hashed w
  /\ (forall resp, fst r = Ok resp ->
        exists old,
          In old (users w) /\ hit id old = true
          /\ users (snd r)
             = map (fun x => if hit id x
                             then with_UpdatedAt (clock w) (with_Name name old) else x)
                   (users w)
          /\ resp = ToResponse (with_UpdatedAt (clock w) (with_Name name old))
          /\ rName resp = name
          /\ rEmail resp = Email old /\ rRole resp = Role old
          /\ rActive resp = Active old)
  /\ (forall old,
        In old (users w) -> hit id old = true ->
        healthy 2 w ->
        gorm.fits (with_Name name old) = true ->
        (forall x, In x (users w) -> hit id x = false -> Email x <> Email old) ->
        fst r = Ok (ToResponse (with_UpdatedAt (clock w) (with_Name name old)))).
Proof.
  intros Hpk. cbv zeta.
  rewrite <- and_assoc, <- and_assoc. split;
    [rewrite and_assoc|intros old; now apply UpdateUser_name_succeeds].
  destruct Hpk as [Hnd Hnz]. rewrite UpdateUser_name_eq. cbv zeta.
  set (w1 := set_trace _ w).
  set (w2 := sent (SelectUserByID id) w1).
  assert (Hu2 : users w2 = users w) by (unfold w2; now autorewrite with world).
  assert (Hh2 : hashed w2 = hashed w) by (unfold w2; now autorewrite with world).
  assert (Hc2 : clock w2 = clock w) by (unfold w2; now autorewrite with world).
  rewrite FindByID_eq. simpl.
  destruct (fault w1) as [msg|]; simpl.
  { conj; [now rewrite Hu2|exact Hh2|discriminate]. }
  change (users w1) with (users w).
  destruct (gorm.lowest (filter (hit id) (users w))) as [old|] eqn:El; simpl.
  2:{ conj; [now rewrite Hu2|exact Hh2|discriminate]. }
  apply lowest_filter in El. destruct El as [Hin Hhit].
  assert (Hid : ID (with_Name name old) = id) by (simpl; apply (hit_inv _ _ Hhit)).
  assert (Hnz' : ID (with_Name name old) <> 0%N).
  { rewrite Hid. intros ->. apply Hnz. apply hit_inv in Hhit.
    destruct Hhit as [E _]. rewrite <- E. now apply in_map. }
  destruct (Save_spec (with_Name name old) w2 Hnz')
    as [(n & Hn & Hr & Hu & _ & Huo)
       |[(Hnone & _)|(msg & st & Hr & Hu & Huo)]];
    cbv zeta in *.
  - rewrite Hr. apply N.eqb_neq in Hn. rewrite Hn.
    rewrite Hid, Hu2, Hc2 in Hu. simpl.
    conj.
    + rewrite Hu. now apply (replace_hit_kept _ id old).
    + rewrite (uo_hashed _ _ _ Huo). exact Hh2.
    + intros resp E; inversion E; subst resp; clear E.
      exists old. rewrite Hc2. conj; auto.
  - exfalso. rewrite Hid, Hu2 in Hnone.
    assert (In old (filter (hit id) (users w))) by (apply filter_In; auto).
    rewrite Hnone in H. contradiction.
  - rewrite Hr. simpl. conj.
    + now rewrite Hu, Hu2.
    + rewrite (uo_hashed _ _ _ Huo). exact Hh2.
    + discriminate.
Qed.

Lemma UpdateUser_name_only_keeps_other_fields_witness :
  map kept (users (snd (service.UpdateUser sample.hash 1
                          (mkUserUpdate (Some "Bob") None None None None)
                          sample.with_ann)))
  = [(1%N, "ann@x.com", "$2a$10$secret1", "user", true, 1000%N, None)]
  /\ fst (service.UpdateUser sample.hash 1
            (mkUserUpdate (Some "Bob") None None None None) sample.with_ann)
     = Ok (mkUserResponse 1 "Bob" "ann@x.com" "user" true 1000 1000).
Proof.
  split; [|reflexivity].
  refine (proj1 (UpdateUser_name_only_keeps_other_fields sample.hash sample.with_ann 1 "Bob" _)).
  split; simpl.
  - repeat constructor. intros [].
  - intros [H|[]]. discriminate H.
Defined.

(** ** C10: the roles that reach the table *)

Lemma validate_UserCreate_role isEmail input :
  binding.validate_UserCreate isEmail input = [] ->
  cRole input = "" \/ binding.oneof ["admin"; "user"] (cRole input) = true.
Proof.
  unfold binding.validate_UserCreate. intros H.
  apply app_eq_nil in H. destruct H as [_ H].
  apply app_eq_nil in H. destruct H as [_ H].
  apply app_eq_nil in H. destruct H as [_ H].
  destruct (String.eqb (cRole input) "") eqn:E.
  - left. now apply String.eqb_eq.
  - right. destruct (binding.oneof _ _); [reflexivity|discriminate].
Qed.

Lemma validate_UserUpdate_role isEmail input v :
  binding.validate_UserUpdate isEmail input = [] ->
  uRole input = Some v ->
  binding.oneof ["admin"; "user"] v = true.
Proof.
  unfold binding.validate_UserUpdate. intros H Hv.
  apply app_eq_nil in H. destruct H as [_ H].
  apply app_eq_nil in H. destruct H as [_ H].
  rewrite Hv in H. destruct (binding.oneof _ _); [reflexivity|discriminate].
Qed.

Lemma bind_UserCreate_Ok isEmail ctx input :
  binding.ShouldBindJSON_UserCreate isEmail ctx = Ok input ->
  decoded_UserCreate ctx = Ok input /\ binding.validate_UserCreate isEmail input = [].
Proof.
  unfold binding.ShouldBindJSON_UserCreate.
  destruct (decoded_UserCreate ctx) as [i|]; [|discriminate].
  destruct (binding.validate_UserCreate isEmail i) eqn:E; [|discriminate].
  intros H; inversion H; subst. auto.
Qed.

Lemma bind_UserUpdate_Ok isEmail ctx input :
  binding.ShouldBindJSON_UserUpdate isEmail ctx = Ok input ->
  decoded_UserUpdate ctx = Ok input /\ binding.validate_UserUpdate isEmail input = [].
Proof.
  unfold binding.ShouldBindJSON_UserUpdate.
  destruct (decoded_UserUpdate ctx) as [i|]; [|discriminate].
  destruct (binding.validate_UserUpdate isEmail i) eqn:E; [|discriminate].
  intros H; inversion H; subst. auto.
Qed.

Lemma role_ok_inserted u w : role_ok u = true -> role_ok (gorm.inserted u w) = true.
Proof.
  unfold role_ok, gorm.inserted; simpl.
  destruct (String.eqb (Role u) ""); auto.
Qed.

Lemma Forall_replace {A} (P : A -> Prop) (c : A -> bool) (row : A) (l : list A) :
  P row -> Forall P l -> Forall P (map (fun x => if c x then row else x) l).
Proof.
  intros Hrow H. induction H; simpl; constructor; auto.
  destruct (c x); auto.
Qed.

Lemma Forall_snoc {A} (P : A -> Prop) (row : A) (l : list A) :
  P row -> Forall P l -> Forall P (l ++ [row]).
Proof. intros. apply Forall_app. auto. Qed.

Lemma Create_roles u w :
  role_ok u = true -> roles_ok (users w) -> roles_ok (users (snd (gorm.Create u w))).
Proof.
  intros Hu Hw. destruct (Create_spec u w) as [_ [(_ & H & _)|(msg & _ & H)]];
    cbv zeta in H; rewrite H; [|exact Hw].
  apply Forall_snoc; [now apply role_ok_inserted|exact Hw].
Qed.

Lemma Save_roles u w :
  role_ok u = true -> roles_ok (users w) -> roles_ok (users (snd (gorm.Save u w))).
Proof.
  intros Hu Hw. destruct (N.eq_dec (ID u) 0) as [Hz|Hnz].
  - unfold gorm.Save. apply N.eqb_eq in Hz. rewrite Hz, bind_run. simpl.
    now apply Create_roles.
  - destruct (Save_spec u w Hnz)
      as [(n & _ & _ & H & _)|[(_ & _ & [H|[H _]] & _)|(msg & st & _ & H & _)]];
      cbv zeta in H; rewrite H; try exact Hw.
    + now apply Forall_replace.
    + now apply Forall_replace.
    + now apply Forall_snoc.
Qed.

Lemma table_step_users w w1 w2 :
  table_step w w1 -> users w2 = users w1 -> table_step w w2.
Proof.
  intros [H|id t H|u w0 H0 Hu H|old u w0 H0 Hin Hu H] E; rewrite <- E in H.
  - now apply step_none.
  - eapply step_delete; eauto.
  - eapply step_create; eauto.
  - eapply step_save; eauto.
Qed.

Lemma CreateUser_step bcrypt input w :
  cRole input = "" \/ binding.oneof ["admin"; "user"] (cRole input) = true ->
  table_step w (snd (service.CreateUser bcrypt input w)).
Proof.
  intros Hrole. rewrite CreateUser_eq. cbv zeta.
  destruct (bcrypt _ _ _) as [h|err]; simpl; [|now apply step_none].
  set (user := mkUser 0 _ _ h _ true 0 0 None).
  set (w1 := set_hashed _ _).
  assert (Huser : role_ok user = true).
  { unfold role_ok, user; simpl.
    destruct Hrole as [->|H]; [reflexivity|].
    destruct (String.eqb (cRole input) ""); auto. }
  assert (H : table_step w (snd (repository.Create user w1))).
  { rewrite Create_eq. cbv zeta.
    destruct (fst (repository.FindByEmail _ _)); simpl.
    - apply step_none. now autorewrite with world.
    - assert (table_step w (snd (gorm.Create user
                                   (sent (SelectUserByEmail (Email user)) w1)))).
      { eapply step_create; [|exact Huser|reflexivity]. now autorewrite with world. }
      destruct (fst (gorm.Create _ _)); exact H. }
  destruct (fst (repository.Create user w1)) as [row [err|]]; [|exact H].
  eapply table_step_users; [exact H|reflexivity].
Qed.

Lemma UpdateUser_step bcrypt id input w :
  (forall v, uRole input = Some v -> binding.oneof ["admin"; "user"] v = true) ->
  table_step w (snd (service.UpdateUser bcrypt id input w)).
Proof.
  intros Hrole. unfold service.UpdateUser.
  rewrite bind_run. simpl. rewrite bind_run, FindByID_eq. simpl.
  set (w1 := set_trace _ w).
  set (w2 := sent (SelectUserByID id) w1).
  assert (Hw2 : users w2 = users w) by (unfold w2; now autorewrite with world).
  destruct (fault w1) as [msg|]; [now apply step_none|].
  change (users w1) with (users w).
  destruct (gorm.lowest (filter (hit id) (users w))) as [old|] eqn:El;
    [|now apply step_none].
  apply lowest_filter in El. destruct El as [Hin _].
  rewrite bind_run.
  set (u1 := match uEmail input with
             | Some v => with_Email v (match uName input with
                                        | Some n => with_Name n old
                                        | None => old
                                        end)
             | None => match uName input with
                       | Some n => with_Name n old
                       | None => old
                       end
             end).
  assert (Hu1 : Role u1 = Role old).
  { unfold u1. destruct (uEmail input), (uName input); reflexivity. }
  assert (Hstep : forall (u : User) (w3 : World),
             Role u = Role old -> users w3 = users w ->
             table_step w (snd (
               (updated <- repository.Update
                  (match uActive input with
                   | Some v => with_Active v (match uRole input with
                                              | Some r => with_Role r u
                                              | None => u
                                              end)
                   | None => match uRole input with
                             | Some r => with_Role r u
                             | None => u
                             end
                   end) ;;
                match updated with
                | (_, Some err) => logger.Error "Failed to update user" ;;; ret (Err err)
                | (user, None) => ret (Ok (ToResponse user))
                end) w3))).
  { intros u w3 Hu Hw3. rewrite bind_run. unfold repository.Update. rewrite bind_run.
    set (u' := match uActive input with Some _ => _ | None => _ end).
    assert (Hu' : role_ok old = true -> role_ok u' = true).
    { intros Hold. unfold u', role_ok.
      destruct (uRole input) as [r|] eqn:Er; destruct (uActive input); simpl;
        try (now apply Hrole); rewrite Hu; exact Hold. }
    assert (H : table_step w (snd (gorm.Save u' w3)))
      by (eapply step_save; eauto).
    destruct (fst (gorm.Save u' w3)) as [[row n]|e]; simpl.
    - destruct (n =? 0)%N; [|exact H].
      eapply table_step_users; [exact H|reflexivity].
    - eapply table_step_users; [exact H|reflexivity]. }
  destruct (uPassword input) as [pw|].
  - rewrite bind_run. unfold service.hash at 1 2. simpl.
    destruct (bcrypt (hashed w2) pw service.DefaultCost) as [h|err]; simpl.
    + apply Hstep; [exact Hu1|exact Hw2].
    + now apply step_none.
  - unfold ret at 1 2. simpl. apply Hstep; [exact Hu1|exact Hw2].
Qed.

Lemma Register_step bcrypt isEmail route ctx w :
  table_step w (snd (Register bcrypt isEmail route ctx w)).
Proof.
  destruct route; simpl.
  - apply step_none.
    unfold controller.GetAllUsers, service.GetAllUsers.
    rewrite !bind_run. simpl. rewrite FindAll_eq. simpl.
    destruct (fault _); simpl; now autorewrite with world.
  - unfold controller.GetUserByID.
    destruct (controller.parseIDParam ctx) as [id|e]; apply step_none; [|reflexivity].
    unfold service.GetUserByID. rewrite !bind_run. simpl. rewrite FindByID_eq. simpl.
    destruct (fault _); simpl; [now autorewrite with world|].
    destruct (gorm.lowest _); simpl; now autorewrite with world.
  - unfold controller.CreateUser.
    destruct (binding.ShouldBindJSON_UserCreate isEmail ctx) as [input|e] eqn:E;
      [|now apply step_none].
    apply bind_UserCreate_Ok in E. destruct E as [_ E].
    apply validate_UserCreate_role in E.
    rewrite bind_run.
    pose proof (CreateUser_step bcrypt input w E) as H.
    destruct (fst (service.CreateUser bcrypt input w)); exact H.
  - unfold controller.UpdateUser.
    destruct (controller.parseIDParam ctx) as [id|e]; [|now apply step_none].
    destruct (binding.ShouldBindJSON_UserUpdate isEmail ctx) as [input|e] eqn:E;
      [|now apply step_none].
    apply bind_UserUpdate_Ok in E. destruct E as [_ E].
    rewrite bind_run.
    pose proof (UpdateUser_step bcrypt id input w
                  (fun v Hv => validate_UserUpdate_role isEmail input v E Hv)) as H.
    destruct (fst (service.UpdateUser bcrypt id input w)); exact H.
  - unfold controller.DeleteUser.
    destruct (controller.parseIDParam ctx) as [id|e]; [|now apply step_none].
    unfold service.DeleteUser. rewrite !bind_run. simpl.
    set (w1 := set_trace _ w).
    assert (H : table_step w (snd (repository.Delete id w1))).
    { rewrite Delete_eq. destruct (fault w1); simpl.
      - apply step_none. now autorewrite with world.
      - eapply step_delete. reflexivity. }
    destruct (fst (repository.Delete id w1)); [|exact H].
    eapply table_step_users; [exact H|reflexivity].
Qed.

Lemma table_step_roles w w' : table_step w w' -> roles_ok (users w) -> roles_ok (users w').
Proof.
  intros [H|id t H|u w0 H0 Hu H|old u w0 H0 Hin Hu H] Hw; rewrite H.
  - exact Hw.
  - unfold roles_ok. rewrite Forall_map. eapply Forall_impl; [|exact Hw].
    intros r Hr. simpl. destruct (hit id r); auto.
  - apply Create_roles; [exact Hu|now rewrite H0].
  - apply Save_roles; [|now rewrite H0].
    apply Hu. unfold roles_ok in Hw. rewrite Forall_forall in Hw. now apply Hw.
Qed.

Lemma Register_roles bcrypt isEmail route ctx w :
  roles_ok (users w) -> roles_ok (users (snd (Register bcrypt isEmail route ctx w))).
Proof. apply table_step_roles, Register_step. Qed.

(** The primary key is an invariant of the server as well. *)

Lemma NoDup_snoc {A} (a : A) (l : list A) :
  NoDup l -> ~ In a l -> NoDup (l ++ [a]).
Proof.
  induction 1 as [|x l Hx Hl IH]; simpl; intros Ha.
  - constructor; [intros []|constructor].
  - constructor.
    + intros Hin. apply in_app_or in Hin. destruct Hin as [Hin|[E|[]]]; auto.
    + apply IH. auto.
Qed.

Lemma pkey_snoc rows row :
  pkey_ok rows -> ID row <> 0%N ->
  existsb (fun x => (ID x =? ID row)%N) rows = false ->
  pkey_ok (rows ++ [row]).
Proof.
  intros [Hnd Hnz] Hrow Hfresh. unfold pkey_ok. rewrite map_app. simpl.
  assert (Hnotin : ~ In (ID row) (map ID rows)).
  { intros Hin. apply in_map_iff in Hin. destruct Hin as (x & E & Hx).
    rewrite existsb_false_iff in Hfresh. specialize (Hfresh x Hx).
    apply N.eqb_neq in Hfresh. contradiction. }
  split.
  - now apply NoDup_snoc.
  - intros Hin. apply in_app_or in Hin. destruct Hin as [Hin|[E|[]]]; auto.
Qed.

Lemma map_ID_replace (c : User -> bool) (row : User) (rows : list User) :
  (forall x, c x = true -> ID x = ID row) ->
  map ID (map (fun x => if c x then row else x) rows) = map ID rows.
Proof.
  intros Hc. rewrite map_map. apply map_ext. intros x.
  destruct (c x) eqn:E; [symmetry; now apply Hc|reflexivity].
Qed.

Lemma Create_pkey u w : pkey_ok (users w) -> pkey_ok (users (snd (gorm.Create u w))).
Proof.
  intros Hw. destruct (Create_spec u w) as [_ [(_ & H & _ & _ & Hpk & _)|(msg & _ & H)]];
    cbv zeta in H; rewrite H; [|exact Hw].
  apply pkey_snoc; auto. simpl. destruct (ID u =? 0)%N eqn:E; [lia|].
  now apply N.eqb_neq.
Qed.

Lemma Save_pkey u w : pkey_ok (users w) -> pkey_ok (users (snd (gorm.Save u w))).
Proof.
  intros Hw. destruct (N.eq_dec (ID u) 0) as [Hz|Hnz].
  - unfold gorm.Save. apply N.eqb_eq in Hz. rewrite Hz, bind_run. simpl.
    now apply Create_pkey.
  - destruct (Save_spec u w Hnz)
      as [(n & _ & _ & H & _)|[(_ & _ & [H|[H Hfresh]] & _)|(msg & st & _ & H & _)]];
      cbv zeta in H; rewrite H; try exact Hw.
    + unfold pkey_ok. rewrite map_ID_replace; [exact Hw|].
      intros x Hx. apply hit_inv in Hx. simpl. tauto.
    + unfold pkey_ok. rewrite map_ID_replace; [exact Hw|].
      intros x Hx. apply N.eqb_eq in Hx. exact Hx.
    + apply pkey_snoc; auto.
Qed.

Lemma table_step_pkey w w' : table_step w w' -> pkey_ok (users w) -> pkey_ok (users w').
Proof.
  intros [H|id t H|u w0 H0 Hu H|old u w0 H0 Hin Hu H] Hw; rewrite H.
  - exact Hw.
  - unfold pkey_ok. rewrite map_map.
    replace (map _ (users w)) with (map ID (users w)); [exact Hw|].
    apply map_ext. intros x. destruct (hit id x); reflexivity.
  - apply Create_pkey. now rewrite H0.
  - apply Save_pkey. now rewrite H0.
Qed.

Lemma reachable_pkey bcrypt isEmail w : reachable bcrypt isEmail w -> pkey_ok (users w).
Proof.
  induction 1 as [w H|w route ctx _ IH|w now script _ IH].
  - rewrite H. split; [constructor|intros []].
  - eapply table_step_pkey; [apply Register_step|exact IH].
  - exact IH.
Qed.

Lemma bind_UserCreate_bad_role isEmail ctx input :
  decoded_UserCreate ctx = Ok input ->
  cRole input <> "" ->
  binding.oneof ["admin"; "user"] (cRole input) = false ->
  exists e, binding.ShouldBindJSON_UserCreate isEmail ctx = Err e.
Proof.
  intros Hd Hne Hno. unfold binding.ShouldBindJSON_UserCreate. rewrite Hd.
  destruct (binding.validate_UserCreate isEmail input) eqn:E; [|eauto].
  apply validate_UserCreate_role in E. destruct E as [E|E]; congruence.
Qed.

Lemma bind_UserUpdate_bad_role isEmail ctx input v :
  decoded_UserUpdate ctx = Ok input ->
  uRole input = Some v ->
  binding.oneof ["admin"; "user"] v = false ->
  exists e, binding.ShouldBindJSON_UserUpdate isEmail ctx = Err e.
Proof.
  intros Hd Hv Hno. unfold binding.ShouldBindJSON_UserUpdate. rewrite Hd.
  destruct (binding.validate_UserUpdate isEmail input) eqn:E; [|eauto].
  apply (validate_UserUpdate_role _ _ v) in E; congruence.
Qed.

(** C10.  Serving a request on any route keeps every role of the table in
    {admin, user}, so every table the server reaches from an empty one
    holds only such roles.  A creation body with another non-empty role,
    and an update body that sets another role (the empty string
    included), is answered 400 with nothing entered, sent or changed. *)
Theorem roles_stay_in_enumeration
  (bcrypt : nat -> string -> Z -> result string) (isEmail : string -> bool) :
  (forall route ctx w,
      roles_ok (users w) ->
      roles_ok (users (snd (Register bcrypt isEmail route ctx w))))
  /\ (forall w, reachable bcrypt isEmail w -> roles_ok (users w))
  /\ (forall ctx input w,
        decoded_UserCreate ctx = Ok input ->
        cRole input <> "" ->
        binding.oneof ["admin"; "user"] (cRole input) = false ->
        fst (controller.CreateUser bcrypt isEmail ctx w) = bad_request "Invalid input"
        /\ untouched w (snd (controller.CreateUser bcrypt isEmail ctx w)))
  /\ (forall ctx input v w,
        decoded_UserUpdate ctx = Ok input ->
        uRole input = Some v ->
        binding.oneof ["admin"; "user"] v = false ->
        status (fst (controller.UpdateUser bcrypt isEmail ctx w)) = 400%Z
        /\ untouched w (snd (controller.UpdateUser bcrypt isEmail ctx w))).
Proof.
  conj.
  - intros route ctx w. apply Register_roles.
  - intros w H. induction H as [w H|w route ctx _ IH|w now script _ IH].
    + rewrite H. constructor.
    + now apply Register_roles.
    + exact IH.
  - intros ctx input w Hd Hne Hno.
    destruct (bind_UserCreate_bad_role isEmail ctx input Hd Hne Hno) as [e He].
    unfold controller.CreateUser. rewrite He.
    split; [reflexivity|apply untouched_log].
  - intros ctx input v w Hd Hv Hno.
    destruct (bind_UserUpdate_bad_role isEmail ctx input v Hd Hv Hno) as [e He].
    unfold controller.UpdateUser.
    destruct (controller.parseIDParam ctx); [rewrite He|];
      (split; [reflexivity|]); [apply untouched_log|apply untouched_refl].
Qed.

Lemma roles_stay_in_enumeration_witness :
  roles_ok (users (snd (Register sample.hash sample.isEmail POST_users
                          sample.post_ann sample.empty)))
  /\ fst (controller.CreateUser sample.hash sample.isEmail sample.post_root sample.with_ann)
     = bad_request "Invalid input".
Proof.
  split.
  - apply (proj1 (roles_stay_in_enumeration sample.hash sample.isEmail)
             POST_users sample.post_ann sample.empty).
    constructor.
  - refine (proj1 (proj1 (proj2 (proj2 (roles_stay_in_enumeration sample.hash sample.isEmail)))
                     sample.post_root _ sample.with_ann eq_refl _ eq_refl)).
    discriminate.
Defined.

(** ** The errors the service hands to the handler *)

Lemma typed_database message cause : typed (database_error message cause).
Proof. exists Database, message, None, (Some cause). split; [reflexivity|simpl; tauto]. Qed.

Lemma typed_not_found id cause : typed (not_found_by_id id cause).
Proof.
  exists ResourceNotFound, "User not found",
         (Some (JObj [("id", JNum (Z.of_N id))])), cause.
  split; [reflexivity|simpl; tauto].
Qed.

Lemma typed_duplicate email : typed (duplicate_email email).
Proof.
  exists DuplicateResource, "User with this email already exists",
         (Some (JObj [("email", JStr email)])), None.
  split; [reflexivity|simpl; tauto].
Qed.

Lemma typed_internal message cause :
  typed (ErrApp (apperrors.NewInternalError message (Some cause))).
Proof. exists Internal, message, None, (Some cause). split; [reflexivity|simpl; tauto]. Qed.

#[local] Hint Resolve typed_database typed_not_found typed_duplicate typed_internal : core.

Lemma Update_typed user w e :
  snd (fst (repository.Update user w)) = Some e -> typed e.
Proof.
  unfold repository.Update. rewrite bind_run.
  destruct (fst (gorm.Save user w)) as [[row n]|c]; simpl.
  - destruct (n =? 0)%N; simpl; intros E; inversion E; subst.
    apply typed_not_found.
  - intros E; inversion E; subst. apply typed_database.
Qed.

Lemma Create_typed user w e :
  snd (fst (repository.Create user w)) = Some e -> typed e.
Proof.
  rewrite Create_eq. cbv zeta.
  destruct (fst (repository.FindByEmail _ _)); simpl.
  - intros E; inversion E; subst. apply typed_duplicate.
  - destruct (fst (gorm.Create _ _)); simpl; intros E; inversion E; subst.
    apply typed_database.
Qed.

Lemma UpdateUser_typed bcrypt id input w e :
  fst (service.UpdateUser bcrypt id input w) = Err e -> typed e.
Proof.
  unfold service.UpdateUser.
  rewrite bind_run. simpl. rewrite bind_run, FindByID_eq. simpl.
  set (w1 := set_trace _ w).
  set (w2 := sent (SelectUserByID id) w1).
  destruct (fault w1) as [msg|]; [simpl; intros E; inversion E; subst; auto|].
  destruct (gorm.lowest _) as [old|]; [|simpl; intros E; inversion E; subst; auto].
  rewrite bind_run.
  assert (Hstep : forall (u : User) (w3 : World),
             fst ((updated <- repository.Update u ;;
                   match updated with
                   | (_, Some err) => logger.Error "Failed to update user" ;;; ret (Err err)
                   | (user, None) => ret (Ok (ToResponse user))
                   end) w3) = Err e -> typed e).
  { intros u w3. rewrite bind_run.
    pose proof (Update_typed u w3) as H.
    destruct (fst (repository.Update u w3)) as [row [err|]]; simpl.
    - intros E; inversion E; subst. now apply H.
    - discriminate. }
  destruct (uPassword input) as [pw|].
  - rewrite bind_run. unfold service.hash at 1 2. simpl.
    destruct (bcrypt (hashed w2) pw service.DefaultCost) as [h|err]; simpl.
    + apply Hstep.
    + intros E; inversion E; subst. apply typed_internal.
  - unfold ret at 1 2. simpl. apply Hstep.
Qed.

(** Every error a service method returns was built by the constructor of
    ResourceNotFound, DuplicateResource, Database or Internal. *)
Lemma service_errors_are_typed (bcrypt : nat -> string -> Z -> result string)
      (w : World) (e : error) :
  (fst (service.GetAllUsers w) = Err e -> typed e)
  /\ (forall id, fst (service.GetUserByID id w) = Err e -> typed e)
  /\ (forall input, fst (service.CreateUser bcrypt input w) = Err e -> typed e)
  /\ (forall id input, fst (service.UpdateUser bcrypt id input w) = Err e -> typed e)
  /\ (forall id, fst (service.DeleteUser id w) = Some e -> typed e).
Proof.
  conj.
  - unfold service.GetAllUsers. rewrite !bind_run. simpl. rewrite FindAll_eq. simpl.
    destruct (fault _); simpl; intros E; inversion E; subst; auto.
  - intros id. unfold service.GetUserByID. rewrite !bind_run. simpl.
    rewrite FindByID_eq. simpl.
    destruct (fault _); simpl; [intros E; inversion E; subst; auto|].
    destruct (gorm.lowest _); simpl; intros E; inversion E; subst; auto.
  - intros input. rewrite CreateUser_eq. cbv zeta.
    destruct (bcrypt _ _ _) as [h|err]; simpl;
      [|intros E; inversion E; subst; apply typed_internal].
    match goal with
    | |- context [repository.Create ?u ?w1] =>
        pose proof (Create_typed u w1) as H;
          destruct (fst (repository.Create u w1)) as [row [err|]]
    end; simpl; intros E; inversion E; subst. now apply H.
  - intros id input. apply UpdateUser_typed.
  - intros id. unfold service.DeleteUser. rewrite !bind_run. simpl.
    rewrite Delete_eq.
    destruct (fault _); simpl; [intros E; inversion E; subst; auto|].
    destruct (N.of_nat _ =? 0)%N; simpl; intros E; inversion E; subst; auto.
Qed.

(** A typed error is answered with the status and code of its kind. *)
Lemma typed_error_response e :
  typed e ->
  exists k message details,
    controller.handleError e
    = mkResponse (kind_status k) (Some (error_body (kind_code k) message details)).
Proof.
  intros (k & message & details & cause & -> & _).
  exists k, message, (kind_details k details).
  unfold controller.handleError; simpl. unfold controller.JSON.
  now rewrite status_construct, marshal_construct.
Qed.

(** * Further properties of the code *)

(** ** pkg/errors and the handler *)

(** X1.  For every error, the status [handleError] writes is the one
    [GetStatusCode] reports, and it is 404 exactly for the errors
    [IsNotFound] recognises. *)
Theorem handleError_status_agrees (err : error) :
  status (controller.handleError err) = apperrors.GetStatusCode err
  /\ (apperrors.IsNotFound err = true <-> status (controller.handleError err) = 404%Z).
Proof.
  unfold controller.handleError, apperrors.GetStatusCode, apperrors.IsNotFound.
  destruct (apperrors.errors_As err) as [a|]; simpl.
  - split; [reflexivity|]. unfold apperrors.StatusNotFound. apply Z.eqb_eq.
  - split; [reflexivity|]. split; discriminate.
Qed.

(** X2.  Every error a method of the user service returns comes from the
    constructor of ResourceNotFound, DuplicateResource, Database or
    Internal, so the handler answers it with the status and code of that
    kind and never with its fallback document. *)
Theorem service_errors_have_a_kind
  (bcrypt : nat -> string -> Z -> result string) (w : World) (e : error) :
  (fst (service.GetAllUsers w) = Err e
   \/ (exists id, fst (service.GetUserByID id w) = Err e)
   \/ (exists input, fst (service.CreateUser bcrypt input w) = Err e)
   \/ (exists id input, fst (service.UpdateUser bcrypt id input w) = Err e)
   \/ (exists id, fst (service.DeleteUser id w) = Some e)) ->
  typed e
  /\ wraps_AppError e = true
  /\ exists k message details,
       In k [ResourceNotFound; DuplicateResource; Database; Internal]
       /\ controller.handleError e
          = mkResponse (kind_status k) (Some (error_body (kind_code k) message details)).
Proof.
  intros H.
  assert (Ht : typed e).
  { destruct (service_errors_are_typed bcrypt w e) as (H1 & H2 & H3 & H4 & H5).
    destruct H as [H|[[id H]|[[input H]|[(id & input & H)|[id H]]]]]; eauto. }
  split; [exact Ht|].
  destruct Ht as (k & message & details & cause & -> & Hk).
  split; [reflexivity|].
  exists k, message, (kind_details k details). split; [exact Hk|].
  unfold controller.handleError; simpl. unfold controller.JSON.
  now rewrite status_construct, marshal_construct.
Qed.

Lemma service_errors_have_a_kind_witness :
  typed (not_found_by_id 7 (Some ErrRecordNotFound)).
Proof.
  refine (proj1 (service_errors_have_a_kind sample.hash sample.with_ann
                   (not_found_by_id 7 (Some ErrRecordNotFound)) _)).
  right; left. exists 7%N. reflexivity.
Defined.

(** ** Reading users *)

Lemma hit_filter_unique rows id u :
  NoDup (map ID rows) -> In u rows -> hit id u = true ->
  gorm.lowest (filter (hit id) rows) = Some u.
Proof.
  intros Hnd Hin Hhit.
  destruct (lowest_filter_some (hit id) rows u Hin Hhit) as [found Hfound].
  rewrite Hfound. f_equal.
  apply lowest_filter in Hfound. destruct Hfound as [Hin' Hhit'].
  apply (pkey_unique rows); auto.
  apply hit_inv in Hhit, Hhit'. destruct Hhit, Hhit'. congruence.
Qed.

Lemma hit_filter_none rows id :
  (forall u, In u rows -> hit id u = false) -> filter (hit id) rows = [].
Proof.
  induction rows as [|r rest IH]; simpl; intros H; [reflexivity|].
  rewrite (H r (or_introl eq_refl)). apply IH. intros u Hu. apply H. now right.
Qed.

Lemma GetUserByID_service_eq (id : N) (w : World) :
  service.GetUserByID id w =
  let w1 := set_trace (trace w ++ [EvService "GetUserByID"]) w in
  let w2 := sent (SelectUserByID id) w1 in
  match fst (repository.FindByID id w1) with
  | Err err => (Err err, snd (logger.Error "Failed to get user by ID" w2))
  | Ok user => (Ok (ToResponse user), w2)
  end.
Proof.
  unfold service.GetUserByID. cbv zeta. rewrite bind_run. simpl.
  rewrite bind_run. rewrite FindByID_eq at 2. simpl.
  destruct (fst (repository.FindByID id _)); reflexivity.
Qed.

(** X3.  GET /api/v1/users/:id never changes a table and has four
    outcomes: 400 for an id that is not a decimal number below 2^32; 500
    DATABASE_ERROR when the driver fails the query; 404 RESOURCE_NOT_FOUND,
    with the id in the details, when no live row has the key; and, on a
    table satisfying its primary key, 200 with the shape of the live row
    that has it. *)
Theorem GetUserByID_outcomes (ctx : Context) (w : World) :
  let r := controller.GetUserByID ctx w in
  (users (snd r) = users w /\ users_seq (snd r) = users_seq w)
  /\ (strconv.ParseUint (Param_id ctx) 32 = None ->
      fst r = bad_request "Invalid ID format")
  /\ (forall id, strconv.ParseUint (Param_id ctx) 32 = Some id ->
        (forall msg, fault w = Some msg ->
           fst r = mkResponse 500
                     (Some (error_body "DATABASE_ERROR" "Failed to retrieve user" None)))
        /\ (fault w = None ->
            (forall u, In u (users w) -> hit id u = false) ->
            fst r = mkResponse 404
                      (Some (error_body "RESOURCE_NOT_FOUND" "User not found"
                               (Some (JObj [("id", JNum (Z.of_N id))])))))
        /\ (fault w = None ->
            forall u, pkey_ok (users w) -> In u (users w) -> hit id u = true ->
            fst r = mkResponse 200 (Some (marshal_UserResponse (ToResponse u))))).
Proof.
  cbv zeta. unfold controller.GetUserByID, controller.parseIDParam.
  destruct (strconv.ParseUint (Param_id ctx) 32) as [id|]; simpl.
  2:{ conj; try reflexivity; discriminate. }
  rewrite bind_run, GetUserByID_service_eq. cbv zeta.
  rewrite FindByID_eq. simpl.
  set (w1 := set_trace _ w). change (fault w1) with (fault w).
  change (users w1) with (users w).
  destruct (fault w) as [msg|] eqn:Ef; simpl.
  - conj; try discriminate; autorewrite with world; try reflexivity.
    intros id' E; inversion E; subst. conj; try discriminate. reflexivity.
  - destruct (gorm.lowest (filter (hit id) (users w))) as [found|] eqn:El; simpl.
    + conj; try discriminate; autorewrite with world; try reflexivity.
      intros id' E; inversion E; subst. conj; try discriminate.
      * intros _ Hnone. apply lowest_filter in El. destruct El as [Hin Hh].
        rewrite (Hnone found Hin) in Hh. discriminate.
      * intros _ u [Hnd _] Hin Hh.
        rewrite (hit_filter_unique _ _ _ Hnd Hin Hh) in El.
        inversion El; subst. reflexivity.
    + conj; try discriminate; autorewrite with world; try reflexivity.
      intros id' E; inversion E; subst. conj; try discriminate.
      * reflexivity.
      * intros _ u [Hnd _] Hin Hh.
        rewrite (hit_filter_unique _ _ _ Hnd Hin Hh) in El. discriminate.
Qed.

Lemma GetUserByID_outcomes_witness :
  fst (controller.GetUserByID sample.get_1 fixtures.two_users)
  = mkResponse 200 (Some (marshal_UserResponse (ToResponse sample.ann_row)))
  /\ fst (controller.GetUserByID sample.get_999 fixtures.two_users)
     = mkResponse 404
         (Some (error_body "RESOURCE_NOT_FOUND" "User not found"
                  (Some (JObj [("id", JNum 999)]))))
  /\ fst (controller.GetUserByID sample.get_abc fixtures.two_users)
     = bad_request "Invalid ID format".
Proof.
  pose proof (GetUserByID_outcomes sample.get_1 fixtures.two_users) as H1.
  pose proof (GetUserByID_outcomes sample.get_999 fixtures.two_users) as H2.
  pose proof (GetUserByID_outcomes sample.get_abc fixtures.two_users) as H3.
  cbv zeta in *. conj.
  - refine (proj2 (proj2 (proj2 (proj2 H1) 1%N eq_refl)) eq_refl sample.ann_row _ _ eq_refl).
    + split; [repeat constructor; simpl; intuition discriminate|].
      simpl. intuition discriminate.
    + left. reflexivity.
  - refine (proj1 (proj2 (proj2 (proj2 H2) 999%N eq_refl)) eq_refl _).
    intros u [<-|[<-|[]]]; reflexivity.
  - exact (proj1 (proj2 H3) eq_refl).
Defined.

(** X4.  GET /api/v1/users never changes a table.  When the driver fails
    the query the answer is 500 DATABASE_ERROR; when it runs and at least
    one row is live, the answer is 200 with one user shape per live row,
    in table order, and no shape for a soft-deleted row. *)
Theorem GetAllUsers_lists_live_rows (ctx : Context) (w : World) :
  let r := controller.GetAllUsers ctx w in
  (users (snd r) = users w /\ users_seq (snd r) = users_seq w)
  /\ (forall msg, fault w = Some msg ->
        fst r = mkResponse 500
                  (Some (error_body "DATABASE_ERROR" "Failed to retrieve users" None)))
  /\ (fault w = None ->
      filter gorm.live (users w) <> [] ->
      fst r = mkResponse 200
                (Some (JArr (map (fun u => marshal_UserResponse (ToResponse u))
                                 (filter gorm.live (users w)))))).
Proof.
  cbv zeta. conj.
  - unfold controller.GetAllUsers, service.GetAllUsers.
    rewrite !bind_run. simpl. rewrite FindAll_eq. simpl.
    destruct (fault _); simpl; now autorewrite with world.
  - unfold controller.GetAllUsers, service.GetAllUsers.
    rewrite !bind_run. simpl. rewrite FindAll_eq. simpl.
    destruct (fault _); simpl; now autorewrite with world.
  - intros msg Hf. unfold controller.GetAllUsers, service.GetAllUsers.
    rewrite !bind_run. simpl. rewrite FindAll_eq. simpl.
    change (fault (set_trace (trace w ++ [EvService "GetAllUsers"]) w)) with (fault w).
    rewrite Hf. reflexivity.
  - intros Hf Hne. rewrite (GetAllUsers_eq ctx w Hf).
    destruct (filter gorm.live (users w)) as [|u rest]; [contradiction|].
    now rewrite map_map.
Qed.

Lemma GetAllUsers_lists_live_rows_witness :
  fst (controller.GetAllUsers sample.get_1 fixtures.two_users)
  = mkResponse 200
      (Some (JArr [marshal_UserResponse (ToResponse sample.ann_row);
                   marshal_UserResponse (ToResponse fixtures.bob_row)])).
Proof.
  refine (proj2 (proj2 (GetAllUsers_lists_live_rows sample.get_1 fixtures.two_users))
            eq_refl _).
  discriminate.
Defined.

(** ** The password stays inside *)

Lemma lowest_map_redact rows :
  gorm.lowest (map redact rows) = option_map redact (gorm.lowest rows).
Proof.
  induction rows as [|r rest IH]; simpl; [reflexivity|].
  rewrite IH. destruct (gorm.lowest rest) as [b|]; simpl; [|reflexivity].
  destruct (ID b <? ID r)%N; reflexivity.
Qed.

Lemma filter_map_redact (p : User -> bool) rows :
  (forall u, p (redact u) = p u) ->
  filter p (map redact rows) = map redact (filter p rows).
Proof.
  intros Hp. induction rows as [|r rest IH]; simpl; [reflexivity|].
  rewrite Hp. destruct (p r); simpl; now rewrite IH.
Qed.

Lemma found_shape_redact (id : N) rows :
  option_map ToResponse (gorm.lowest (filter (hit id) (map redact rows)))
  = option_map ToResponse (gorm.lowest (filter (hit id) rows)).
Proof.
  rewrite filter_map_redact by reflexivity.
  rewrite lowest_map_redact.
  destruct (gorm.lowest (filter (hit id) rows)); reflexivity.
Qed.

Lemma listed_shapes_redact rows :
  map ToResponse (filter gorm.live (map redact rows))
  = map ToResponse (filter gorm.live rows).
Proof.
  rewrite filter_map_redact by reflexivity.
  rewrite map_map. reflexivity.
Qed.

(** X5.  What the two read routes answer does not depend on the password
    column: two worlds whose [users] tables agree once the passwords are
    blanked, and in which the driver behaves alike, get the same response
    to GET /api/v1/users and to GET /api/v1/users/:id. *)
Theorem reads_do_not_reveal_passwords (ctx : Context) (w1 w2 : World) :
  map redact (users w1) = map redact (users w2) ->
  fault w1 = fault w2 ->
  fst (controller.GetAllUsers ctx w1) = fst (controller.GetAllUsers ctx w2)
  /\ fst (controller.GetUserByID ctx w1) = fst (controller.GetUserByID ctx w2).
Proof.
  intros Hrows Hf. split.
  - unfold controller.GetAllUsers, service.GetAllUsers.
    rewrite !bind_run. simpl. rewrite !FindAll_eq. simpl.
    change (fault (set_trace (trace w1 ++ [EvService "GetAllUsers"]) w1)) with (fault w1).
    change (fault (set_trace (trace w2 ++ [EvService "GetAllUsers"]) w2)) with (fault w2).
    rewrite <- Hf. destruct (fault w1); simpl; [reflexivity|].
    rewrite !collect_responses.
    pose proof (listed_shapes_redact (users w1)) as H1.
    pose proof (listed_shapes_redact (users w2)) as H2.
    rewrite Hrows, H2 in H1.
    destruct (filter gorm.live (users w1)), (filter gorm.live (users w2));
      [reflexivity|discriminate H1|discriminate H1|now rewrite H1].
  - unfold controller.GetUserByID.
    destruct (controller.parseIDParam ctx) as [id|e]; [|reflexivity].
    rewrite !bind_run, !GetUserByID_service_eq. cbv zeta.
    rewrite !FindByID_eq. simpl.
    change (fault (set_trace (trace w1 ++ [EvService "GetUserByID"]) w1)) with (fault w1).
    change (fault (set_trace (trace w2 ++ [EvService "GetUserByID"]) w2)) with (fault w2).
    rewrite <- Hf. destruct (fault w1); simpl; [reflexivity|].
    pose proof (found_shape_redact id (users w1)) as H1.
    pose proof (found_shape_redact id (users w2)) as H2.
    rewrite Hrows, H2 in H1.
    destruct (gorm.lowest (filter (hit id) (users w1))) as [u1|],
             (gorm.lowest (filter (hit id) (users w2))) as [u2|];
      [|discriminate H1|discriminate H1|reflexivity].
    pose proof (f_equal (fun o => match o with
                                  | Some r => r
                                  | None => ToResponse u1
                                  end) H1) as E.
    change (ToResponse u2 = ToResponse u1) in E.
    simpl. now rewrite E.
Qed.

Lemma reads_do_not_reveal_passwords_witness :
  fst (controller.GetUserByID sample.get_1 sample.with_ann)
  = fst (controller.GetUserByID sample.get_1
           (set_users [with_Password "$2a$10$other" sample.ann_row] sample.with_ann)).
Proof.
  exact (proj2 (reads_do_not_reveal_passwords sample.get_1 sample.with_ann
                  (set_users [with_Password "$2a$10$other" sample.ann_row] sample.with_ann)
                  eq_refl eq_refl)).
Defined.

(** ** Creating, then reading or creating again *)

(** What a successful [CreateUser] did to the table. *)
Lemma CreateUser_success_inv (bcrypt : nat -> string -> Z -> result string)
      (input : UserCreate) (w : World) (resp : UserResponse) :
  fst (service.CreateUser bcrypt input w) = Ok resp ->
  exists row,
    users (snd (service.CreateUser bcrypt input w)) = users w ++ [row]
    /\ resp = ToResponse row
    /\ Email row = cEmail input
    /\ DeletedAt row = None
    /\ existsb (fun x => (ID x =? ID row)%N) (users w) = false
    /\ existsb (fun x => String.eqb (Email x) (Email row)) (users w) = false.
Proof.
  rewrite CreateUser_eq. cbv zeta.
  destruct (bcrypt (hashed w) (cPassword input) 10%Z) as [h|err]; simpl; [|discriminate].
  set (w1 := set_hashed _ _).
  set (user := mkUser 0 _ _ h _ true 0 0 None).
  rewrite Create_eq. cbv zeta.
  destruct (fst (repository.FindByEmail (Email user) w1)); [discriminate|].
  destruct (Create_spec user (sent (SelectUserByEmail (Email user)) w1))
    as [_ [(Hr & Hu & _ & _ & Hpk & Hem)|(msg & Hr & _)]]; rewrite Hr; simpl; [|discriminate].
  intros E; inversion E; subst resp; clear E.
  exists (gorm.inserted user (sent (SelectUserByEmail (Email user)) w1)).
  autorewrite with world in Hu, Hpk, Hem. conj; auto.
Qed.

Lemma hit_after_insert rows row :
  existsb (fun x => (ID x =? ID row)%N) rows = false ->
  DeletedAt row = None ->
  filter (hit (ID row)) (rows ++ [row]) = [row].
Proof.
  intros Hfresh Hlive. rewrite filter_app. simpl.
  unfold hit at 2. unfold gorm.live. rewrite Hlive, N.eqb_refl. simpl.
  rewrite hit_filter_none; [reflexivity|].
  intros u Hu. unfold hit.
  rewrite existsb_false_iff in Hfresh. now rewrite (Hfresh u Hu).
Qed.

(** X6.  A user that [CreateUser] returned is found again: in any later
    world that holds the table as the creation left it and in which the
    driver runs the query, [GetUserByID] of the returned identifier
    returns the same response shape. *)
Theorem created_user_is_found
  (bcrypt : nat -> string -> Z -> result string)
  (input : UserCreate) (w w' : World) (resp : UserResponse) :
  fst (service.CreateUser bcrypt input w) = Ok resp ->
  users w' = users (snd (service.CreateUser bcrypt input w)) ->
  fault w' = None ->
  fst (service.GetUserByID (rID resp) w') = Ok resp.
Proof.
  intros Hc Hrows Hf.
  destruct (CreateUser_success_inv bcrypt input w resp Hc)
    as (row & Hu & -> & _ & Hlive & Hfresh & _).
  rewrite GetUserByID_service_eq. cbv zeta. rewrite FindByID_eq. simpl.
  change (fault (set_trace (trace w' ++ [EvService "GetUserByID"]) w')) with (fault w').
  change (users (set_trace (trace w' ++ [EvService "GetUserByID"]) w')) with (users w').
  rewrite Hf, Hrows, Hu, (hit_after_insert _ _ Hfresh Hlive). reflexivity.
Qed.

Lemma created_user_is_found_witness :
  fst (service.GetUserByID 1 sample.with_ann) = Ok (ToResponse sample.ann_row).
Proof.
  exact (created_user_is_found sample.hash sample.ann sample.empty sample.with_ann
           (ToResponse sample.ann_row) eq_refl eq_refl eq_refl).
Defined.

(** X7.  After [CreateUser] returned a user, a second [CreateUser] with
    the same e-mail, in a later world on the same table in which the
    lookup runs and bcrypt yields a hash, returns the DuplicateResource
    error (409 at the handler) and adds no row. *)
Theorem second_create_is_duplicate
  (bcrypt : nat -> string -> Z -> result string)
  (input again : UserCreate) (w w' : World) (resp : UserResponse) (h : string) :
  fst (service.CreateUser bcrypt input w) = Ok resp ->
  users w' = users (snd (service.CreateUser bcrypt input w)) ->
  fault w' = None ->
  cEmail again = cEmail input ->
  bcrypt (hashed w') (cPassword again) 10%Z = Ok h ->
  fst (service.CreateUser bcrypt again w') = Err (duplicate_email (cEmail input))
  /\ users (snd (service.CreateUser bcrypt again w')) = users w'
  /\ status (controller.handleError (duplicate_email (cEmail input))) = 409%Z.
Proof.
  intros Hc Hrows Hf Hemail Hh.
  destruct (CreateUser_success_inv bcrypt input w resp Hc)
    as (row & Hu & _ & Hrow & Hlive & _ & _).
  rewrite CreateUser_eq. cbv zeta. rewrite Hh. simpl.
  set (w1 := set_hashed _ _).
  rewrite Create_eq, FindByEmail_eq. cbv zeta. simpl.
  change (fault w1) with (fault w'). change (users w1) with (users w').
  rewrite Hf, Hemail.
  destruct (lowest_filter_some
              (fun u => String.eqb (Email u) (cEmail input) && gorm.live u)
              (users w') row) as [found Hfound].
  { rewrite Hrows, Hu. apply in_or_app. right. now left. }
  { unfold gorm.live. rewrite Hrow, Hlive, String.eqb_refl. reflexivity. }
  rewrite Hfound. simpl. autorewrite with world. conj; reflexivity.
Qed.

Lemma second_create_is_duplicate_witness :
  fst (service.CreateUser sample.hash
         (mkUserCreate "Ann B" "ann@x.com" "hunter22" "admin") sample.with_ann)
  = Err (duplicate_email "ann@x.com").
Proof.
  exact (proj1 (second_create_is_duplicate sample.hash sample.ann
                  (mkUserCreate "Ann B" "ann@x.com" "hunter22" "admin")
                  sample.empty sample.with_ann (ToResponse sample.ann_row)
                  "$2a$10$hunter22" eq_refl eq_refl eq_refl eq_refl eq_refl)).
Defined.

(** ** Deleting *)

Lemma soft_delete_undeleted (id t : N) (rows : list User) :
  map undeleted (map (fun r => if hit id r then with_DeletedAt (Some t) r else r) rows)
  = map undeleted rows.
Proof.
  rewrite map_map. apply map_ext. intros r. destruct (hit id r); reflexivity.
Qed.

Lemma Delete_success_users (w : World) (id : N) :
  fst (repository.Delete id w) = None ->
  users (snd (repository.Delete id w))
  = map (fun r => if hit id r then with_DeletedAt (Some (clock w)) r else r) (users w).
Proof.
  rewrite Delete_eq. destruct (fault w); [discriminate|]. reflexivity.
Qed.

(** X8.  The gateway [Delete] never removes a row and never changes a
    column other than the deletion mark; rows it does not hit (another
    key, or already deleted) are left as they are; and when it returns
    nil, the rows it hit carry the present instant as deletion mark and
    are no longer hit. *)
Theorem Delete_marks_and_keeps_rows (w : World) (id : N) :
  let w' := snd (repository.Delete id w) in
  length (users w') = length (users w)
  /\ map undeleted (users w') = map undeleted (users w)
  /\ (forall r, In r (users w) -> hit id r = false -> In r (users w'))
  /\ (fst (repository.Delete id w) = None ->
      users w' = map (fun r => if hit id r then with_DeletedAt (Some (clock w)) r else r)
                     (users w)
      /\ filter (hit id) (users w) <> []
      /\ filter (hit id) (users w') = []).
Proof.
  cbv zeta. rewrite Delete_eq.
  destruct (fault w) as [msg|]; simpl.
  - autorewrite with world. conj; auto. discriminate.
  - conj.
    + now rewrite length_map.
    + apply soft_delete_undeleted.
    + intros r Hin Hh. apply in_map_iff. exists r. now rewrite Hh.
    + intros H. conj.
      * reflexivity.
      * intros E. rewrite E in H. discriminate.
      * apply soft_deleted_not_hit.
Qed.

Lemma Delete_marks_and_keeps_rows_witness :
  users (snd (repository.Delete 1 fixtures.two_users))
  = [with_DeletedAt (Some 1000%N) sample.ann_row; fixtures.bob_row].
Proof.
  exact (proj1 (proj2 (proj2 (proj2 (Delete_marks_and_keeps_rows fixtures.two_users 1)))
                  eq_refl)).
Defined.

(** X9.  Deleting is not idempotent at the interface: after a [Delete] of
    [id] that returned nil, a [Delete] of the same [id] in a later world
    on the same table, run by the driver, returns ResourceNotFound (404
    at the handler) and leaves the table as it is.  The same holds for
    any [id] no live row has. *)
Theorem Delete_again_is_not_found (w w' : World) (id : N) :
  (fst (repository.Delete id w) = None /\ users w' = users (snd (repository.Delete id w))
   \/ forall r, In r (users w') -> hit id r = false) ->
  fault w' = None ->
  fst (repository.Delete id w') = Some (not_found_by_id id None)
  /\ users (snd (repository.Delete id w')) = users w'
  /\ controller.handleError (not_found_by_id id None)
     = mkResponse 404
         (Some (error_body "RESOURCE_NOT_FOUND" "User not found"
                  (Some (JObj [("id", JNum (Z.of_N id))])))).
Proof.
  intros H Hf.
  assert (Hnone : filter (hit id) (users w') = []).
  { destruct H as [[Hd Hrows]|H]; [|now apply hit_filter_none].
    rewrite Hrows, (Delete_success_users w id Hd). apply soft_deleted_not_hit. }
  rewrite Delete_eq, Hf, Hnone. simpl. conj; try reflexivity.
  transitivity (map (fun r : User => r) (users w')); [|apply map_id].
  apply map_ext_in. intros r Hr.
  assert (In r (filter (hit id) (users w')) -> False) by (rewrite Hnone; auto).
  destruct (hit id r) eqn:E; [|reflexivity].
  exfalso. apply H0. apply filter_In. auto.
Qed.

Lemma Delete_again_is_not_found_witness :
  fst (repository.Delete 1 (snd (repository.Delete 1 sample.with_ann)))
  = Some (not_found_by_id 1 None).
Proof.
  refine (proj1 (Delete_again_is_not_found sample.with_ann
                   (snd (repository.Delete 1 sample.with_ann)) 1 _ eq_refl)).
  left. split; reflexivity.
Defined.

(** X10.  A soft-deleted user keeps its e-mail taken.  When the only live
    row holding an e-mail has been deleted, a [CreateUser] with that
    e-mail passes the duplicate check (no live row is found) and sends the
    insert, which the unique index on the e-mail column refuses: the
    result is a Database error, answered 500, and no row is added. *)
Theorem create_after_delete_is_refused
  (bcrypt : nat -> string -> Z -> result string)
  (input : UserCreate) (w w' : World) (id : N) (old : User) (h : string) :
  In old (users w) -> hit id old = true -> Email old = cEmail input ->
  (forall x, In x (users w) -> Email x = cEmail input -> gorm.live x = true -> ID x = id) ->
  fst (repository.Delete id w) = None ->
  users w' = users (snd (repository.Delete id w)) ->
  healthy 2 w' ->
  bcrypt (hashed w') (cPassword input) 10%Z = Ok h ->
  let r := service.CreateUser bcrypt input w' in
  (exists cause, fst r = Err (database_error "Failed to create user" cause)
                 /\ controller.handleError (database_error "Failed to create user" cause)
                    = mkResponse 500
                        (Some (error_body "DATABASE_ERROR" "Failed to create user" None)))
  /\ users (snd r) = users w'
  /\ trace (snd r) = trace w' ++ [EvService "CreateUser";
                                  EvSQL (SelectUserByEmail (cEmail input));
                                  EvSQL (InsertUser (cEmail input))].
Proof.
  intros Hin Hhit Hemail Honly Hdel Hrows Hok Hh. cbv zeta.
  rewrite (Delete_success_users w id Hdel) in Hrows.
  rewrite CreateUser_eq. cbv zeta. rewrite Hh. simpl.
  set (w1 := set_hashed _ _).
  set (user := mkUser 0 _ _ h _ true 0 0 None).
  assert (Hf1 : fault w1 = None) by (apply nth_fault_0, (healthy_weaken 2); auto).
  rewrite Create_eq, FindByEmail_eq, Hf1. cbv zeta. simpl.
  change (users w1) with (users w').
  (* no live row holds the e-mail any more *)
  destruct (gorm.lowest _) as [found|] eqn:El.
  { exfalso. apply lowest_filter in El. destruct El as [Hfin Hp].
    apply andb_prop in Hp. destruct Hp as [He Hl]. apply String.eqb_eq in He.
    rewrite Hrows in Hfin. apply in_map_iff in Hfin.
    destruct Hfin as (x & Hx & Hxin).
    destruct (hit id x) eqn:Ex; subst found.
    - discriminate Hl.
    - assert (ID x = id) by (apply Honly; auto).
      unfold hit in Ex. rewrite Hl in Ex. apply andb_false_iff in Ex.
      destruct Ex as [Ex|Ex]; [|discriminate].
      apply N.eqb_neq in Ex. contradiction. }
  (* the deleted row still holds it *)
  set (w2 := sent (SelectUserByEmail (cEmail input)) w1).
  assert (Htaken : existsb (fun x => String.eqb (Email x) (cEmail input)) (users w2) = true).
  { apply existsb_exists. exists (with_DeletedAt (Some (clock w)) old). split.
    - unfold w2. autorewrite with world. change (users w1) with (users w').
      rewrite Hrows. apply in_map_iff. exists old. now rewrite Hhit.
    - simpl. rewrite Hemail. apply String.eqb_refl. }
  destruct (Create_spec user w2) as [Huo [(Hr & _ & _ & _ & _ & Hem)|(msg & Hr & Hu)]];
    cbv zeta in *.
  { simpl in Hem. rewrite Htaken in Hem. discriminate. }
  rewrite Hr. simpl. conj.
  - eexists. split; reflexivity.
  - rewrite Hu. unfold w2. now autorewrite with world.
  - rewrite (uo_trace _ _ _ Huo). unfold w2. autorewrite with world.
    simpl. rewrite <- !app_assoc. reflexivity.
Qed.

Lemma create_after_delete_is_refused_witness :
  fst (service.CreateUser sample.hash sample.ann fixtures.ann_deleted)
  = Err (database_error "Failed to create user" (ErrNew gorm.email_violation)).
Proof.
  destruct (create_after_delete_is_refused sample.hash sample.ann sample.with_ann
              fixtures.ann_deleted 1 sample.ann_row "$2a$10$secret1")
    as [(cause & Hr & _) _].
  - left. reflexivity.
  - reflexivity.
  - reflexivity.
  - intros x [<-|[]] _ _. reflexivity.
  - reflexivity.
  - reflexivity.
  - intros k _. destruct k as [|[|k]]; reflexivity.
  - reflexivity.
  - reflexivity.
Defined.

(** ** Updating *)

Lemma UpdateUser_eq (bcrypt : nat -> string -> Z -> result string)
      (id : N) (input : UserUpdate) (w : World) :
  service.UpdateUser bcrypt id input w =
  let w1 := set_trace (trace w ++ [EvService "UpdateUser"]) w in
  let w2 := sent (SelectUserByID id) w1 in
  match fst (repository.FindByID id w1) with
  | Err err => (Err err, snd (logger.Error "Failed to retrieve user for update" w2))
  | Ok old =>
      match uPassword input with
      | Some password =>
          match bcrypt (hashed w) password 10%Z with
          | Err err =>
              (Err (ErrApp (apperrors.NewInternalError "Failed to process password"
                              (Some err))),
               snd (logger.Error "Failed to hash password during update"
                      (set_hashed (S (hashed w)) w2)))
          | Ok h => save_and_answer (merged input h old) (set_hashed (S (hashed w)) w2)
          end
      | None => save_and_answer (merged input "" old) w2
      end
  end.
Proof.
  unfold service.UpdateUser. cbv zeta.
  rewrite bind_run. simpl. rewrite bind_run. rewrite FindByID_eq at 2. simpl.
  destruct (fst (repository.FindByID id _)) as [old|err]; [|reflexivity].
  rewrite bind_run.
  assert (Htail : forall (u : User) (w3 : World),
             (updated <- repository.Update u ;;
              match updated with
              | (_, Some err) => logger.Error "Failed to update user" ;;; ret (Err err)
              | (user, None) => ret (Ok (ToResponse user))
              end) w3 = save_and_answer u w3).
  { intros u w3. rewrite bind_run. unfold repository.Update, save_and_answer.
    rewrite bind_run.
    destruct (fst (gorm.Save u w3)) as [[row n]|e]; [|reflexivity].
    destruct (n =? 0)%N; reflexivity. }
  destruct (uPassword input) as [password|] eqn:Ep.
  - rewrite bind_run. unfold service.hash at 1 2. simpl.
    rewrite !hashed_sent. simpl. unfold service.DefaultCost.
    destruct (bcrypt (hashed w) password 10%Z) as [h|err]; simpl; [|reflexivity].
    rewrite Htail. f_equal.
    unfold merged. rewrite Ep.
    destruct (uName input), (uEmail input), (uRole input), (uActive input); reflexivity.
  - unfold ret at 1 2. simpl. rewrite Htail. f_equal.
    unfold merged. rewrite Ep.
    destruct old; destruct (uName input), (uEmail input), (uRole input), (uActive input);
      reflexivity.
Qed.

Lemma merged_ID input password old : ID (merged input password old) = ID old.
Proof. reflexivity. Qed.

Lemma save_and_answer_success u w resp :
  ID u <> 0%N ->
  filter (hit (ID u)) (users w) <> [] ->
  fst (save_and_answer u w) = Ok resp ->
  resp = ToResponse (with_UpdatedAt (clock w) u)
  /\ users (snd (save_and_answer u w))
     = map (fun x => if hit (ID u) x then with_UpdatedAt (clock w) u else x) (users w).
Proof.
  intros Hnz Hne. unfold save_and_answer.
  destruct (Save_spec u w Hnz)
    as [(n & Hn & Hr & Hu & _)|[(Hnone & _)|(msg & st & Hr & _)]]; cbv zeta in *.
  - rewrite Hr. apply N.eqb_neq in Hn. rewrite Hn. simpl.
    intros E; inversion E. auto.
  - contradiction.
  - rewrite Hr. discriminate.
Qed.

(** What a successful [UpdateUser] did. *)
Lemma UpdateUser_success_inv (bcrypt : nat -> string -> Z -> result string)
      (id : N) (input : UserUpdate) (w : World) (resp : UserResponse) :
  pkey_ok (users w) ->
  fst (service.UpdateUser bcrypt id input w) = Ok resp ->
  exists old password,
    In old (users w) /\ hit id old = true
    /\ match uPassword input with
       | Some given => bcrypt (hashed w) given 10%Z = Ok password
       | None => password = Password old
       end
    /\ resp = ToResponse (with_UpdatedAt (clock w) (merged input password old))
    /\ users (snd (service.UpdateUser bcrypt id input w))
       = map (fun x => if hit id x
                       then with_UpdatedAt (clock w) (merged input password old) else x)
             (users w).
Proof.
  intros [Hnd Hnz]. rewrite UpdateUser_eq. cbv zeta.
  set (w1 := set_trace _ w).
  set (w2 := sent (SelectUserByID id) w1).
  rewrite FindByID_eq. simpl.
  destruct (fault w1); [discriminate|].
  change (users w1) with (users w).
  destruct (gorm.lowest (filter (hit id) (users w))) as [old|] eqn:El; [|discriminate].
  apply lowest_filter in El. destruct El as [Hin Hhit]. simpl.
  assert (Hid : ID old = id) by apply (hit_inv _ _ Hhit).
  assert (Hnz' : forall p, ID (merged input p old) <> 0%N).
  { intros p. rewrite merged_ID, Hid. intros ->. apply Hnz.
    rewrite <- Hid. now apply in_map. }
  assert (Hne : forall p (w3 : World),
             users w3 = users w ->
             filter (hit (ID (merged input p old))) (users w3) <> []).
  { intros p w3 E Hnone. rewrite merged_ID, Hid, E in Hnone.
    assert (H : In old (filter (hit id) (users w))) by (apply filter_In; auto).
    rewrite Hnone in H. contradiction. }
  destruct (uPassword input) as [given|] eqn:Ep.
  - destruct (bcrypt (hashed w) given 10%Z) as [h|err] eqn:Eh; [|discriminate].
    intros Hok.
    destruct (save_and_answer_success _ _ _ (Hnz' h)
                (Hne h (set_hashed (S (hashed w)) w2)
                   ltac:(unfold w2; simpl; now autorewrite with world)) Hok)
      as [Hresp Hu].
    exists old, h. rewrite merged_ID, Hid in Hu. simpl in Hu, Hresp.
    unfold w2 in Hu, Hresp. autorewrite with world in Hu, Hresp.
    conj; auto.
  - intros Hok.
    destruct (save_and_answer_success _ _ _ (Hnz' "")
                (Hne "" w2 ltac:(unfold w2; now autorewrite with world)) Hok)
      as [Hresp Hu].
    exists old, (Password old). rewrite merged_ID, Hid in Hu.
    unfold w2 in Hu, Hresp. autorewrite with world in Hu, Hresp.
    assert (Hm : merged input "" old = merged input (Password old) old)
      by (unfold merged; now rewrite Ep).
    rewrite <- Hm. conj; auto.
Qed.

(** X11.  On a table satisfying its primary key, whenever [UpdateUser]
    returns a response, the live row of [id] was replaced by the row read
    with exactly the fields the input sets written over: name, e-mail,
    role and active flag as given, the password as the bcrypt hash of the
    one given; fields the input leaves out keep the value read, the key
    and creation instant stay, and the response is the shape of that
    row. *)
Theorem UpdateUser_writes_the_fields_given
  (bcrypt : nat -> string -> Z -> result string)
  (id : N) (input : UserUpdate) (w : World) (resp : UserResponse) :
  pkey_ok (users w) ->
  fst (service.UpdateUser bcrypt id input w) = Ok resp ->
  exists old stored,
    In old (users w) /\ hit id old = true
    /\ users (snd (service.UpdateUser bcrypt id input w))
       = map (fun x => if hit id x then stored else x) (users w)
    /\ resp = ToResponse stored
    /\ ID stored = id /\ CreatedAt stored = CreatedAt old /\ DeletedAt stored = None
    /\ Name stored = match uName input with Some v => v | None => Name old end
    /\ Email stored = match uEmail input with Some v => v | None => Email old end
    /\ Role stored = match uRole input with Some v => v | None => Role old end
    /\ Active stored = match uActive input with Some v => v | None => Active old end
    /\ match uPassword input with
       | Some given => bcrypt (hashed w) given 10%Z = Ok (Password stored)
       | None => Password stored = Password old
       end.
Proof.
  intros Hpk Hok.
  destruct (UpdateUser_success_inv bcrypt id input w resp Hpk Hok)
    as (old & password & Hin & Hhit & Hpw & Hresp & Hu).
  exists old, (with_UpdatedAt (clock w) (merged input password old)).
  destruct (hit_inv _ _ Hhit) as [Hid Hlive].
  conj; auto.
  - unfold gorm.live in Hlive. simpl. destruct (DeletedAt old); [discriminate|reflexivity].
  - simpl. destruct (uPassword input); [exact Hpw|reflexivity].
Qed.

Lemma UpdateUser_writes_the_fields_given_witness :
  exists stored,
    users (snd (service.UpdateUser sample.hash 1
                  (mkUserUpdate None None (Some "hunter22") None (Some false))
                  sample.with_ann)) = [stored]
    /\ Name stored = "Ann" /\ Active stored = false.
Proof.
  destruct (UpdateUser_writes_the_fields_given sample.hash 1
              (mkUserUpdate None None (Some "hunter22") None (Some false))
              sample.with_ann
              (mkUserResponse 1 "Ann" "ann@x.com" "user" false 1000 1000))
    as (old & stored & Hin & _ & Hu & _ & _ & _ & _ & Hn & _ & _ & Ha & _).
  - split; simpl; [repeat constructor; intros []|intros [H|[]]; discriminate H].
  - reflexivity.
  - destruct Hin as [<-|[]]. exists stored. simpl in *. conj; auto.
Defined.

(** X12.  [UpdateUser] of an [id] that no live row has, with the driver
    running the query, returns ResourceNotFound whatever the input: only
    the SELECT was sent, no hash was computed even when the input sets a
    password, and the table is as before. *)
Theorem UpdateUser_of_missing_user
  (bcrypt : nat -> string -> Z -> result string)
  (id : N) (input : UserUpdate) (w : World) :
  (forall r, In r (users w) -> hit id r = false) ->
  fault w = None ->
  let r := service.UpdateUser bcrypt id input w in
  fst r = Err (not_found_by_id id (Some ErrRecordNotFound))
  /\ users (snd r) = users w
  /\ hashed (snd r) = hashed w
  /\ trace (snd r) = trace w ++ [EvService "UpdateUser"; EvSQL (SelectUserByID id)]
  /\ status (controller.handleError (not_found_by_id id (Some ErrRecordNotFound))) = 404%Z.
Proof.
  intros Hnone Hf. cbv zeta. rewrite UpdateUser_eq. cbv zeta.
  rewrite FindByID_eq. simpl.
  change (fault (set_trace (trace w ++ [EvService "UpdateUser"]) w)) with (fault w).
  change (users (set_trace (trace w ++ [EvService "UpdateUser"]) w)) with (users w).
  rewrite Hf, (hit_filter_none _ _ Hnone). simpl.
  autorewrite with world. simpl. rewrite <- app_assoc. conj; reflexivity.
Qed.

Lemma UpdateUser_of_missing_user_witness :
  fst (service.UpdateUser sample.hash 7
         (mkUserUpdate None None (Some "hunter22") None None) sample.with_ann)
  = Err (not_found_by_id 7 (Some ErrRecordNotFound))
  /\ hashed (snd (service.UpdateUser sample.hash 7
                    (mkUserUpdate None None (Some "hunter22") None None) sample.with_ann))
     = 1%nat.
Proof.
  destruct (UpdateUser_of_missing_user sample.hash 7
              (mkUserUpdate None None (Some "hunter22") None None) sample.with_ann)
    as (H1 & _ & H3 & _).
  - intros r [<-|[]]. reflexivity.
  - reflexivity.
  - split; [exact H1|exact H3].
Defined.

Lemma save_and_answer_errors u w e :
  fst (save_and_answer u w) = Err e ->
  e = not_found_by_id (ID u) None
  \/ exists cause, e = database_error "Failed to update user" cause.
Proof.
  unfold save_and_answer.
  destruct (fst (gorm.Save u w)) as [[row n]|c]; simpl.
  - destruct (n =? 0)%N; simpl; intros E; inversion E; auto.
  - intros E; inversion E; eauto.
Qed.

Lemma Save_email_taken (u : User) (w : World) :
  ID u <> 0%N ->
  fault w = None ->
  filter (hit (ID u)) (users w) <> [] ->
  existsb (fun r => negb (hit (ID u) r) && String.eqb (Email r) (Email u)) (users w) = true ->
  (exists cause, fst (gorm.Save u w) = Err cause)
  /\ users (snd (gorm.Save u w)) = users w.
Proof.
  intros Hid Hf Hhit Hem. unfold gorm.Save.
  apply N.eqb_neq in Hid. rewrite Hid.
  rewrite bind_run, exec_eq, Hf; simpl.
  rewrite bind_run. unfold gets at 1; simpl.
  autorewrite with world. fold (hit (ID u)).
  destruct (filter (hit (ID u)) (users w)) as [|x xs]; [contradiction|]. simpl.
  unfold hit in Hem.
  destruct (gorm.fits _); simpl.
  - rewrite Hem. simpl. split; [eauto|]. now autorewrite with world.
  - split; [eauto|]. now autorewrite with world.
Qed.

(** X13.  [UpdateUser] has no duplicate check: no error it returns is a
    DuplicateResource.  On a table satisfying its primary key, moving an
    existing user to an e-mail that another row holds (bcrypt yielding a
    hash for a password given, the driver running both statements) ends
    in a Database error, answered 500, with the table as before. *)
Theorem UpdateUser_has_no_duplicate_outcome
  (bcrypt : nat -> string -> Z -> result string)
  (id : N) (input : UserUpdate) (w : World) :
  let r := service.UpdateUser bcrypt id input w in
  (forall e, fst r = Err e ->
     exists a, e = ErrApp a /\ apperrors.Code a <> "DUPLICATE_RESOURCE"
               /\ apperrors.StatusCode a <> 409%Z)
  /\ (forall old other email,
        pkey_ok (users w) ->
        In old (users w) -> hit id old = true ->
        In other (users w) -> hit id other = false -> Email other = email ->
        uEmail input = Some email ->
        (forall given, uPassword input = Some given ->
                       exists h, bcrypt (hashed w) given 10%Z = Ok h) ->
        healthy 2 w ->
        (exists cause, fst r = Err (database_error "Failed to update user" cause))
        /\ users (snd r) = users w
        /\ forall cause,
             controller.handleError (database_error "Failed to update user" cause)
             = mkResponse 500
                 (Some (error_body "DATABASE_ERROR" "Failed to update user" None))).
Proof.
  cbv zeta. rewrite UpdateUser_eq. cbv zeta.
  set (w1 := set_trace _ w).
  set (w2 := sent (SelectUserByID id) w1).
  rewrite FindByID_eq. simpl. change (users w1) with (users w).
  split.
  - intros e.
    assert (Hsave : forall u w3, fst (save_and_answer u w3) = Err e ->
              exists a, e = ErrApp a /\ apperrors.Code a <> "DUPLICATE_RESOURCE"
                        /\ apperrors.StatusCode a <> 409%Z).
    { intros u w3 H. apply save_and_answer_errors in H.
      destruct H as [->|[cause ->]]; eexists; (split; [reflexivity|]);
        split; discriminate. }
    destruct (fault w1); simpl.
    { intros E; inversion E; subst. eexists; split; [reflexivity|]. split; discriminate. }
    destruct (gorm.lowest _) as [old|]; simpl.
    2:{ intros E; inversion E; subst. eexists; split; [reflexivity|]. split; discriminate. }
    destruct (uPassword input) as [given|]; [|apply Hsave].
    destruct (bcrypt _ _ _); [apply Hsave|].
    simpl. intros E; inversion E; subst.
    eexists; split; [reflexivity|]. split; discriminate.
  - intros old other email [Hnd Hnz] Hin Hhit Hoin Hoh Hoe Hset Hbc Hok.
    assert (Hf1 : fault w1 = None) by (apply nth_fault_0, (healthy_weaken 2); auto).
    assert (Hf2 : fault w2 = None) by (apply nth_fault_0, healthy_sent; exact Hok).
    rewrite Hf1, (hit_filter_unique _ _ _ Hnd Hin Hhit). simpl.
    destruct (hit_inv _ _ Hhit) as [Hid _].
    assert (Hgo : forall p (w3 : World),
               users w3 = users w -> fault w3 = None ->
               (exists cause,
                   fst (save_and_answer (merged input p old) w3)
                   = Err (database_error "Failed to update user" cause))
               /\ users (snd (save_and_answer (merged input p old) w3)) = users w).
    { intros p w3 Hu3 Hf3.
      destruct (Save_email_taken (merged input p old) w3) as [[cause Hr] Hu].
      - rewrite merged_ID, Hid. intros ->. apply Hnz. rewrite <- Hid. now apply in_map.
      - exact Hf3.
      - rewrite merged_ID, Hid, Hu3. intros Hnone.
        assert (H : In old (filter (hit id) (users w))) by (apply filter_In; auto).
        rewrite Hnone in H. contradiction.
      - rewrite merged_ID, Hid, Hu3. apply existsb_exists. exists other.
        split; [exact Hoin|]. rewrite Hoh. simpl. unfold merged; simpl.
        rewrite Hset, Hoe. apply String.eqb_refl.
      - unfold save_and_answer. rewrite Hr. simpl. split; [eauto|].
        now rewrite Hu. }
    assert (Hu2 : users w2 = users w) by (unfold w2; now autorewrite with world).
    destruct (uPassword input) as [given|].
    + destruct (Hbc given eq_refl) as [h Hh]. rewrite Hh.
      destruct (Hgo h (set_hashed (S (hashed w)) w2) Hu2 Hf2) as [Hr Hu].
      conj; auto.
    + destruct (Hgo "" w2 Hu2 Hf2) as [Hr Hu]. conj; auto.
Qed.

Lemma UpdateUser_has_no_duplicate_outcome_witness :
  fst (service.UpdateUser sample.hash 2
         (mkUserUpdate None (Some "ann@x.com") None None None) fixtures.two_users)
  = Err (database_error "Failed to update user" (ErrNew gorm.email_violation)).
Proof.
  destruct (proj2 (UpdateUser_has_no_duplicate_outcome sample.hash 2
                     (mkUserUpdate None (Some "ann@x.com") None None None)
                     fixtures.two_users)
              fixtures.bob_row sample.ann_row "ann@x.com")
    as [[cause Hr] _].
  - split; simpl; [repeat constructor; simpl; intuition discriminate|intuition discriminate].
  - right; left; reflexivity.
  - reflexivity.
  - left; reflexivity.
  - reflexivity.
  - reflexivity.
  - reflexivity.
  - discriminate.
  - intros k _. destruct k as [|[|k]]; reflexivity.
  - reflexivity.
Defined.

(** X14.  On a table satisfying its primary key, a user that [UpdateUser]
    returned is read back: in any later world on the table the update
    left, with the driver running the query, [GetUserByID] of the same
    [id] returns the same response shape. *)
Theorem updated_user_is_found
  (bcrypt : nat -> string -> Z -> result string)
  (id : N) (input : UserUpdate) (w w' : World) (resp : UserResponse) :
  pkey_ok (users w) ->
  fst (service.UpdateUser bcrypt id input w) = Ok resp ->
  users w' = users (snd (service.UpdateUser bcrypt id input w)) ->
  fault w' = None ->
  fst (service.GetUserByID id w') = Ok resp.
Proof.
  intros Hpk Hok Hrows Hf.
  destruct (UpdateUser_success_inv bcrypt id input w resp Hpk Hok)
    as (old & password & Hin & Hhit & _ & -> & Hu).
  destruct Hpk as [Hnd _].
  set (stored := with_UpdatedAt (clock w) (merged input password old)) in *.
  assert (Hsh : hit id stored = true).
  { unfold hit in *. exact Hhit. }
  assert (Hnd' : NoDup (map ID (users w'))).
  { rewrite Hrows, Hu, map_ID_replace; [exact Hnd|].
    intros x Hx. apply hit_inv in Hx, Hhit. simpl. destruct Hx, Hhit. congruence. }
  assert (Hin' : In stored (users w')).
  { rewrite Hrows, Hu. apply in_map_iff. exists old. now rewrite Hhit. }
  rewrite GetUserByID_service_eq. cbv zeta. rewrite FindByID_eq. simpl.
  change (fault (set_trace (trace w' ++ [EvService "GetUserByID"]) w')) with (fault w').
  change (users (set_trace (trace w' ++ [EvService "GetUserByID"]) w')) with (users w').
  rewrite Hf, (hit_filter_unique _ _ _ Hnd' Hin' Hsh). reflexivity.
Qed.

Lemma updated_user_is_found_witness :
  fst (service.GetUserByID 1
         (snd (service.UpdateUser sample.hash 1
                 (mkUserUpdate (Some "Bob") None None None None) sample.with_ann)))
  = Ok (mkUserResponse 1 "Bob" "ann@x.com" "user" true 1000 1000).
Proof.
  refine (updated_user_is_found sample.hash 1
            (mkUserUpdate (Some "Bob") None None None None)
            sample.with_ann _ _ _ eq_refl eq_refl eq_refl).
  split; simpl; [repeat constructor; intros []|intros [H|[]]; discriminate H].
Defined.

(** ** What the table keeps *)

Lemma Create_checked u w : checked_write (users w) (users (snd (gorm.Create u w))).
Proof.
  destruct (Create_spec u w) as [_ [(_ & H & _ & _ & Hpk & Hem)|(msg & _ & H)]];
    cbv zeta in *; [|now apply write_none].
  apply (write_append _ _ (gorm.inserted u w)); [| |exact H].
  - intros x Hx. rewrite existsb_false_iff in Hpk, Hem. split.
    + apply N.eqb_neq. now apply Hpk.
    + apply String.eqb_neq. now apply Hem.
  - simpl. destruct (ID u =? 0)%N eqn:E; [lia|]. now apply N.eqb_neq.
Qed.

Lemma upsert_checked u w :
  ID u <> 0%N -> checked_write (users w) (users (snd (gorm.upsert u w))).
Proof.
  intros Hnz. unfold gorm.upsert. rewrite bind_run, exec_eq; simpl.
  destruct (fault w); [apply write_none; run; now autorewrite with world|].
  autorewrite with world.
  destruct (gorm.fits u); simpl; [|apply write_none; now autorewrite with world].
  destruct (existsb (fun r => negb _ && _) (users w)) eqn:Eem; simpl;
    [apply write_none; now autorewrite with world|].
  rewrite existsb_false_iff in Eem.
  destruct (existsb _ (users w)) eqn:Epk; simpl.
  - apply (write_replace _ _ (fun x => (ID x =? ID u)%N) u); [| |reflexivity].
    + intros x Hx. now apply N.eqb_eq.
    + intros x Hx Hc. specialize (Eem x Hx). simpl in Eem. rewrite Hc in Eem.
      simpl in Eem. now apply String.eqb_neq.
  - apply (write_append _ _ u); [|exact Hnz|reflexivity].
    rewrite existsb_false_iff in Epk. intros x Hx.
    specialize (Eem x Hx). specialize (Epk x Hx). simpl in Eem. rewrite Epk in Eem.
    simpl in Eem. split; [now apply N.eqb_neq|now apply String.eqb_neq].
Qed.

Lemma checked_write_users rows rows1 rows2 :
  checked_write rows rows1 -> rows2 = rows1 -> checked_write rows rows2.
Proof. intros H ->. exact H. Qed.

Lemma Save_checked u w : checked_write (users w) (users (snd (gorm.Save u w))).
Proof.
  unfold gorm.Save. destruct (ID u =? 0)%N eqn:Ez.
  - rewrite bind_run. simpl. apply Create_checked.
  - apply N.eqb_neq in Ez. rewrite bind_run, exec_eq; simpl.
    destruct (fault w); [apply write_none; run; now autorewrite with world|].
    rewrite bind_run. unfold gets at 1; simpl.
    autorewrite with world. fold (hit (ID u)).
    set (w0 := sent (UpdateUser (ID u)) w).
    destruct (filter (hit (ID u)) (users w)) as [|x xs]; simpl.
    + replace (users w) with (users w0) by (unfold w0; now autorewrite with world).
      apply (upsert_checked (with_UpdatedAt (clock w) u) w0). exact Ez.
    + destruct (gorm.fits _); simpl;
        [|apply write_none; unfold w0; now autorewrite with world].
      destruct (existsb _ (users w)) eqn:Eem; simpl;
        [apply write_none; unfold w0; now autorewrite with world|].
      rewrite existsb_false_iff in Eem.
      apply (write_replace _ _ (hit (ID u)) (with_UpdatedAt (clock w) u));
        [| |reflexivity].
      * intros y Hy. apply hit_inv in Hy. simpl. tauto.
      * intros y Hy Hc. specialize (Eem y Hy). simpl in Eem.
        unfold hit in Hc. rewrite Hc in Eem. simpl in Eem. now apply String.eqb_neq.
Qed.

Lemma NoDup_emails_replace (c : User -> bool) (row : User) (rows : list User) :
  NoDup (map ID rows) ->
  (forall x, c x = true -> ID x = ID row) ->
  (forall x, In x rows -> c x = false -> Email x <> Email row) ->
  NoDup (map Email rows) ->
  NoDup (map Email (map (fun x => if c x then row else x) rows)).
Proof.
  intros Hid Hc Hother Hem.
  induction rows as [|r rest IH]; simpl; [constructor|].
  simpl in Hid, Hem.
  inversion Hid as [|? ? Hid1 Hid2]; subst. inversion Hem as [|? ? Hem1 Hem2]; subst.
  destruct (c r) eqn:Er.
  - (* no other row has the key, so the rest is left as it is *)
    assert (Hrest : forall y, In y rest -> c y = false).
    { intros y Hy. destruct (c y) eqn:Ey; [|reflexivity].
      exfalso. apply Hid1. rewrite (Hc r Er), <- (Hc y Ey). now apply in_map. }
    assert (E : map (fun x => if c x then row else x) rest = rest).
    { transitivity (map (fun x : User => x) rest); [|apply map_id].
      apply map_ext_in. intros y Hy. now rewrite (Hrest y Hy). }
    rewrite E. constructor; [|exact Hem2].
    intros Hin. apply in_map_iff in Hin. destruct Hin as (y & Ey & Hy).
    apply (Hother y (or_intror Hy) (Hrest y Hy)). exact Ey.
  - constructor.
    + intros Hin. rewrite map_map in Hin. apply in_map_iff in Hin.
      destruct Hin as (y & Ey & Hy). destruct (c y).
      * apply (Hother r (or_introl eq_refl) Er). now symmetry.
      * apply Hem1. rewrite <- Ey. now apply in_map.
    + apply IH; auto. intros x Hx. apply Hother. now right.
Qed.

Lemma checked_write_keeps rows rows' :
  checked_write rows rows' ->
  pkey_ok rows /\ emails_ok rows -> pkey_ok rows' /\ emails_ok rows'.
Proof.
  intros [->|c row Hc Hother ->|row Hfresh Hnz ->] Hw; [exact Hw| |];
    destruct Hw as [[Hnd Hz] Hem].
  - split.
    + unfold pkey_ok. now rewrite (map_ID_replace c row rows Hc).
    + now apply NoDup_emails_replace.
  - split.
    + unfold pkey_ok. rewrite map_app. simpl. split.
      * apply NoDup_snoc; [exact Hnd|].
        intros Hin. apply in_map_iff in Hin. destruct Hin as (x & E & Hx).
        destruct (Hfresh x Hx) as [Hne _]. contradiction.
      * intros Hin. apply in_app_or in Hin. destruct Hin as [Hin|[E|[]]]; auto.
    + unfold emails_ok. rewrite map_app. simpl.
      apply NoDup_snoc; [exact Hem|].
      intros Hin. apply in_map_iff in Hin. destruct Hin as (x & E & Hx).
      destruct (Hfresh x Hx) as [_ Hne]. contradiction.
Qed.

Lemma table_step_checked w w' :
  table_step w w' ->
  pkey_ok (users w) /\ emails_ok (users w) -> pkey_ok (users w') /\ emails_ok (users w').
Proof.
  intros [H|id t H|u w0 H0 Hu H|old u w0 H0 Hin Hu H] Hw; rewrite H.
  - exact Hw.
  - destruct Hw as [Hpk Hem]. split.
    + unfold pkey_ok. rewrite map_map.
      replace (map _ (users w)) with (map ID (users w)); [exact Hpk|].
      apply map_ext. intros x. destruct (hit id x); reflexivity.
    + unfold emails_ok. rewrite map_map.
      replace (map _ (users w)) with (map Email (users w)); [exact Hem|].
      apply map_ext. intros x. destruct (hit id x); reflexivity.
  - eapply checked_write_keeps; [apply Create_checked|now rewrite H0].
  - eapply checked_write_keeps; [apply Save_checked|now rewrite H0].
Qed.

(** X15.  In every world the server reaches from an empty [users] table,
    whatever requests it served and whatever the driver did in between,
    no two rows share a key, no key is zero, and no two rows, deleted ones
    included, share an e-mail. *)
Theorem reachable_tables_are_keyed
  (bcrypt : nat -> string -> Z -> result string) (isEmail : string -> bool) (w : World) :
  reachable bcrypt isEmail w ->
  pkey_ok (users w) /\ emails_ok (users w).
Proof.
  induction 1 as [w H|w route ctx _ IH|w now script _ IH].
  - rewrite H. repeat split; try constructor. intros [].
  - eapply table_step_checked; [apply Register_step|exact IH].
  - exact IH.
Qed.

Lemma reachable_tables_are_keyed_witness :
  pkey_ok (users (snd (Register sample.hash sample.isEmail POST_users
                         sample.post_ann sample.empty)))
  /\ emails_ok (users (snd (Register sample.hash sample.isEmail POST_users
                              sample.post_ann sample.empty))).
Proof.
  apply (reachable_tables_are_keyed sample.hash sample.isEmail).
  apply reach_serve. apply reach_start. reflexivity.
Defined.

(** ** The request logger *)

Lemma prefix_app (s t : string) : String.prefix s (s ++ t)%string = true.
Proof.
  induction s as [|c s IH]; simpl; [destruct t; reflexivity|].
  destruct (ascii_dec c c); [exact IH|contradiction].
Qed.

Lemma Contains_infix (pre sub post : string) :
  middleware.Contains (pre ++ sub ++ post)%string sub = true.
Proof.
  induction pre as [|c pre IH].
  - change ("" ++ sub ++ post)%string with (sub ++ post)%string.
    pose proof (prefix_app sub post) as H.
    destruct (sub ++ post)%string; cbn [middleware.Contains]; now rewrite H.
  - change (String c pre ++ sub ++ post)%string
      with (String c (pre ++ sub ++ post))%string.
    cbn [middleware.Contains].
    destruct (String.prefix sub (String c (pre ++ sub ++ post))); [reflexivity|].
    exact IH.
Qed.

(** X16.  For every request whose path contains [/users], which is the
    case of every route of the user controller, the log entry has the
    seven fields client_ip, method, path, query, status, duration and
    user_agent and nothing else: neither the request body, which carries
    the password on creation, nor the response body is logged, whatever
    the content type and the status. *)
Theorem user_routes_log_no_body
  (req : middleware.Request) (status duration : Z) (responseBody pre post : string) :
  middleware.Path req = (pre ++ "/users" ++ post)%string ->
  snd (middleware.RequestLogger req status duration responseBody)
  = [middleware.String_ "client_ip" (middleware.ClientIP req);
     middleware.String_ "method" (middleware.Method req);
     middleware.String_ "path" (middleware.Path req);
     middleware.String_ "query" (middleware.RawQuery req);
     middleware.Int_ "status" status;
     middleware.Duration_ "duration" duration;
     middleware.String_ "user_agent" (middleware.UserAgent req)].
Proof.
  intros Hpath.
  assert (Hc : middleware.Contains (middleware.Path req) "/users" = true).
  { rewrite Hpath. apply Contains_infix. }
  assert (Hreq : middleware.isRequestSensitive (middleware.Path req) = true).
  { unfold middleware.isRequestSensitive. apply existsb_exists.
    exists "/users". split; [simpl; tauto|exact Hc]. }
  assert (Hresp : middleware.isResponseSensitive (middleware.Path req) = true).
  { unfold middleware.isResponseSensitive. apply existsb_exists.
    exists "/users". split; [simpl; tauto|exact Hc]. }
  unfold middleware.RequestLogger. cbv zeta. rewrite Hreq, Hresp.
  rewrite !andb_false_r.
  destruct (negb (middleware.isMediaContentType (middleware.ContentType req)));
    reflexivity.
Qed.

Lemma user_routes_log_no_body_witness :
  map middleware.key_of
      (snd (middleware.RequestLogger fixtures.signup 201 1500000 "{}"))
  = ["client_ip"; "method"; "path"; "query"; "status"; "duration"; "user_agent"].
Proof.
  rewrite (user_routes_log_no_body fixtures.signup 201 1500000 "{}" "/api/v1" ""
             eq_refl).
  reflexivity.
Defined.

Lemma length_take (n : nat) (s : string) :
  String.length (middleware.take n s) = Nat.min n (String.length s).
Proof.
  revert s; induction n as [|n IH]; intros [|c s]; simpl; auto.
Qed.

Lemma length_app (s t : string) :
  String.length (s ++ t)%string = (String.length s + String.length t)%nat.
Proof. induction s as [|c s IH]; simpl; auto. Qed.

Lemma take_prefix (n : nat) (s : string) : String.prefix (middleware.take n s) s = true.
Proof.
  revert s; induction n as [|n IH]; intros [|c s]; simpl; auto.
  destruct (ascii_dec c c); [apply IH|contradiction].
Qed.

Lemma truncateBody_spec (body : string) :
  (String.length (middleware.truncateBody body) <= middleware.maxBodySize + 14)%nat
  /\ ((String.length body <= middleware.maxBodySize)%nat ->
      middleware.truncateBody body = body)
  /\ ((middleware.maxBodySize < String.length body)%nat ->
      exists kept,
        middleware.truncateBody body = (kept ++ "...(truncated)")%string
        /\ String.length kept = middleware.maxBodySize
        /\ String.prefix kept body = true).
Proof.
  unfold middleware.truncateBody.
  destruct (middleware.maxBodySize <? String.length body)%nat eqn:E.
  - apply Nat.ltb_lt in E. conj.
    + rewrite length_app, length_take. simpl String.length. lia.
    + lia.
    + intros _. exists (middleware.take middleware.maxBodySize body). conj.
      * reflexivity.
      * rewrite length_take. lia.
      * apply take_prefix.
  - apply Nat.ltb_ge in E. conj; [lia|reflexivity|lia].
Qed.

(** X17.  Whatever the request and the response, a body field of the log
    entry holds at most [maxBodySize] (10 KiB) bytes of the body followed
    by the 14 bytes of the marker [...(truncated)]; a body of at most
    [maxBodySize] bytes is logged as it is, a longer one as its first
    [maxBodySize] bytes and the marker. *)
Theorem logged_bodies_are_bounded
  (req : middleware.Request) (status duration : Z) (responseBody : string) :
  (forall key value,
      In (middleware.String_ key value)
         (snd (middleware.RequestLogger req status duration responseBody)) ->
      key = "request_body" \/ key = "response_body" ->
      (String.length value <= middleware.maxBodySize + 14)%nat
      /\ (value = middleware.truncateBody (middleware.RequestBody req)
          \/ value = middleware.truncateBody responseBody))
  /\ (forall body,
        ((String.length body <= middleware.maxBodySize)%nat ->
         middleware.truncateBody body = body)
        /\ ((middleware.maxBodySize < String.length body)%nat ->
            exists kept,
              middleware.truncateBody body = (kept ++ "...(truncated)")%string
              /\ String.length kept = middleware.maxBodySize
              /\ String.prefix kept body = true)).
Proof.
  split.
  - intros key value Hin Hkey.
    assert (Hcases : value = middleware.truncateBody (middleware.RequestBody req)
                     \/ value = middleware.truncateBody responseBody).
    { unfold middleware.RequestLogger in Hin. cbv zeta in Hin. simpl snd in Hin.
      repeat match type of Hin with
             | context [if ?b then _ else _] => destruct b
             end;
        simpl in Hin;
        repeat (destruct Hin as [Hin|Hin];
                [try discriminate Hin; inversion Hin; subst;
                 first [destruct Hkey as [Hk|Hk]; discriminate Hk | auto]|]);
        contradiction. }
    split; [|exact Hcases].
    destruct Hcases as [-> | ->]; apply truncateBody_spec.
  - intros body. destruct (truncateBody_spec body) as (_ & H2 & H3).
    split; assumption.
Qed.

Lemma logged_bodies_are_bounded_witness :
  middleware.truncateBody "{}" = "{}".
Proof.
  apply (proj2 (logged_bodies_are_bounded fixtures.signup 200 0 "") "{}").
  unfold middleware.maxBodySize. simpl String.length. lia.
Defined.

Example items_route_logs_bodies :
  map middleware.key_of
      (snd (middleware.RequestLogger
              (middleware.mkRequest "10.0.0.1" "POST" "/items/" "" "curl/8"
                                    "application/json" "{}")
              201 1500000 "{}"))
  = ["client_ip"; "method"; "path"; "query"; "status"; "duration"; "user_agent";
     "request_body"; "response_body"].
Proof. reflexivity. Qed.

(** ** config *)

Lemma wrap64_small (z : Z) :
  (- 2 ^ 63 <= z < 2 ^ 63)%Z -> config.wrap64 z = z.
Proof.
  intros H. unfold config.wrap64. rewrite Z.mod_small; lia.
Qed.

Lemma wrap64_range (z : Z) : (- 2 ^ 63 <= config.wrap64 z < 2 ^ 63)%Z.
Proof.
  unfold config.wrap64.
  pose proof (Z.mod_pos_bound (z + 2 ^ 63) (2 ^ 64) ltac:(lia)). lia.
Qed.

(** X18.  [getEnvDuration] returns the default for a variable that is not
    set or does not hold an integer.  For one that holds the integer [n]
    the result is [n] seconds exactly when [n] lies between -9223372036
    and 9223372036, negative values included; outside that range the
    product overflows and the result is not [n] seconds. *)
Theorem getEnvDuration_seconds (env : config.Env) (key : string) (defaultValue : Z) :
  (env key = None -> config.getEnvDuration env key defaultValue = defaultValue)
  /\ (forall value, env key = Some value -> strconv.Atoi value = None ->
        config.getEnvDuration env key defaultValue = defaultValue)
  /\ (forall value n, env key = Some value -> strconv.Atoi value = Some n ->
        (config.getEnvDuration env key defaultValue = n * config.Second
         <-> -9223372036 <= n <= 9223372036)%Z).
Proof.
  unfold config.getEnvDuration. conj.
  - intros ->. reflexivity.
  - intros value -> ->. reflexivity.
  - intros value n -> ->. unfold config.Second. split.
    + intros H. pose proof (wrap64_range (n * 1000000000)) as Hr.
      rewrite H in Hr. lia.
    + intros H. apply wrap64_small. lia.
Qed.

Lemma getEnvDuration_seconds_witness :
  config.getEnvDuration (fixtures.env_of [("SERVER_READ_TIMEOUT", "-5")])
                        "SERVER_READ_TIMEOUT" (10 * config.Second)
  = (-5 * config.Second)%Z.
Proof.
  apply (proj2 (proj2 (getEnvDuration_seconds
                         (fixtures.env_of [("SERVER_READ_TIMEOUT", "-5")])
                         "SERVER_READ_TIMEOUT" (10 * config.Second)))
           "-5" (-5)%Z eq_refl eq_refl).
  lia.
Defined.

Lemma getEnv_agree env1 env2 key d :
  env1 key = env2 key -> config.getEnv env1 key d = config.getEnv env2 key d.
Proof. unfold config.getEnv. intros ->. reflexivity. Qed.

Lemma getEnvDuration_agree env1 env2 key d :
  env1 key = env2 key ->
  config.getEnvDuration env1 key d = config.getEnvDuration env2 key d.
Proof. unfold config.getEnvDuration. intros ->. reflexivity. Qed.

(** X19.  [LoadConfig] reads the eleven variables of [config.keys] and
    nothing else: two environments that agree on them give the same
    configuration.  With none of them set it returns the defaults: port
    8080, read and write timeouts of ten seconds, mode debug, log level
    info, and the DSN of the local PostgreSQL database. *)
Theorem LoadConfig_reads_its_keys (env1 env2 : config.Env) :
  (forall key, In key config.keys -> env1 key = env2 key) ->
  config.LoadConfig env1 = config.LoadConfig env2
  /\ ((forall key, In key config.keys -> env1 key = None) ->
      exists c,
        config.LoadConfig env1 = Ok c
        /\ config.Server c
           = config.mkServerConfig "8080" (10 * config.Second) (10 * config.Second) "debug"
        /\ config.Logging c = config.mkLoggingConfig "info"
        /\ config.GetDSN (config.Database c)
           = "host=localhost port=5432 user=postgres password=postgres dbname=gin_crud sslmode=disable").
Proof.
  intros Hagree. split.
  - unfold config.LoadConfig.
    repeat match goal with
           | |- context [config.getEnv env1 ?k ?d] =>
               rewrite (getEnv_agree env1 env2 k d)
                 by (apply Hagree; simpl; tauto)
           | |- context [config.getEnvDuration env1 ?k ?d] =>
               rewrite (getEnvDuration_agree env1 env2 k d)
                 by (apply Hagree; simpl; tauto)
           end.
    reflexivity.
  - intros Hnone. eexists. split; [reflexivity|].
    unfold config.getEnv, config.getEnvDuration; simpl.
    rewrite !Hnone by (simpl; tauto). conj; reflexivity.
Qed.

Lemma LoadConfig_reads_its_keys_witness :
  config.LoadConfig (fixtures.env_of [("HOME", "/root")])
  = config.LoadConfig (fixtures.env_of []).
Proof.
  refine (proj1 (LoadConfig_reads_its_keys (fixtures.env_of [("HOME", "/root")])
                   (fixtures.env_of []) _)).
  intros key Hin. simpl in Hin.
  repeat (destruct Hin as [<-|Hin]; [reflexivity|]). contradiction.
Defined.

(** ** The statuses of the routes *)

Ltac among := simpl; repeat first [left; reflexivity | right].

Lemma Create_errors user w e :
  snd (fst (repository.Create user w)) = Some e ->
  e = duplicate_email (Email user)
  \/ exists cause, e = database_error "Failed to create user" cause.
Proof.
  rewrite Create_eq. cbv zeta.
  destruct (fst (repository.FindByEmail _ _)); simpl.
  - intros E; inversion E; auto.
  - destruct (fst (gorm.Create _ _)); simpl; intros E; inversion E; eauto.
Qed.

Lemma save_and_answer_status u w w' :
  In (status (fst (match fst (save_and_answer u w) with
                   | Ok user =>
                       ret (controller.JSON apperrors.StatusOK (marshal_UserResponse user))
                   | Err err => ret (controller.handleError err)
                   end w'))) [200; 400; 404; 500]%Z.
Proof.
  pose proof (save_and_answer_errors u w) as H.
  destruct (fst (save_and_answer u w)) as [resp|e]; [among|].
  destruct (H e eq_refl) as [->|[cause ->]]; among.
Qed.

(** X20.  Every response of a route of the user controller carries one of
    the statuses its handler announces: 200 or 500 for the list; 200,
    400, 404 or 500 for a read and for an update; 201, 400, 409 or 500
    for a creation; 204, 400, 404 or 500 for a deletion.  In particular
    an update never answers 409 and a creation never answers 404. *)
Theorem routes_answer_announced_statuses
  (bcrypt : nat -> string -> Z -> result string) (isEmail : string -> bool)
  (route : Route) (ctx : Context) (w : World) :
  In (status (fst (Register bcrypt isEmail route ctx w))) (announced route).
Proof.
  destruct route; simpl Register; unfold announced.
  - unfold controller.GetAllUsers, service.GetAllUsers.
    rewrite !bind_run. simpl fst. rewrite FindAll_eq. simpl.
    destruct (fault _); among.
  - unfold controller.GetUserByID.
    destruct (controller.parseIDParam ctx) as [id|e]; [|among].
    rewrite bind_run, GetUserByID_service_eq. cbv zeta. rewrite FindByID_eq. simpl.
    destruct (fault _); [among|]. destruct (gorm.lowest _); among.
  - unfold controller.CreateUser.
    destruct (binding.ShouldBindJSON_UserCreate isEmail ctx) as [input|e]; [|among].
    rewrite bind_run, CreateUser_eq. cbv zeta.
    destruct (bcrypt _ _ _) as [h|err]; [|among].
    match goal with
    | |- context [repository.Create ?u ?w1] =>
        pose proof (Create_errors u w1) as H;
          destruct (fst (repository.Create u w1)) as [row [err|]]
    end; [|among].
    destruct (H err eq_refl) as [->|[cause ->]]; among.
  - unfold controller.UpdateUser.
    destruct (controller.parseIDParam ctx) as [id|e]; [|among].
    destruct (binding.ShouldBindJSON_UserUpdate isEmail ctx) as [input|e]; [|among].
    rewrite bind_run, UpdateUser_eq. cbv zeta. rewrite FindByID_eq. simpl fst.
    destruct (fault _); [among|]. destruct (gorm.lowest _) as [old|]; [|among].
    destruct (uPassword input) as [given|]; [|apply save_and_answer_status].
    destruct (bcrypt _ _ _); [apply save_and_answer_status|among].
  - unfold controller.DeleteUser.
    destruct (controller.parseIDParam ctx) as [id|e]; [|among].
    unfold service.DeleteUser. rewrite !bind_run. simpl fst. rewrite Delete_eq.
    destruct (fault _); [among|]. simpl.
    destruct (N.of_nat _ =? 0)%N; among.
Qed.

(** ** Deleting a user through the handler *)

Lemma soft_delete_misses (id t : N) (rows : list User) :
  (forall u, In u rows -> hit id u = false) ->
  map (fun r => if hit id r then with_DeletedAt (Some t) r else r) rows = rows.
Proof.
  intros H. rewrite <- (map_id rows) at 2. apply map_ext_in.
  intros r Hr. now rewrite (H r Hr).
Qed.

(** X21.  DELETE /api/v1/users/:id has four outcomes.  An id that is not
    a decimal number below 2^32 is answered 400 and nothing happens.
    Otherwise the service is entered and one soft delete is sent: when
    the driver fails it the answer is 500 DATABASE_ERROR; when no live
    row has the key the answer is 404 RESOURCE_NOT_FOUND with the id in
    the details; in both cases the table is as before.  When a live row
    has the key the answer is 204 with no body, and afterwards no live
    row has the key. *)
Theorem DeleteUser_outcomes (ctx : Context) (w : World) :
  let r := controller.DeleteUser ctx w in
  (strconv.ParseUint (Param_id ctx) 32 = None ->
   fst r = bad_request "Invalid ID format" /\ untouched w (snd r))
  /\ (forall id, strconv.ParseUint (Param_id ctx) 32 = Some id ->
        trace (snd r) = trace w ++ [EvService "DeleteUser"; EvSQL (SoftDeleteUser id)]
        /\ (forall msg, fault w = Some msg ->
              fst r = mkResponse 500
                        (Some (error_body "DATABASE_ERROR" "Failed to delete user" None))
              /\ users (snd r) = users w)
        /\ (fault w = None ->
            (forall u, In u (users w) -> hit id u = false) ->
            fst r = mkResponse 404
                      (Some (error_body "RESOURCE_NOT_FOUND" "User not found"
                               (Some (JObj [("id", JNum (Z.of_N id))]))))
            /\ users (snd r) = users w)
        /\ (fault w = None ->
            forall u, In u (users w) -> hit id u = true ->
            fst r = mkResponse 204 None
            /\ forall x, In x (users (snd r)) -> hit id x = false)).
Proof.
  cbv zeta. unfold controller.DeleteUser, controller.parseIDParam.
  destruct (strconv.ParseUint (Param_id ctx) 32) as [id|]; simpl.
  2:{ split; [|discriminate]. intros _. split; [reflexivity|apply untouched_refl]. }
  split; [discriminate|]. intros id' E; inversion E; subst id'; clear E.
  unfold service.DeleteUser. rewrite !bind_run. simpl fst. simpl snd.
  rewrite Delete_eq.
  set (w1 := set_trace _ w). change (fault w1) with (fault w).
  change (users w1) with (users w). change (clock w1) with (clock w).
  destruct (fault w) as [msg|] eqn:Ef; simpl.
  - autorewrite with world. simpl. rewrite <- app_assoc.
    conj; try discriminate; try reflexivity.
    intros msg' _. split; reflexivity.
  - destruct (N.of_nat (length (filter (hit id) (users w))) =? 0)%N eqn:En; simpl;
      autorewrite with world; simpl; rewrite <- ?app_assoc; simpl.
    + apply N.eqb_eq in En.
      assert (Hnone : filter (hit id) (users w) = [])
        by (destruct (filter (hit id) (users w)); [reflexivity|discriminate En]).
      conj; try discriminate; try reflexivity.
      * intros _ _. split; [reflexivity|]. apply soft_delete_misses.
        intros u Hu. destruct (hit id u) eqn:Eh; [|reflexivity].
        assert (Hin : In u (filter (hit id) (users w))) by (apply filter_In; auto).
        rewrite Hnone in Hin. destruct Hin.
      * intros _ u Hu Eh.
        assert (Hin : In u (filter (hit id) (users w))) by (apply filter_In; auto).
        rewrite Hnone in Hin. destruct Hin.
    + apply N.eqb_neq in En.
      conj; try discriminate; try reflexivity.
      * intros _ Hmiss. rewrite (hit_filter_none _ _ Hmiss) in En. now destruct En.
      * intros _ u Hu Eh. split; [reflexivity|].
        intros x Hx. destruct (hit id x) eqn:Ex; [|reflexivity].
        assert (Hin : In x (filter (hit id)
                              (map (fun r => if hit id r
                                             then with_DeletedAt (Some (clock w)) r else r)
                                   (users w)))) by (apply filter_In; auto).
        rewrite soft_deleted_not_hit in Hin. destruct Hin.
Qed.

Lemma DeleteUser_outcomes_witness :
  fst (controller.DeleteUser sample.get_1 fixtures.two_users) = mkResponse 204 None
  /\ fst (controller.DeleteUser sample.get_999 fixtures.two_users)
     = mkResponse 404
         (Some (error_body "RESOURCE_NOT_FOUND" "User not found"
                  (Some (JObj [("id", JNum 999)]))))
  /\ fst (controller.DeleteUser sample.get_abc fixtures.two_users)
     = bad_request "Invalid ID format".
Proof.
  pose proof (DeleteUser_outcomes sample.get_1 fixtures.two_users) as H1.
  pose proof (DeleteUser_outcomes sample.get_999 fixtures.two_users) as H2.
  pose proof (DeleteUser_outcomes sample.get_abc fixtures.two_users) as H3.
  cbv zeta in *. conj.
  - refine (proj1 (proj2 (proj2 (proj2 (proj2 H1 1%N eq_refl))) eq_refl
                     sample.ann_row _ eq_refl)).
    left. reflexivity.
  - refine (proj1 (proj1 (proj2 (proj2 (proj2 H2 999%N eq_refl))) eq_refl _)).
    intros u [<-|[<-|[]]]; reflexivity.
  - exact (proj1 (proj1 H3 eq_refl)).
Defined.

(** ** What the service writes to the log *)

Lemma logs_Create u w : logs (snd (gorm.Create u w)) = logs w.
Proof. apply (proj1 (Create_spec u w)). Qed.

Lemma logs_upsert u w : logs (snd (gorm.upsert u w)) = logs w.
Proof. apply (proj1 (upsert_spec u w)). Qed.

Lemma logs_Save u w : logs (snd (gorm.Save u w)) = logs w.
Proof.
  unfold gorm.Save. destruct (ID u =? 0)%N.
  - rewrite bind_run. simpl. apply logs_Create.
  - rewrite bind_run, exec_eq. simpl.
    destruct (fault w); [apply logs_sent|].
    rewrite bind_run. simpl.
    destruct (length _ =? 0)%nat; [rewrite logs_upsert; apply logs_sent|].
    destruct (negb _); [apply logs_sent|].
    destruct (existsb _ _); apply logs_sent.
Qed.

Lemma logs_repository_Create u w : logs (snd (repository.Create u w)) = logs w.
Proof.
  rewrite Create_eq. cbv zeta.
  destruct (fst (repository.FindByEmail _ _)); simpl; [apply logs_sent|].
  destruct (fst (gorm.Create _ _)); simpl; rewrite logs_Create; apply logs_sent.
Qed.

Lemma save_and_answer_logs u w :
  logs (snd (save_and_answer u w))
  = logs w ++ match fst (save_and_answer u w) with
              | Ok _ => []
              | Err _ => ["Failed to update user"]
              end.
Proof.
  unfold save_and_answer.
  destruct (fst (gorm.Save u w)) as [[row n]|e]; simpl.
  - destruct (n =? 0)%N; simpl; rewrite logs_Save; [reflexivity|now rewrite app_nil_r].
  - now rewrite logs_Save.
Qed.

Ltac quiet :=
  left; split; [solve [among]|simpl; autorewrite with world; reflexivity].
Ltac refused :=
  right; left; split;
  [reflexivity
  |first [left; simpl; autorewrite with world; reflexivity
         |right; eexists; split; [|simpl; autorewrite with world; reflexivity];
          simpl; tauto]].
Ltac logged :=
  right; right; split;
  [solve [among]
  |eexists; split; [|simpl; autorewrite with world; reflexivity]; simpl; tauto].

